(** * XPlane2Blender: the 2.49 converter and its helpers

    A shallow embedding of the parts of
      - [io_xplane2blender/xplane_helpers.py]
        ([firstMatchInList], [VerStruct], [XPlaneLogger]),
      - [xplane_249_converter/xplane_249_material_converter.py]
        ([_TexFaceModes], [_get_tf_modes_from_ctypes], [convert_materials]),
      - [xplane_249_converter/xplane_249_convert.py] ([do_249_conversion]),
    followed by the properties established about them.

    Python strings are modelled as [string], a character standing for the
    code point of its number (so the texts covered are those of code points
    below 256), Python integers as [Z], lists and tuples as [list], and the
    content of a [dict] as an association list that keeps the keys in the
    order of their first insertion; the order in which the interpreter
    iterates over a [dict] is a parameter where the code depends on it.  A
    call that can raise returns a [result]. *)

From Stdlib Require Import List ZArith QArith String Ascii Bool Lia.
From Stdlib Require Import Sorted Permutation DecimalString.
Import ListNotations.

Close Scope Q_scope.
Local Open Scope string_scope.
Local Open Scope list_scope.

(* ================================================================== *)
(** * Python values and outcomes *)
(* ================================================================== *)

Module Py.

(** The exceptions the modelled code can raise. *)
Inductive exn : Type :=
| ValueError
| TypeError
| IndexError
| KeyError (key : string)   (* the key that was not found *)
| AttributeError
| AssertionError (msg : string)
| SystemError (cause : exn)
| Exception (msg : string).

(** Outcome of a call: a returned value or a raised exception. *)
Inductive result (A : Type) : Type :=
| Ok (a : A)
| Raise (e : exn).
Arguments Ok {A} a.
Arguments Raise {A} e.

Definition bind {A B : Type} (r : result A) (k : A -> result B) : result B :=
  match r with
  | Ok a => k a
  | Raise e => Raise e
  end.

(** The dynamically typed values that occur in the modelled fields. *)
Inductive value : Type :=
| VNone
| VInt (z : Z)
| VStr (s : string).

End Py.

Notation "x <- c1 ;; c2" := (Py.bind c1 (fun x => c2))
(at level 61, c1 at next level, right associativity).

(* ================================================================== *)
(** * xplane_helpers.py *)
(* ================================================================== *)

(** ** firstMatchInList *)

Module FirstMatch.

(** A compiled pattern is known to [firstMatchInList] only through
    [pattern.fullmatch(item)], whose result is tested for truth: a match
    object is always true, [None] is false. *)
Definition Pattern := string -> bool.

(** What the function can hand back: one of the items, or the boolean
    [False].  [RNone] is listed so that the difference can be stated. *)
Inductive ret : Type :=
| RItem (item : string)
| RFalse
| RNone.

(** [for i in range(0, len(items)): item = items[i]; ...]: the loop visits
    the items from the front. *)
Fixpoint firstMatchInList (pattern : Pattern) (items : list string) : ret :=
  match items with
  | [] => RFalse
  | item :: rest =>
      if pattern item then RItem item else firstMatchInList pattern rest
  end.

End FirstMatch.

(** ** XPlaneLogger *)

Module Logger.

(** One buffered record: [{'type': .., 'message': .., 'context': ..}]. *)
Record message : Type := mkMessage {
  m_type : string;
  m_message : string;
  m_context : Py.value
}.

Section WithWorld.

(** Whatever the transports write to (console, text block, file). *)
Variable World : Type.

(** One registered sink: [{'fn': transport, 'types': messageTypes}].  The
    callable writes somewhere, and returns or raises. *)
Record transport : Type := mkTransport {
  t_fn : string -> string -> Py.value -> World -> World * Py.result unit;
  t_types : list string
}.

(** [self.transports], [self.messages]. *)
Record XPlaneLogger : Type := mkLogger {
  transports : list transport;
  messages : list message
}.

(** [__init__] *)
Definition init : XPlaneLogger := mkLogger [] [].

(** The default of [addTransport]'s [messageTypes]. *)
Definition default_messageTypes : list string :=
  ["error"; "warning"; "info"; "success"].

Definition addTransport (self : XPlaneLogger)
    (fn : string -> string -> Py.value -> World -> World * Py.result unit)
    (messageTypes : list string) : XPlaneLogger :=
  mkLogger (self.(transports) ++ [mkTransport fn messageTypes])
           self.(messages).

Definition addTransport_default (self : XPlaneLogger)
    (fn : string -> string -> Py.value -> World -> World * Py.result unit)
    : XPlaneLogger :=
  addTransport self fn default_messageTypes.

(** [messageType in transport['types']] *)
Definition py_in (x : string) (l : list string) : bool :=
  existsb (String.eqb x) l.

(** The [for transport in self.transports] loop of [log]: a transport that
    raises ends it. *)
Fixpoint dispatch (ts : list transport) (messageType msg : string)
    (context : Py.value) (w : World) : World * Py.result unit :=
  match ts with
  | [] => (w, Py.Ok tt)
  | t :: rest =>
      if py_in messageType t.(t_types)
      then match t.(t_fn) messageType msg context w with
           | (w1, Py.Ok _) => dispatch rest messageType msg context w1
           | (w1, Py.Raise e) => (w1, Py.Raise e)
           end
      else dispatch rest messageType msg context w
  end.

(** [log]: the logger after the call, and what the transports did. *)
Definition log (self : XPlaneLogger) (messageType msg : string)
    (context : Py.value) (w : World)
    : XPlaneLogger * (World * Py.result unit) :=
  let self' :=
    mkLogger self.(transports)
             (self.(messages) ++ [mkMessage messageType msg context]) in
  (self', dispatch self'.(transports) messageType msg context w).

(** [findOfType]: the loop appends to a list that starts empty. *)
Fixpoint findOfType_loop (ms : list message) (messageType : string)
    (acc : list message) : list message :=
  match ms with
  | [] => acc
  | m :: rest =>
      if String.eqb m.(m_type) messageType
      then findOfType_loop rest messageType (acc ++ [m])
      else findOfType_loop rest messageType acc
  end.

Definition findOfType (self : XPlaneLogger) (messageType : string)
    : list message :=
  findOfType_loop self.(messages) messageType [].

(** [hasOfType]: the loop returns [True] at the first hit. *)
Fixpoint hasOfType_loop (ms : list message) (messageType : string) : bool :=
  match ms with
  | [] => false
  | m :: rest =>
      if String.eqb m.(m_type) messageType then true
      else hasOfType_loop rest messageType
  end.

Definition hasOfType (self : XPlaneLogger) (messageType : string) : bool :=
  hasOfType_loop self.(messages) messageType.

Definition findErrors (self : XPlaneLogger) := findOfType self "error".
Definition hasErrors (self : XPlaneLogger) := hasOfType self "error".
Definition findWarnings (self : XPlaneLogger) := findOfType self "warning".
Definition hasWarnings (self : XPlaneLogger) := hasOfType self "warning".

End WithWorld.

Arguments mkTransport {World} _ _.
Arguments t_fn {World} _.
Arguments t_types {World} _.
Arguments mkLogger {World} _ _.
Arguments transports {World} _.
Arguments messages {World} _.
Arguments init {World}.
Arguments addTransport {World} _ _ _.
Arguments addTransport_default {World} _ _.
Arguments dispatch {World} _ _ _ _ _.
Arguments log {World} _ _ _ _ _.
Arguments findOfType {World} _ _.
Arguments hasOfType {World} _ _.
Arguments findErrors {World} _.
Arguments hasErrors {World} _.
Arguments findWarnings {World} _.
Arguments hasWarnings {World} _.

(** A transport that only records that it was called, and with what: the
    world is then the list of calls made so far. *)
Definition call : Type := (nat * (string * string * Py.value))%type.

Definition recorder (id : nat) (types : list string) : transport (list call) :=
  mkTransport (fun t m c w => (w ++ [(id, (t, m, c))], Py.Ok tt)) types.

(** A transport that records its call and then returns, or raises the
    exception given. *)
Definition probe (s : nat * list string * option Py.exn)
    : transport (list call) :=
  mkTransport
    (fun t m c w =>
       (w ++ [(fst (fst s), (t, m, c))],
        match snd s with
        | None => Py.Ok tt
        | Some e => Py.Raise e
        end))
    (snd (fst s)).

End Logger.

(** ** Text helpers: the string operations the version code relies on *)

Module Text.

Definition is_digit (c : ascii) : bool :=
  let n := nat_of_ascii c in (48 <=? n)%nat && (n <=? 57)%nat.

(** The class [[1-9]]. *)
Definition is_digit19 (c : ascii) : bool :=
  let n := nat_of_ascii c in (49 <=? n)%nat && (n <=? 57)%nat.

(** White space that [int()] strips.  A character stands for the code point
    of its number.  Below 127 the interpreter takes the white space of the
    C locale, tab to carriage return and the space; the separators 28 to 31
    are not stripped ([int] of such a string is a [ValueError]).  From 128
    on it takes the Unicode white space, of which NEL (133) and the
    no-break space (160) are below 256. *)
Definition is_space (c : ascii) : bool :=
  let n := nat_of_ascii c in
  ((9 <=? n)%nat && (n <=? 13)%nat) || (n =? 32)%nat
  || (n =? 133)%nat || (n =? 160)%nat.

Fixpoint contains (c : ascii) (s : string) : bool :=
  match s with
  | EmptyString => false
  | String d rest => Ascii.eqb c d || contains c rest
  end.

Fixpoint all (p : ascii -> bool) (s : string) : bool :=
  match s with
  | EmptyString => true
  | String d rest => p d && all p rest
  end.

(** The longest prefix whose characters satisfy [p], and the rest. *)
Fixpoint span (p : ascii -> bool) (s : string) : string * string :=
  match s with
  | EmptyString => (EmptyString, EmptyString)
  | String d rest =>
      if p d then let (a, b) := span p rest in (String d a, b)
      else (EmptyString, s)
  end.

(** The first [n] characters and the rest, when there are that many. *)
Fixpoint take (n : nat) (s : string) : option (string * string) :=
  match n with
  | O => Some (EmptyString, s)
  | S n' =>
      match s with
      | EmptyString => None
      | String d rest =>
          match take n' rest with
          | Some (a, b) => Some (String d a, b)
          | None => None
          end
      end
  end.

(** [s.split('.')]: never empty. *)
Fixpoint split_dot (s : string) : list string :=
  match s with
  | EmptyString => [EmptyString]
  | String d rest =>
      if Ascii.eqb d "."
      then EmptyString :: split_dot rest
      else match split_dot rest with
           | [] => [String d EmptyString]
           | p :: ps => String d p :: ps
           end
  end.

Fixpoint rev_onto (s acc : string) : string :=
  match s with
  | EmptyString => acc
  | String d rest => rev_onto rest (String d acc)
  end.

Definition rev (s : string) : string := rev_onto s EmptyString.

Fixpoint lstrip (s : string) : string :=
  match s with
  | EmptyString => EmptyString
  | String d rest => if is_space d then lstrip rest else s
  end.

Definition strip (s : string) : string := rev (lstrip (rev (lstrip s))).

Definition digit_val (c : ascii) : Z := Z.of_nat (nat_of_ascii c) - 48.

(** The number a string of decimal digits denotes. *)
Fixpoint digits_onto (s : string) (acc : Z) : Z :=
  match s with
  | EmptyString => acc
  | String d rest => digits_onto rest (10 * acc + digit_val d)
  end.

Definition digits_value (s : string) : Z := digits_onto s 0.

Definition nonempty (s : string) : bool :=
  match s with EmptyString => false | _ => true end.

(** [int(s)] on a string, base 10: surrounding white space, an optional
    sign, then one or more decimal digits; anything else is a
    [ValueError].  (The grammar is the one of the interpreter embedded in
    the 2.7x host, which has no digit-group underscores.) *)
Definition py_int (s : string) : Py.result Z :=
  let body := strip s in
  let '(sign, ds) :=
    match body with
    | String "+" r => (1%Z, r)
    | String "-" r => ((-1)%Z, r)
    | _ => (1%Z, body)
    end in
  if nonempty ds && all is_digit ds
  then Py.Ok (sign * digits_value ds)%Z
  else Py.Raise Py.ValueError.

(** [[f(v) for v in l]] where [f] can raise: the first failure ends it. *)
Fixpoint map_result {A B : Type} (f : A -> Py.result B) (l : list A)
    : Py.result (list B) :=
  match l with
  | [] => Py.Ok []
  | x :: rest =>
      y <- f x ;;
      ys <- map_result f rest ;;
      Py.Ok (y :: ys)
  end.

(** Strip a literal prefix. *)
Fixpoint expect (lit s : string) : option string :=
  match lit with
  | EmptyString => Some s
  | String c lit' =>
      match s with
      | EmptyString => None
      | String d rest => if Ascii.eqb c d then expect lit' rest else None
      end
  end.

(** [\d+], greedy. *)
Definition digits1 (s : string) : option (string * string) :=
  let (a, b) := span is_digit s in
  if nonempty a then Some (a, b) else None.

(** [[1-9]+], greedy. *)
Definition digits19_1 (s : string) : option (string * string) :=
  let (a, b) := span is_digit19 s in
  if nonempty a then Some (a, b) else None.

(** [\d{n}] *)
Definition digitsN (n : nat) (s : string) : option (string * string) :=
  match take n s with
  | Some (a, b) => if all is_digit a then Some (a, b) else None
  | None => None
  end.

End Text.

(** ** VerStruct *)

Module Ver.

(** The names [xplane_helpers.py] takes from [xplane_constants]; that module
    is not part of the sources at hand, so its values are a parameter. *)
Record constants : Type := mkConstants {
  BUILD_TYPE_DEV : string;
  BUILD_TYPE_LEGACY : string;
  BUILD_TYPES : list string;
  BUILD_NUMBER_NONE : string
}.

(** An instance to run the code on: the build type names are those of the
    format string in [parse_version]. *)
Definition sample_constants : constants :=
  mkConstants "dev" "leg" ["dev"; "alpha"; "beta"; "leg"; "rc"] "NO_BUILD_NUMBR".

(** The members of a [VerStruct].  [addon_version] is a tuple whose elements
    are whatever was stored: [parse_version] stores integers on one path and
    strings on the other. *)
Record VerStruct : Type := mkVer {
  addon_version : list Py.value;
  build_type : string;
  build_type_version : Z;
  data_model_version : Z;
  build_number : string
}.

(** *** Comparison of Python values and tuples *)

(** [a == b] *)
Definition value_eqb (a b : Py.value) : bool :=
  match a, b with
  | Py.VNone, Py.VNone => true
  | Py.VInt x, Py.VInt y => Z.eqb x y
  | Py.VStr s, Py.VStr t => String.eqb s t
  | _, _ => false
  end.

(** [a <= b]: defined between two integers and between two strings. *)
Definition value_le (a b : Py.value) : Py.result bool :=
  match a, b with
  | Py.VInt x, Py.VInt y => Py.Ok (Z.leb x y)
  | Py.VStr s, Py.VStr t => Py.Ok (String.leb s t)
  | _, _ => Py.Raise Py.TypeError
  end.

(** [a >= b] *)
Definition value_ge (a b : Py.value) : Py.result bool :=
  match a, b with
  | Py.VInt x, Py.VInt y => Py.Ok (Z.geb x y)
  | Py.VStr s, Py.VStr t => Py.Ok (String.leb t s)
  | _, _ => Py.Raise Py.TypeError
  end.

(** [tuple(a) == tuple(b)] *)
Fixpoint tuple_eqb (a b : list Py.value) : bool :=
  match a, b with
  | [], [] => true
  | x :: a', y :: b' => value_eqb x y && tuple_eqb a' b'
  | _, _ => false
  end.

(** [tuple(a) <= tuple(b)]: the first pair of unequal elements decides; when
    one tuple runs out, the lengths do. *)
Fixpoint tuple_le (a b : list Py.value) : Py.result bool :=
  match a, b with
  | [], _ => Py.Ok true
  | _ :: _, [] => Py.Ok false
  | x :: a', y :: b' =>
      if value_eqb x y then tuple_le a' b' else value_le x y
  end.

(** [tuple(a) >= tuple(b)] *)
Fixpoint tuple_ge (a b : list Py.value) : Py.result bool :=
  match a, b with
  | _, [] => Py.Ok true
  | [], _ :: _ => Py.Ok false
  | x :: a', y :: b' =>
      if value_eqb x y then tuple_ge a' b' else value_ge x y
  end.

(** [l.index(x)]: the first position of [x], a [ValueError] without one. *)
Fixpoint index (l : list string) (x : string) : Py.result Z :=
  match l with
  | [] => Py.Raise Py.ValueError
  | y :: rest =>
      if String.eqb y x then Py.Ok 0%Z
      else i <- index rest x ;; Py.Ok (i + 1)%Z
  end.

(** *** The build number as a date *)

Definition is_leap (y : Z) : bool :=
  ((y mod 4 =? 0) && (negb (y mod 100 =? 0) || (y mod 400 =? 0)))%Z.

Definition days_in_month (y m : Z) : Z :=
  if (m =? 2)%Z then (if is_leap y then 29 else 28)%Z
  else if ((m =? 4) || (m =? 6) || (m =? 9) || (m =? 11))%Z then 30%Z
  else 31%Z.

(** Whether [datetime.datetime(y, mo, d, h, mi, s, tzinfo=timezone.utc)]
    constructs (it raises [ValueError] otherwise). *)
Definition datetime_ok (y mo d h mi s : Z) : bool :=
  ((1 <=? y) && (y <=? 9999) &&
   (1 <=? mo) && (mo <=? 12) &&
   (1 <=? d) && (d <=? days_in_month y mo) &&
   (0 <=? h) && (h <=? 23) &&
   (0 <=? mi) && (mi <=? 59) &&
   (0 <=? s) && (s <=? 59))%Z.

(** [re.match(r"(\d{4})(\d{2})(\d{2})(\d{2})(\d{2})(\d{2})", s)]: the six
    groups, or [None]. *)
Definition match_datetime (s : string) : option (list string) :=
  match Text.digitsN 4 s with
  | Some (g1, s1) =>
  match Text.digitsN 2 s1 with
  | Some (g2, s2) =>
  match Text.digitsN 2 s2 with
  | Some (g3, s3) =>
  match Text.digitsN 2 s3 with
  | Some (g4, s4) =>
  match Text.digitsN 2 s4 with
  | Some (g5, s5) =>
  match Text.digitsN 2 s5 with
  | Some (g6, _) => Some [g1; g2; g3; g4; g5; g6]
  | None => None end
  | None => None end
  | None => None end
  | None => None end
  | None => None end
  | None => None end.

(** The [try] ... [except Exception] ... [else] at the end of [is_valid]:
    every exception in the [try] (the [AttributeError] of [None.groups()],
    the [ValueError] of the constructor) gives [False]. *)
Definition build_number_is_datetime (s : string) : bool :=
  match match_datetime s with
  | None => false
  | Some groups =>
      match Text.map_result Text.py_int groups with
      | Py.Ok [y; mo; d; h; mi; se] => datetime_ok y mo d h mi se
      | _ => false
      end
  end.

Section WithConstants.

Variable K : constants.

(** [VerStruct()] with every argument left at [None]. *)
Definition init : VerStruct :=
  mkVer [Py.VInt 0; Py.VInt 0; Py.VInt 0] K.(BUILD_TYPE_DEV) 0 0
        K.(BUILD_NUMBER_NONE).

(** [self.addon_version[i] >= n]; the index is in range where it is used. *)
Definition addon_ge (self : VerStruct) (i : nat) (n : Z) : Py.result bool :=
  match nth_error self.(addon_version) i with
  | Some v => value_ge v (Py.VInt n)
  | None => Py.Raise Py.IndexError
  end.

(** [is_valid]: [Some true], [Some false], or [None] when the function runs
    off its end without a [return]. *)
Definition is_valid (self : VerStruct) : Py.result (option bool) :=
  let types_correct := Nat.eqb (List.length self.(addon_version)) 3 in
  if negb types_correct
  then Py.Raise (Py.Exception "Incorrect types passed into VerStruct")
  else
    c0 <- addon_ge self 0 3 ;;
    c1 <- (if c0 then addon_ge self 1 0 else Py.Ok false) ;;
    c2 <- (if c1 then addon_ge self 2 0 else Py.Ok false) ;;
    if c2 then
      i <- index K.(BUILD_TYPES) self.(build_type) ;;
      if negb (i =? -1)%Z then
        let is_dev_or_legacy :=
          String.eqb self.(build_type) K.(BUILD_TYPE_DEV)
          || String.eqb self.(build_type) K.(BUILD_TYPE_LEGACY) in
        let fails_reqs :=
          if is_dev_or_legacy
          then (false || (0 <? self.(build_type_version))%Z)
               || negb (String.eqb self.(build_number) K.(BUILD_NUMBER_NONE))
          else false || (self.(build_type_version) <=? 0)%Z in
        if fails_reqs then Py.Ok (Some false)
        else if String.eqb self.(build_type) K.(BUILD_TYPE_LEGACY)
                && negb (self.(data_model_version) =? 0)%Z
        then Py.Ok (Some false)
        else if negb (String.eqb self.(build_type) K.(BUILD_TYPE_LEGACY))
                && (self.(data_model_version) <=? 0)%Z
        then Py.Ok (Some false)
        else if String.eqb self.(build_number) K.(BUILD_NUMBER_NONE)
        then Py.Ok (Some true)
        else Py.Ok (Some (build_number_is_datetime self.(build_number)))
      else Py.Ok None
    else Py.Ok None.

(** [cmp]: the three nested blocks in the order of the source, then the
    trailing [raise]. *)
Definition cmp (lhs rhs : VerStruct)
    (include_data_model_version include_build_number : bool) : Py.result Z :=
  let block_eq : option Z :=
    if tuple_eqb lhs.(addon_version) rhs.(addon_version) then
      if String.eqb lhs.(build_type) rhs.(build_type) then
        if (lhs.(build_type_version) =? rhs.(build_type_version))%Z then
          let is_data_model_eq :=
            (lhs.(data_model_version) =? rhs.(data_model_version))%Z in
          let is_build_num_eq :=
            String.eqb lhs.(build_number) rhs.(build_number) in
          if include_data_model_version && is_data_model_eq
             && include_build_number && is_build_num_eq then Some 0%Z
          else if include_data_model_version && is_data_model_eq then Some 0%Z
          else if include_build_number && is_build_num_eq then Some 0%Z
          else Some 0%Z
        else None
      else None
    else None in
  match block_eq with
  | Some r => Py.Ok r
  | None =>
    le <- tuple_le lhs.(addon_version) rhs.(addon_version) ;;
    block_lt <-
      (if le then
         il <- index K.(BUILD_TYPES) lhs.(build_type) ;;
         ir <- index K.(BUILD_TYPES) rhs.(build_type) ;;
         if (il <=? ir)%Z then
           if (lhs.(build_type_version) <=? rhs.(build_type_version))%Z then
             let is_data_model_lt :=
               (lhs.(data_model_version) <? rhs.(data_model_version))%Z in
             let is_build_num_lt :=
               String.ltb lhs.(build_number) rhs.(build_number) in
             if include_data_model_version && is_data_model_lt
                && include_build_number && is_build_num_lt
             then Py.Ok (Some (-1)%Z)
             else if include_data_model_version && is_data_model_lt
             then Py.Ok (Some (-1)%Z)
             else if include_build_number && is_build_num_lt
             then Py.Ok (Some (-1)%Z)
             else Py.Ok (Some (-1)%Z)
           else Py.Ok None
         else Py.Ok None
       else Py.Ok None) ;;
    match block_lt with
    | Some r => Py.Ok r
    | None =>
      ge <- tuple_ge lhs.(addon_version) rhs.(addon_version) ;;
      block_gt <-
        (if ge then
           il <- index K.(BUILD_TYPES) lhs.(build_type) ;;
           ir <- index K.(BUILD_TYPES) rhs.(build_type) ;;
           if (il >=? ir)%Z then
             if (lhs.(build_type_version) >=? rhs.(build_type_version))%Z then
               let is_data_model_gt :=
                 (lhs.(data_model_version) >? rhs.(data_model_version))%Z in
               let is_build_num_gt :=
                 String.ltb rhs.(build_number) lhs.(build_number) in
               if include_data_model_version && is_data_model_gt
                  && include_build_number && is_build_num_gt
               then Py.Ok (Some 1%Z)
               else if include_data_model_version && is_data_model_gt
               then Py.Ok (Some 1%Z)
               else if include_build_number && is_build_num_gt
               then Py.Ok (Some 1%Z)
               else Py.Ok (Some 1%Z)
             else Py.Ok None
           else Py.Ok None
         else Py.Ok None) ;;
      match block_gt with
      | Some r => Py.Ok r
      | None => Py.Raise (Py.Exception "cmp function not implemented properly")
      end
    end
  end.

(** [(alpha|beta|dev|leg|rc)]: the first alternative that matches. *)
Definition match_build_type (s : string) : option (string * string) :=
  match Text.expect "alpha" s with
  | Some r => Some ("alpha", r)
  | None =>
  match Text.expect "beta" s with
  | Some r => Some ("beta", r)
  | None =>
  match Text.expect "dev" s with
  | Some r => Some ("dev", r)
  | None =>
  match Text.expect "leg" s with
  | Some r => Some ("leg", r)
  | None =>
  match Text.expect "rc" s with
  | Some r => Some ("rc", r)
  | None => None
  end end end end end.

(** A successful [re.match]: groups 1 to 3, and 4 and 5 when the format has
    its second half. *)
Record version_match : Type := mkMatch {
  group1 : string;
  group2 : string;
  group3 : string;
  group45 : option (string * string)
}.

Definition opt_bind {A B : Type} (o : option A) (k : A -> option B)
    : option B :=
  match o with Some a => k a | None => None end.

(** [re.match(format_str, version_str)] where [format_str] is
    [(\d+\.\d+\.\d+)-(alpha|beta|dev|leg|rc)\.([1-9]+)], followed by
    [\+(\d+)\.(\d{14})] when [with_plus].  Each greedy run is followed by a
    character outside its class, so giving characters back never helps and
    the longest runs decide. *)
Definition match_version (with_plus : bool) (s : string)
    : option version_match :=
  opt_bind (Text.digits1 s) (fun '(a, s) =>
  opt_bind (Text.expect "." s) (fun s =>
  opt_bind (Text.digits1 s) (fun '(b, s) =>
  opt_bind (Text.expect "." s) (fun s =>
  opt_bind (Text.digits1 s) (fun '(c, s) =>
  opt_bind (Text.expect "-" s) (fun s =>
  opt_bind (match_build_type s) (fun '(bt, s) =>
  opt_bind (Text.expect "." s) (fun s =>
  opt_bind (Text.digits19_1 s) (fun '(n, s) =>
  let g1 := (a ++ "." ++ b ++ "." ++ c)%string in
  if with_plus then
    opt_bind (Text.expect "+" s) (fun s =>
    opt_bind (Text.digits1 s) (fun '(dm, s) =>
    opt_bind (Text.expect "." s) (fun s =>
    opt_bind (Text.digitsN 14 s) (fun '(bn, _) =>
    Some (mkMatch g1 bt n (Some (dm, bn)))))))
  else Some (mkMatch g1 bt n None)))))))))).

(** [parse_version]: a [VerStruct], or [None]. *)
Definition parse_version (version_str : string)
    : Py.result (option VerStruct) :=
  let version_struct := init in
  version_struct <-
    (if Text.contains "-" version_str then
       let with_plus := Text.contains "+" version_str in
       match match_version with_plus version_str with
       | Some m =>
           btv <- Text.py_int m.(group3) ;;
           let v :=
             mkVer (map Py.VStr (Text.split_dot m.(group1)))
                   m.(group2) btv
                   version_struct.(data_model_version)
                   version_struct.(build_number) in
           if with_plus then
             match m.(group45) with
             | Some (g4, g5) =>
                 dmv <- Text.py_int g4 ;;
                 Py.Ok (mkVer v.(addon_version) v.(build_type)
                              v.(build_type_version) dmv g5)
             | None => Py.Raise Py.IndexError
             end
           else Py.Ok v
       | None => Py.Ok version_struct
       end
     else
       parts <- Text.map_result Text.py_int (Text.split_dot version_str) ;;
       Py.Ok (mkVer (map Py.VInt parts) K.(BUILD_TYPE_LEGACY)
                    version_struct.(build_type_version)
                    version_struct.(data_model_version)
                    version_struct.(build_number))) ;;
  valid <- is_valid version_struct ;;
  match valid with
  | Some true => Py.Ok (Some version_struct)
  | _ => Py.Ok None
  end.

End WithConstants.

End Ver.

(* ================================================================== *)
(** * xplane_249_converter/xplane_249_constants.py (not among the sources) *)
(* ================================================================== *)

Module Constants249.

(** Modelled from the spec: the enumeration [WorkflowType] of
    [xplane_249_constants], whose declaration is missing; the glossary gives
    its members as "an operating mode (regular / bulk / skip)", and the code
    names them [REGULAR], [BULK] and [SKIP]. *)
Inductive WorkflowType : Type :=
| REGULAR
| BULK
| SKIP.

Definition WorkflowType_eqb (a b : WorkflowType) : bool :=
  match a, b with
  | REGULAR, REGULAR | BULK, BULK | SKIP, SKIP => true
  | _, _ => false
  end.

End Constants249.

(* ================================================================== *)
(** * xplane_249_converter/xplane_249_material_converter.py *)
(* ================================================================== *)

Module MaterialConverter.

Import Constants249.

(** ** _TexFaceModes *)

(** The named tuple of the nine face buttons, [True] when pressed. *)
Record _TexFaceModes : Type := mkTexFaceModes {
  TEX : bool;
  TILES : bool;
  LIGHT : bool;
  INVISIBLE : bool;
  DYNAMIC : bool;
  TWOSIDE : bool;
  SHADOW : bool;
  ALPHA : bool;
  CLIP : bool
}.

(** Equality of the tuples, which is what the dictionary keys on. *)
Definition tf_eqb (a b : _TexFaceModes) : bool :=
  Bool.eqb a.(TEX) b.(TEX) && Bool.eqb a.(TILES) b.(TILES)
  && Bool.eqb a.(LIGHT) b.(LIGHT) && Bool.eqb a.(INVISIBLE) b.(INVISIBLE)
  && Bool.eqb a.(DYNAMIC) b.(DYNAMIC) && Bool.eqb a.(TWOSIDE) b.(TWOSIDE)
  && Bool.eqb a.(SHADOW) b.(SHADOW) && Bool.eqb a.(ALPHA) b.(ALPHA)
  && Bool.eqb a.(CLIP) b.(CLIP).

(** [short_name]: the first two letters of every field that [_cmp_dyn]
    selects: [DYNAMIC] when it is not pressed, any other when pressed. *)
Definition short_name (self : _TexFaceModes) : string :=
  ((if self.(TEX) then "TE" else "")
   ++ (if self.(TILES) then "TI" else "")
   ++ (if self.(LIGHT) then "LI" else "")
   ++ (if self.(INVISIBLE) then "IN" else "")
   ++ (if negb self.(DYNAMIC) then "DY" else "")
   ++ (if self.(TWOSIDE) then "TW" else "")
   ++ (if self.(SHADOW) then "SH" else "")
   ++ (if self.(ALPHA) then "AL" else "")
   ++ (if self.(CLIP) then "CL" else ""))%string.

(** ** The mesh as [_get_tf_modes_from_ctypes] reads it *)

(** [MPoly]: the fields are C [int], [int], [short], [char]. *)
Record MPoly : Type := mkMPoly {
  loopstart : Z;
  totloop : Z;
  mat_nr : Z;
  mp_flag : Z
}.

(** [MTexPoly]: [mode] is a C [short] read as a signed integer; [transp] and
    [flag] are single bytes, held here by their value 0..255, which is what
    [int.from_bytes] of one byte gives in either byte order. *)
Record MTexPoly : Type := mkMTexPoly {
  tp_flag : Z;
  transp : Z;
  mode : Z;
  tile : Z
}.

(** [Mesh]: [totpoly] and the two arrays it is the length of.  A pointer is
    [None] when it is [NULL]. *)
Record Mesh : Type := mkMesh {
  totpoly : nat;
  mpoly : option (list MPoly);
  mtpoly : option (list MTexPoly)
}.

(** [p[:n]] on a ctypes pointer: [n] items read one by one.  The read of
    an item through a [NULL] pointer sets a [ValueError] ('NULL pointer
    access'), but the slice does not stop on it: it hands back its list with
    the error left set.  [Raise] stands here for that state; what becomes of
    it is up to the next call ([zip_slices]).  No item is read when [n] is
    0. *)
Definition ptr_slice {A : Type} (p : option (list A)) (n : nat)
    : Py.result (list A) :=
  match n with
  | O => Py.Ok []
  | S _ =>
      match p with
      | None => Py.Raise Py.ValueError
      | Some l => Py.Ok (firstn n l)
      end
  end.

(** [zip(a, b)] on the two slices.  Both slices are taken before [zip] is
    called; when one of them left its error set, [zip] is the first call
    that is checked, and the interpreter reports a [SystemError] (a result
    returned with an error set) whose cause is that error. *)
Definition zip_slices {A B : Type} (a : Py.result (list A))
    (b : Py.result (list B)) : Py.result (list (A * B)) :=
  match a, b with
  | Py.Ok la, Py.Ok lb => Py.Ok (combine la lb)
  | Py.Raise e, _ => Py.Raise (Py.SystemError e)
  | Py.Ok _, Py.Raise e => Py.Raise (Py.SystemError e)
  end.

(** [bool(x & (1 << k))] *)
Definition flag_set (x : Z) (k : Z) : bool :=
  negb (Z.land x (Z.shiftl 1 k) =? 0)%Z.

(** The [_TexFaceModes(...)] built in the loop body. *)
Definition decode (mtpoly_current : MTexPoly) : _TexFaceModes :=
  let mtpoly_mode := mtpoly_current.(mode) in
  let mtpoly_transp := mtpoly_current.(transp) in
  mkTexFaceModes
    (flag_set mtpoly_mode 2)
    (flag_set mtpoly_mode 7)
    (flag_set mtpoly_mode 4)
    (flag_set mtpoly_mode 10)
    (flag_set mtpoly_mode 0)
    (flag_set mtpoly_mode 9)
    (flag_set mtpoly_mode 13)
    (flag_set mtpoly_transp 1)
    (flag_set mtpoly_transp 2).

(** The content of a [defaultdict(list)] from face modes to polygon
    indices: the entries, kept in the order in which their keys were first
    inserted.  That order is a matter of this representation; the order in
    which the interpreter goes through a dictionary is [dict_order]
    below. *)
Definition tf_dict : Type := list (_TexFaceModes * list nat).

(** The order in which the interpreter goes through the entries of a
    dictionary keyed by face modes, given the entries in the order of
    insertion: that same order from Python 3.7 on, an order that follows
    the slots of the hash table before (the interpreter of the 2.7x host is
    of that kind).  Whatever the order, an iteration goes through every
    entry once. *)
Record dict_order : Type := mkOrder {
  entries :
    forall V : Type, list (_TexFaceModes * V) -> list (_TexFaceModes * V);
  visits_each_once :
    forall (V : Type) (l : list (_TexFaceModes * V)),
      Permutation (entries V l) l
}.

(** Two instances to run the code on: the order of insertion, and its
    reverse as an order that is not the one of insertion. *)
Definition insertion_order : dict_order :=
  mkOrder (fun V l => l) (fun V l => Permutation_refl l).

Definition reverse_order : dict_order :=
  mkOrder (fun V l => List.rev l)
          (fun V l => Permutation_sym (Permutation_rev l)).

(** [poly_c_info[tf_modes].append(idx)] *)
Fixpoint dict_append (d : tf_dict) (k : _TexFaceModes) (idx : nat) : tf_dict :=
  match d with
  | [] => [(k, [idx])]
  | (k', l) :: rest =>
      if tf_eqb k' k then (k', l ++ [idx]) :: rest
      else (k', l) :: dict_append rest k idx
  end.

(** [enumerate(l)] *)
Definition enumerate {A : Type} (l : list A) : list (nat * A) :=
  combine (seq 0 (List.length l)) l.

(** A material, with the [xplane] settings the conversion writes. *)
Record Material : Type := mkMaterial {
  mat_name : string;
  blend_v1000 : string;
  blendRatio : Q;
  draped : bool;
  poly_os : Z;
  draw : bool;
  solid_camera : bool;
  shadow_local : bool
}.

(** An object: its name, its type, its mesh and its material slots (a slot
    may be empty). *)
Record Object : Type := mkObject {
  name : string;
  type : string;
  data : Mesh;
  material_slots : list (option Material)
}.

(** [_get_tf_modes_from_ctypes] *)
Definition _get_tf_modes_from_ctypes (obj : Object) : Py.result tf_dict :=
  if negb (String.eqb obj.(type) "MESH")
  then Py.Raise (Py.AssertionError (obj.(name) ++ " is not a MESH type"))
  else
    let mesh := obj.(data) in
    polys <- zip_slices (ptr_slice mesh.(mpoly) mesh.(totpoly))
                        (ptr_slice mesh.(mtpoly) mesh.(totpoly)) ;;
    Py.Ok
      (fold_left
         (fun poly_c_info '(idx, (mpoly_current, mtpoly_current)) =>
            dict_append poly_c_info (decode mtpoly_current) idx)
         (enumerate polys)
         []).

(** ** _convert_material *)

(** The names taken from [xplane_constants] and, the last,
    [xplane_249_constants]; the modules are not among the sources, so the
    values are a parameter. *)
Record constants : Type := mkConstants {
  BLEND_OFF : string;
  BLEND_SHADOW : string;
  EXPORT_TYPE_INSTANCED_SCENERY : string;
  DEFAULT_MATERIAL_NAME : string
}.

Definition sample_constants : constants :=
  mkConstants "off" "shadow" "instanced_scenery" "249_default".

(** What [convert_materials] works on.
    - [scene_objects]: the objects of the scene.  An object is referred to
      by its position, so that the scene and the dictionary of the split
      refer to the same object.
    - [root_export_type]: the field [xplane.layer.export_type] of
      [root_object].  The root object is one of the host's objects, and
      [_convert_material] writes to this field of it; the field is held
      here, not in [Object], so a change of it is a change of this
      component and of no entry of [scene_objects].
    - [materials]: the names of the materials in [bpy.data.materials], where
      a material is looked up by its name. *)
Record State : Type := mkState {
  scene_objects : list Object;
  root_export_type : string;
  materials : list string
}.

Definition set_blend (m : Material) (b : string) (r : Q) : Material :=
  mkMaterial m.(mat_name) b r m.(draped) m.(poly_os) m.(draw)
             m.(solid_camera) m.(shadow_local).

Definition set_draped (m : Material) (v : bool) : Material :=
  mkMaterial m.(mat_name) m.(blend_v1000) m.(blendRatio) v m.(poly_os)
             m.(draw) m.(solid_camera) m.(shadow_local).

Definition set_poly_os (m : Material) (v : Z) : Material :=
  mkMaterial m.(mat_name) m.(blend_v1000) m.(blendRatio) m.(draped) v
             m.(draw) m.(solid_camera) m.(shadow_local).

Definition set_draw (m : Material) (v : bool) : Material :=
  mkMaterial m.(mat_name) m.(blend_v1000) m.(blendRatio) m.(draped)
             m.(poly_os) v m.(solid_camera) m.(shadow_local).

Definition set_solid_camera (m : Material) (v : bool) : Material :=
  mkMaterial m.(mat_name) m.(blend_v1000) m.(blendRatio) m.(draped)
             m.(poly_os) m.(draw) v m.(shadow_local).

Definition set_shadow_local (m : Material) (v : bool) : Material :=
  mkMaterial m.(mat_name) m.(blend_v1000) m.(blendRatio) m.(draped)
             m.(poly_os) m.(draw) m.(solid_camera) v.

Definition set_mat_name (m : Material) (n : string) : Material :=
  mkMaterial n m.(blend_v1000) m.(blendRatio) m.(draped) m.(poly_os)
             m.(draw) m.(solid_camera) m.(shadow_local).

Section WithHost.

Variable K : constants.

(** [xplane_249_helpers.find_property_in_parents(obj, name)[1]], as the
    truth value the code tests.  The helper is not among the sources. *)
Variable find_property_in_parents : Object -> string -> bool.

(** [xplane_249_helpers.get_all_children_recursive(root, scene)]; the scene
    is given by its objects.  The helper is not among the sources. *)
Variable get_all_children_recursive : Object -> list Object -> list Object.

(** The name the host gives a data block that asks for [wanted] while the
    names [used] are taken. *)
Variable unique_name : list string -> string -> string.

(** [_convert_material]: the new material and the root's export type after
    the call.  The source line that names the copy reads
    [mat.name + "_split_" tf_modes.short_name()]; it is taken as the
    concatenation of the three.  The calls to the logger are left out. *)
Definition _convert_material (root_export : string) (search_obj : Object)
    (is_cockpit : bool) (tf_modes : _TexFaceModes) (mat : Material)
    : Material * string :=
  let m0 :=
    set_mat_name mat (mat.(mat_name) ++ "_split_" ++ short_name tf_modes) in
  let '(m1, e1) :=
    if tf_modes.(TEX) then
      let '(ma, ea) :=
        if tf_modes.(ALPHA) then
          let '(mb, eb) :=
            if find_property_in_parents search_obj "ATTR_shadow_blend"
            then (set_blend m0 K.(BLEND_SHADOW) (1 # 2)%Q, root_export)
            else (m0, root_export) in
          if find_property_in_parents search_obj "GLOBAL_shadow_blend"
          then (set_blend mb K.(BLEND_SHADOW) (1 # 2)%Q,
                K.(EXPORT_TYPE_INSTANCED_SCENERY))
          else (mb, eb)
        else (m0, root_export) in
      if tf_modes.(CLIP) then
        let '(mc, ec) :=
          if find_property_in_parents search_obj "ATTR_no_blend"
          then (set_blend ma K.(BLEND_OFF) (1 # 2)%Q, ea)
          else (ma, ea) in
        if find_property_in_parents search_obj "GLOBAL_no_blend"
        then (set_blend mc K.(BLEND_OFF) (1 # 2)%Q,
              K.(EXPORT_TYPE_INSTANCED_SCENERY))
        else (mc, ec)
      else (ma, ea)
    else (m0, root_export) in
  let m2 :=
    if negb is_cockpit && (tf_modes.(TILES) || tf_modes.(LIGHT)) then
      if find_property_in_parents search_obj "ATTR_draped"
      then set_draped m1 true
      else set_poly_os m1 2
    else m1 in
  let m3 := if tf_modes.(INVISIBLE) then set_draw m2 false else m2 in
  let m4 :=
    if negb tf_modes.(INVISIBLE) && negb is_cockpit && negb tf_modes.(DYNAMIC)
    then set_solid_camera m3 true
    else m3 in
  (set_shadow_local m4 (negb tf_modes.(SHADOW)), e1).

(** The host operator behind [scene.objects.active.active_material_index =
    slot_idx; bpy.ops.object.material_slot_remove()], as a function of the
    active object. *)
Variable material_slot_remove : Object -> Z -> Object.

(** The order in which the interpreter goes through a dictionary. *)
Variable dict_items : dict_order.

(** [bpy.data.materials[name].users]: the host counts the users of a
    material, by rules that are not in the sources. *)
Variable material_users : State -> string -> nat.

(** ** convert_materials *)

(** Lines 342 to 347: the objects the conversion looks at. *)
Definition search_objs (scene_objs : list Object)
    (workflow_type : WorkflowType) (root_object : Object)
    : Py.result (list Object) :=
  match workflow_type with
  | REGULAR => Py.Ok scene_objs
  | BULK =>
      Py.Ok (root_object :: get_all_children_recursive root_object scene_objs)
  | SKIP => Py.Raise (Py.AssertionError "Unknown workflow type")
  end.

(** [s.lower()], a character standing for its code point: the letters A
    to Z and, of the upper half, the capital letters 192 to 222 (215, the
    multiplication sign, is none) have their small letter 32 further on. *)
Definition lower_char (c : ascii) : ascii :=
  let n := nat_of_ascii c in
  if ((65 <=? n)%nat && (n <=? 90)%nat)
     || ((192 <=? n)%nat && (n <=? 222)%nat && negb (n =? 215)%nat)
  then ascii_of_nat (n + 32) else c.

Fixpoint lower (s : string) : string :=
  match s with
  | EmptyString => EmptyString
  | String c rest => String (lower_char c) (lower rest)
  end.

(** [s.endswith(suffix)] *)
Definition endswith (s suffix : string) : bool :=
  String.prefix (Text.rev suffix) (Text.rev s).

(** [ISCOCKPIT] *)
Definition is_cockpit_name (layer_name : string) : bool :=
  existsb (fun cockpit_suffix =>
             endswith (lower layer_name ++ ".obj") cockpit_suffix)
          ["_cockpit.obj"; "_cockpit_inn.obj"; "_cockpit_out.obj"].

(** [sorted(l, key=lambda x: x.name)]: a stable sort on the names. *)
Fixpoint insert_by_name (x : Object) (l : list Object) : list Object :=
  match l with
  | [] => [x]
  | y :: rest =>
      if String.leb x.(name) y.(name) then x :: l
      else y :: insert_by_name x rest
  end.

Definition sorted_by_name (l : list Object) : list Object :=
  fold_right insert_by_name [] l.

Definition is_mesh (obj : Object) : bool := String.eqb obj.(type) "MESH".

(** Replace the object at a position. *)
Fixpoint update {A : Type} (l : list A) (i : nat) (x : A) : list A :=
  match l, i with
  | [], _ => []
  | _ :: rest, O => x :: rest
  | y :: rest, S i' => y :: update rest i' x
  end.

(** [copy_obj]: the copy is linked to the scene before it is renamed, so it
    stays there when the list of suffixes runs out.  The result is the
    position of the copy among the scene's objects. *)
Definition copy_obj (search_obj : Object) (i : nat) (st : State)
    : State * Py.result nat :=
  let used := map name st.(scene_objects) in
  let new_obj :=
    mkObject (unique_name used search_obj.(name)) search_obj.(type)
             search_obj.(data) search_obj.(material_slots) in
  let h := List.length st.(scene_objects) in
  match nth_error ["SHADOW"; "TILE"; "INVISIBLE"] i with
  | None =>
      (mkState (st.(scene_objects) ++ [new_obj]) st.(root_export_type)
               st.(materials),
       Py.Raise Py.IndexError)
  | Some suffix =>
      let renamed :=
        mkObject (unique_name used (new_obj.(name) ++ suffix))
                 new_obj.(type) new_obj.(data) new_obj.(material_slots) in
      (mkState (st.(scene_objects) ++ [renamed]) st.(root_export_type)
               st.(materials),
       Py.Ok h)
  end.

(** The dictionary comprehension [modes_to_faces_col]: one [copy_obj] per
    item of [all_tf_modes], in the order in which [items] has them, which
    is the one the interpreter goes through that dictionary in. *)
Fixpoint make_copies (search_obj : Object)
    (items : list (_TexFaceModes * list nat)) (i : nat)
    (st : State) : State * Py.result (list (_TexFaceModes * (list nat * nat))) :=
  match items with
  | [] => (st, Py.Ok [])
  | (tf_modes, faces_idx) :: rest =>
      match copy_obj search_obj i st with
      | (st1, Py.Raise e) => (st1, Py.Raise e)
      | (st1, Py.Ok h) =>
          match make_copies search_obj rest (S i) st1 with
          | (st2, Py.Raise e) => (st2, Py.Raise e)
          | (st2, Py.Ok col) => (st2, Py.Ok ((tf_modes, (faces_idx, h)) :: col))
          end
      end
  end.

Definition mem_nat (i : nat) (l : list nat) : bool := existsb (Nat.eqb i) l.
Definition mem_Z (i : Z) (l : list Z) : bool := existsb (Z.eqb i) l.

(** The elements at the given positions, in that order. *)
Definition select {A : Type} (idxs : list nat) (l : list A) : list A :=
  flat_map (fun i => match nth_error l i with Some x => [x] | None => [] end)
           idxs.

(** [sorted(s, reverse=True)] of a set of integers. *)
Fixpoint insert_desc (x : Z) (l : list Z) : list Z :=
  match l with
  | [] => [x]
  | y :: rest => if (y <=? x)%Z then x :: l else y :: insert_desc x rest
  end.

Fixpoint set_of (l : list Z) : list Z :=
  match l with
  | [] => []
  | x :: rest => if mem_Z x rest then set_of rest else x :: set_of rest
  end.

Definition sorted_desc (l : list Z) : list Z :=
  fold_right insert_desc [] (set_of l).

(** The faces of a mesh as [bmesh] sees them: position and material. *)
Definition face_material (mesh : Mesh) (i : nat) : Z :=
  match mesh.(mpoly) with
  | Some l => match nth_error l i with Some p => p.(mat_nr) | None => 0%Z end
  | None => 0%Z
  end.

(** [remove_faces]: the faces whose index is not in [face_ids] are deleted
    from the mesh of the object at position [h], then the material slots
    that only deleted faces used are removed, highest first. *)
Definition remove_faces (face_ids : list nat) (h : nat) (st : State)
    : State * Py.result unit :=
  match nth_error st.(scene_objects) h with
  | None => (st, Py.Raise Py.IndexError)
  | Some new_obj =>
      let mesh := new_obj.(data) in
      let faces := seq 0 mesh.(totpoly) in
      let faces_to_keep := filter (fun i => mem_nat i face_ids) faces in
      let faces_to_remove :=
        filter (fun i => negb (mem_nat i face_ids)) faces in
      let kept_mats := map (face_material mesh) faces_to_keep in
      let slot_idxs_to_remove :=
        sorted_desc
          (filter (fun m => negb (mem_Z m kept_mats))
                  (map (face_material mesh) faces_to_remove)) in
      let new_mesh :=
        mkMesh (List.length faces_to_keep)
               (option_map (select faces_to_keep) mesh.(mpoly))
               (option_map (select faces_to_keep) mesh.(mtpoly)) in
      let trimmed :=
        mkObject new_obj.(name) new_obj.(type) new_mesh
                 new_obj.(material_slots) in
      let final := fold_left material_slot_remove slot_idxs_to_remove trimmed in
      (mkState (update st.(scene_objects) h final) st.(root_export_type)
               st.(materials),
       Py.Ok tt)
  end.

(** The inner [convert_material]: the first slot's material is replaced by
    its converted copy.  The copy is a material of its own, so its name
    joins [bpy.data.materials]. *)
Definition convert_material (is_cockpit : bool) (tf_modes : _TexFaceModes)
    (h : nat) (st : State) : State * Py.result unit :=
  match nth_error st.(scene_objects) h with
  | None => (st, Py.Raise Py.IndexError)
  | Some new_obj =>
      match new_obj.(material_slots) with
      | [] => (st, Py.Raise Py.IndexError)
      | None :: _ => (st, Py.Raise Py.AttributeError)
      | Some current_material :: slots =>
          let '(new_material, export) :=
            _convert_material st.(root_export_type) new_obj is_cockpit
                              tf_modes current_material in
          let converted :=
            mkObject new_obj.(name) new_obj.(type) new_obj.(data)
                     (Some new_material :: slots) in
          (mkState (update st.(scene_objects) h converted) export
                   (st.(materials) ++ [new_material.(mat_name)]),
           Py.Ok tt)
      end
  end.

(** [for tf_modes, (faceids, new_obj) in modes_to_faces_col.items()] *)
Fixpoint split_loop (is_cockpit : bool)
    (col : list (_TexFaceModes * (list nat * nat))) (st : State)
    : State * Py.result unit :=
  match col with
  | [] => (st, Py.Ok tt)
  | (tf_modes, (faceids, h)) :: rest =>
      match remove_faces faceids h st with
      | (st1, Py.Raise e) => (st1, Py.Raise e)
      | (st1, Py.Ok _) =>
          match convert_material is_cockpit tf_modes h st1 with
          | (st2, Py.Raise e) => (st2, Py.Raise e)
          | (st2, Py.Ok _) => split_loop is_cockpit rest st2
          end
      end
  end.

(** Lines 396 to 480, the work on one mesh object: the result is the list
    [new_objs] at the end of the iteration.  Both dictionaries are gone
    through in the interpreter's order: [all_tf_modes] by the comprehension
    that makes the copies, [modes_to_faces_col] by the loop of the split. *)
Definition convert_object (is_cockpit : bool) (search_obj : Object)
    (st : State) : State * Py.result (list Object) :=
  match _get_tf_modes_from_ctypes search_obj with
  | Py.Raise e => (st, Py.Raise e)
  | Py.Ok all_tf_modes =>
      if (2 <? List.length all_tf_modes)%nat then
        match make_copies search_obj (entries dict_items _ all_tf_modes)
                          0 st with
        | (st1, Py.Raise e) => (st1, Py.Raise e)
        | (st1, Py.Ok modes_to_faces_col) =>
            match split_loop is_cockpit
                             (entries dict_items _ modes_to_faces_col) st1
            with
            | (st2, Py.Raise e) => (st2, Py.Raise e)
            | (st2, Py.Ok _) => (st2, Py.Ok [])
            end
        end
      else (st, Py.Ok [search_obj])
  end.

(** Line 380, [bpy.data.materials.new(DEFAULT_MATERIAL_NAME)]: a material
    is made under the name the host gives it. *)
Definition new_default_material (st : State) : State :=
  mkState st.(scene_objects) st.(root_export_type)
          (st.(materials)
           ++ [unique_name st.(materials) K.(DEFAULT_MATERIAL_NAME)]).

(** The [for search_obj in sorted(...)] loop.  Besides the state it gives
    an account of the run: per object that the loop got through, its name
    and its [new_objs] (a variable that the code sets and never reads), and
    how the loop ended.  An object on which the body raises is not in the
    account. *)
Fixpoint convert_loop (is_cockpit : bool) (objs : list Object) (st : State)
    : State * (list (string * list Object) * Py.result unit) :=
  match objs with
  | [] => (st, ([], Py.Ok tt))
  | search_obj :: rest =>
      match convert_object is_cockpit search_obj (new_default_material st) with
      | (st1, Py.Raise e) => (st1, ([], Py.Raise e))
      | (st1, Py.Ok new_objs) =>
          let '(st2, (done, r)) := convert_loop is_cockpit rest st1 in
          (st2, ((search_obj.(name), new_objs) :: done, r))
      end
  end.

Fixpoint remove_first (x : string) (l : list string) : list string :=
  match l with
  | [] => []
  | y :: rest => if String.eqb y x then rest else y :: remove_first x rest
  end.

(** Lines 497 and 498: the material of the default name is looked up, a
    [KeyError] when there is none of that name, and removed when it has no
    user. *)
Definition remove_unused_default (st : State) : State * Py.result unit :=
  let default_name := K.(DEFAULT_MATERIAL_NAME) in
  if existsb (String.eqb default_name) st.(materials) then
    if (material_users st default_name =? 0)%nat then
      (mkState st.(scene_objects) st.(root_export_type)
               (remove_first default_name st.(materials)),
       Py.Ok tt)
    else (st, Py.Ok tt)
  else (st, Py.Raise (Py.KeyError default_name)).

(** [convert_materials], lines 341 to 498: the state it leaves, the account
    of its loop, and how it ended (it returns nothing). *)
Definition convert_materials (st : State) (workflow_type : WorkflowType)
    (root_object : Object) (root_layer_name : string)
    : State * (list (string * list Object) * Py.result unit) :=
  match search_objs st.(scene_objects) workflow_type root_object with
  | Py.Raise e => (st, ([], Py.Raise e))
  | Py.Ok objs =>
      let ISCOCKPIT := is_cockpit_name root_layer_name in
      match convert_loop ISCOCKPIT (sorted_by_name (filter is_mesh objs)) st
      with
      | (st1, (done, Py.Raise e)) => (st1, (done, Py.Raise e))
      | (st1, (done, Py.Ok _)) =>
          let '(st2, r) := remove_unused_default st1 in
          (st2, (done, r))
      end
  end.

End WithHost.

End MaterialConverter.

(* ================================================================== *)
(** * xplane_249_converter/xplane_249_convert.py *)
(* ================================================================== *)

Module Convert.

Import Constants249.

(** Scenes and objects are referred to by handles. *)
Definition scene_ref : Type := nat.
Definition object_ref : Type := nat.

(** A call into one of the converter modules that [do_249_conversion]
    drives (none of them is among the sources). *)
Inductive call : Type :=
| Call_convert_workflow (scene : scene_ref) (wf : WorkflowType)
| Call_convert_armature_animations (scene : scene_ref) (armature : object_ref)
| Call_convert_manipulators (scene : scene_ref) (obj : object_ref)
| Call_do_convert_layer_properties
    (scene : scene_ref) (wf : WorkflowType) (new_roots : list object_ref).

Definition is_layer_call (c : call) : bool :=
  match c with
  | Call_do_convert_layer_properties _ _ _ => true
  | _ => false
  end.

Definition call_scene (c : call) : scene_ref :=
  match c with
  | Call_convert_workflow s _ => s
  | Call_convert_armature_animations s _ => s
  | Call_convert_manipulators s _ => s
  | Call_do_convert_layer_properties s _ _ => s
  end.

Section WithHost.

(** The host's data: scenes, objects, and all that the converters change. *)
Variable World : Type.

(** What the function uses of the host and of the other converter modules.
    A converter returns the world it leaves and its result or exception. *)
Record Host : Type := mkHost {
  (** [bpy.data.scenes] *)
  scenes : World -> list scene_ref;
  (** [scene.objects] *)
  scene_objects : World -> scene_ref -> list object_ref;
  (** [obj.type] *)
  object_type : World -> object_ref -> string;
  (** [bpy.context.window.screen.scene = scene] *)
  set_screen_scene : scene_ref -> World -> World;
  (** [scene.xplane.debug = True] *)
  set_debug : scene_ref -> World -> World;
  (** [obj.name += suffix] *)
  append_to_name : object_ref -> string -> World -> World;
  convert_workflow :
    scene_ref -> WorkflowType -> World -> World * Py.result (list object_ref);
  convert_armature_animations :
    scene_ref -> object_ref -> World -> World * Py.result (list object_ref);
  convert_manipulators :
    scene_ref -> object_ref -> World -> World * Py.result bool;
  do_convert_layer_properties :
    scene_ref -> WorkflowType -> list object_ref -> World
    -> World * Py.result unit
}.

Variable H : Host.

(** The module's globals [_runs] and [_converted_objects], the host's
    world, and the calls made into the converter modules so far. *)
Record State : Type := mkState {
  _runs : nat;
  _converted_objects : list object_ref;
  world : World;
  calls : list call
}.

Definition set_world (st : State) (w : World) : State :=
  mkState st.(_runs) st.(_converted_objects) w st.(calls).

Definition record_call (st : State) (c : call) : State :=
  mkState st.(_runs) st.(_converted_objects) st.(world) (st.(calls) ++ [c]).

(** A step of the function: it changes the state and returns or raises. *)
Definition M (A : Type) : Type := State -> State * Py.result A.

Definition ret {A : Type} (a : A) : M A := fun st => (st, Py.Ok a).

Definition raise {A : Type} (e : Py.exn) : M A := fun st => (st, Py.Raise e).

Definition bindM {A B : Type} (m : M A) (k : A -> M B) : M B :=
  fun st =>
    match m st with
    | (st1, Py.Ok a) => k a st1
    | (st1, Py.Raise e) => (st1, Py.Raise e)
    end.

Notation "x <~ m ;; k" := (bindM m (fun x => k))
  (at level 61, m at next level, right associativity).

(** An assignment to something of the host. *)
Definition host_set (f : World -> World) : M unit :=
  fun st => (set_world st (f st.(world)), Py.Ok tt).

(** A read of something of the host. *)
Definition host_get {A : Type} (f : World -> A) : M A :=
  fun st => (st, Py.Ok (f st.(world))).

(** A call [c] into a converter module, [f] being what it does. *)
Definition host_call {A : Type} (c : call)
    (f : World -> World * Py.result A) : M A :=
  fun st =>
    let st1 := record_call st c in
    let '(w, r) := f st1.(world) in
    (set_world st1 w, r).

Definition mem (x : object_ref) (l : list object_ref) : bool :=
  existsb (Nat.eqb x) l.

(** [s.update(l)] on a set kept as a list without repeats. *)
Fixpoint set_update (s l : list object_ref) : list object_ref :=
  match l with
  | [] => s
  | x :: rest => set_update (if mem x s then s else s ++ [x]) rest
  end.

(** [_converted_objects.update(converted)] *)
Definition update_converted (converted : list object_ref) : M unit :=
  fun st =>
    (mkState st.(_runs) (set_update st.(_converted_objects) converted)
             st.(world) st.(calls),
     Py.Ok tt).

(** ["_{:02d}".format(i)] *)
Definition format_02d (i : nat) : string :=
  let digits := DecimalString.NilEmpty.string_of_uint (Nat.to_uint i) in
  ("_" ++ (if (i <? 10)%nat then "0" else "") ++ digits)%string.

(** The test of the [filter] over the armatures, on the state as it is when
    the object comes up ([filter] is lazy). *)
Definition unconverted_armature (obj : object_ref) : M bool :=
  fun st =>
    (st,
     Py.Ok (negb (mem obj st.(_converted_objects))
            && String.eqb (H.(object_type) st.(world) obj) "ARMATURE")).

(** [for armature in filter(...): _converted_objects.update(
    convert_armature_animations(scene, armature))] *)
Fixpoint armature_loop (scene : scene_ref) (objs : list object_ref) : M unit :=
  match objs with
  | [] => ret tt
  | obj :: rest =>
      selected <~ unconverted_armature obj ;;
      _ <~ (if selected : bool then
              converted <~
                host_call (Call_convert_armature_animations scene obj)
                          (H.(convert_armature_animations) scene obj) ;;
              update_converted converted
            else ret tt) ;;
      armature_loop scene rest
  end.

(** [for obj in scene.objects: convert_manipulators(scene, obj)] *)
Fixpoint manipulator_loop (scene : scene_ref) (objs : list object_ref)
    : M unit :=
  match objs with
  | [] => ret tt
  | obj :: rest =>
      _ <~ host_call (Call_convert_manipulators scene obj)
                     (H.(convert_manipulators) scene obj) ;;
      manipulator_loop scene rest
  end.

(** [if workflow_type == REGULAR: new_roots[0].name += "_{:02d}".format(i)] *)
Definition rename_first_root (workflow_type : WorkflowType) (i : nat)
    (new_roots : list object_ref) : M unit :=
  if WorkflowType_eqb workflow_type REGULAR then
    match new_roots with
    | [] => raise Py.IndexError
    | root :: _ => host_set (H.(append_to_name) root (format_02d i))
    end
  else ret tt.

(** The loop body up to the layer properties; it hands on [new_roots]. *)
Definition convert_scene_objects (workflow_type : WorkflowType) (i : nat)
    (scene : scene_ref) : M (list object_ref) :=
  _ <~ host_set (H.(set_screen_scene) scene) ;;
  _ <~ host_set (H.(set_debug) scene) ;;
  new_roots <~ host_call (Call_convert_workflow scene workflow_type)
                         (H.(convert_workflow) scene workflow_type) ;;
  _ <~ rename_first_root workflow_type i new_roots ;;
  objs <~ host_get (fun w => H.(scene_objects) w scene) ;;
  _ <~ armature_loop scene objs ;;
  objs <~ host_get (fun w => H.(scene_objects) w scene) ;;
  _ <~ manipulator_loop scene objs ;;
  ret new_roots.

(** The [if]/[elif]/[else] on the workflow type that ends the loop body;
    the [else] with its [assert False] has no workflow type left to take
    it. *)
Definition convert_layer_properties (workflow_type : WorkflowType)
    (scene : scene_ref) (new_roots : list object_ref) : M unit :=
  match workflow_type with
  | SKIP => ret tt
  | REGULAR | BULK =>
      host_call
        (Call_do_convert_layer_properties scene workflow_type new_roots)
        (H.(do_convert_layer_properties) scene workflow_type new_roots)
  end.

(** The body of [for i, scene in enumerate(bpy.data.scenes, start=1)]. *)
Definition convert_scene (workflow_type : WorkflowType) (i : nat)
    (scene : scene_ref) : M unit :=
  new_roots <~ convert_scene_objects workflow_type i scene ;;
  convert_layer_properties workflow_type scene new_roots.

Fixpoint scene_loop (workflow_type : WorkflowType) (i : nat)
    (scns : list scene_ref) : M unit :=
  match scns with
  | [] => ret tt
  | scene :: rest =>
      _ <~ convert_scene workflow_type i scene ;;
      scene_loop workflow_type (S i) rest
  end.

(** [do_249_conversion] *)
Definition do_249_conversion (workflow_type : WorkflowType) : M unit :=
  fun st =>
    if (0 <? st.(_runs))%nat then (st, Py.Ok tt)
    else
      let st :=
        mkState (st.(_runs) + 1) st.(_converted_objects) st.(world)
                st.(calls) in
      scene_loop workflow_type 1 (H.(scenes) st.(world)) st.

End WithHost.

Arguments mkHost {World}.
Arguments scenes {World}.
Arguments scene_objects {World}.
Arguments object_type {World}.
Arguments set_screen_scene {World}.
Arguments set_debug {World}.
Arguments append_to_name {World}.
Arguments convert_workflow {World}.
Arguments convert_armature_animations {World}.
Arguments convert_manipulators {World}.
Arguments do_convert_layer_properties {World}.
Arguments mkState {World}.
Arguments _runs {World}.
Arguments _converted_objects {World}.
Arguments world {World}.
Arguments calls {World}.
Arguments set_world {World}.
Arguments record_call {World}.
Arguments M World : clear implicits.
Arguments ret {World A}.
Arguments raise {World A}.
Arguments bindM {World A B}.
Arguments host_set {World}.
Arguments host_get {World A}.
Arguments host_call {World A}.
Arguments update_converted {World}.
Arguments unconverted_armature {World}.
Arguments rename_first_root {World}.
Arguments convert_scene_objects {World}.
Arguments convert_layer_properties {World}.
Arguments armature_loop {World}.
Arguments manipulator_loop {World}.
Arguments convert_scene {World}.
Arguments scene_loop {World}.
Arguments do_249_conversion {World}.

(** The calls to [do_convert_layer_properties] made so far. *)
Definition layer_calls {World : Type} (st : State World) : list call :=
  filter is_layer_call st.(calls).

End Convert.

(* ================================================================== *)
(** * Properties *)
(* ================================================================== *)

(** ** firstMatchInList *)

Section FirstMatchFacts.

Import FirstMatch.

Variable pattern : Pattern.

Lemma firstMatchInList_item (items : list string) (item : string) :
  firstMatchInList pattern items = RItem item ->
  exists before after,
    items = before ++ item :: after
    /\ pattern item = true
    /\ Forall (fun x => pattern x = false) before.
Proof.
  induction items as [|x rest IH]; simpl; [discriminate|].
  destruct (pattern x) eqn:Hx.
  - intros [= <-]. exists [], rest. repeat split; auto.
  - intros Hrest. destruct (IH Hrest) as (b & a & -> & Hm & Hb).
    exists (x :: b), a. repeat split; auto.
Qed.

Lemma firstMatchInList_false (items : list string) :
  firstMatchInList pattern items = RFalse ->
  Forall (fun x => pattern x = false) items.
Proof.
  induction items as [|x rest IH]; simpl; [constructor|].
  destruct (pattern x) eqn:Hx; [discriminate|].
  intros Hrest. constructor; auto.
Qed.

Lemma firstMatchInList_not_None (items : list string) :
  firstMatchInList pattern items <> RNone.
Proof.
  induction items as [|x rest IH]; simpl; [discriminate|].
  destruct (pattern x); [discriminate|exact IH].
Qed.

End FirstMatchFacts.

(** C10. For every pattern and every list of items, [firstMatchInList]
    returns the earliest item, in list order, that the pattern fully
    matches (every item before it fails to match); when no item matches it
    returns the boolean [False], and it never returns [None]. *)
Theorem firstMatchInList_earliest_or_False :
  forall (pattern : FirstMatch.Pattern) (items : list string),
    match FirstMatch.firstMatchInList pattern items with
    | FirstMatch.RItem item =>
        exists before after,
          items = before ++ item :: after
          /\ pattern item = true
          /\ Forall (fun x => pattern x = false) before
    | FirstMatch.RFalse => Forall (fun x => pattern x = false) items
    | FirstMatch.RNone => False
    end.
Proof.
  intros pattern items.
  destruct (FirstMatch.firstMatchInList pattern items) eqn:E.
  - now apply firstMatchInList_item.
  - now apply firstMatchInList_false.
  - now apply firstMatchInList_not_None in E.
Qed.

(** ** XPlaneLogger *)

Section LoggerFacts.

Import Logger.

Variable World : Type.

Definition of_type (t : string) (m : message) : bool :=
  String.eqb m.(m_type) t.

Definition accepts (t : string) (tr : transport World) : bool :=
  py_in t tr.(t_types).

Lemma findOfType_loop_filter (ms : list message) (t : string)
    (acc : list message) :
  findOfType_loop ms t acc = acc ++ filter (of_type t) ms.
Proof.
  revert acc. induction ms as [|m rest IH]; intros acc; simpl.
  - now rewrite app_nil_r.
  - unfold of_type at 1. destruct (String.eqb (m_type m) t).
    + rewrite IH, <- app_assoc. reflexivity.
    + apply IH.
Qed.

Lemma findOfType_filter (L : XPlaneLogger World) (t : string) :
  findOfType L t = filter (of_type t) L.(messages).
Proof. unfold findOfType. now rewrite findOfType_loop_filter. Qed.

Lemma hasOfType_loop_existsb (ms : list message) (t : string) :
  hasOfType_loop ms t = existsb (of_type t) ms.
Proof.
  induction ms as [|m rest IH]; simpl; [reflexivity|].
  unfold of_type at 1. destruct (String.eqb (m_type m) t); auto.
Qed.

Lemma existsb_filter_nonempty {A : Type} (p : A -> bool) (l : list A) :
  existsb p l = true <-> filter p l <> [].
Proof.
  induction l as [|x rest IH]; simpl.
  - split; [discriminate|congruence].
  - destruct (p x); simpl.
    + split; [discriminate|reflexivity].
    + exact IH.
Qed.

(** The transports [ts] run one after the other on [(t, m, c)], whatever
    their type lists, until one raises. *)
Fixpoint run_in_turn (ts : list (transport World)) (t m : string)
    (c : Py.value) (w : World) : World * Py.result unit :=
  match ts with
  | [] => (w, Py.Ok tt)
  | tr :: rest =>
      match tr.(t_fn) t m c w with
      | (w1, Py.Ok _) => run_in_turn rest t m c w1
      | (w1, Py.Raise e) => (w1, Py.Raise e)
      end
  end.

Lemma dispatch_run_in_turn (ts : list (transport World)) (t m : string)
    (c : Py.value) (w : World) :
  dispatch ts t m c w = run_in_turn (filter (accepts t) ts) t m c w.
Proof.
  revert w. induction ts as [|tr rest IH]; intros w; simpl; [reflexivity|].
  unfold accepts at 1. destruct (py_in t (t_types tr)); simpl; [|apply IH].
  destruct (t_fn tr t m c w) as [w1 [[]|e]]; [apply IH|reflexivity].
Qed.

(** The transports that [t] goes to all return on [(t, m, c)]. *)
Definition accepted_return (ts : list (transport World)) (t m : string)
    (c : Py.value) : Prop :=
  forall tr w,
    In tr ts -> accepts t tr = true -> snd (tr.(t_fn) t m c w) = Py.Ok tt.

Lemma dispatch_filter (ts : list (transport World)) (t m : string)
    (c : Py.value) (w : World) :
  accepted_return ts t m c ->
  dispatch ts t m c w
  = (fold_left (fun w tr => fst (tr.(t_fn) t m c w)) (filter (accepts t) ts) w,
     Py.Ok tt).
Proof.
  revert w. induction ts as [|tr rest IH]; intros w Hret; simpl;
    [reflexivity|].
  assert (Hrest : accepted_return rest t m c).
  { intros tr' w' Hin. apply Hret. now right. }
  unfold accepts at 1. destruct (py_in t (t_types tr)) eqn:E; simpl.
  - specialize (Hret tr w (or_introl eq_refl) E).
    destruct (t_fn tr t m c w) as [w1 [[]|e]]; simpl in *;
      [now apply IH|discriminate].
  - now apply IH.
Qed.

(** A transport that raises ends the call: the transports after it are not
    run. *)
Lemma dispatch_raise (ts1 ts2 : list (transport World)) (tr : transport World)
    (t m : string) (c : Py.value) (w w1 : World) (e : Py.exn) :
  accepted_return ts1 t m c ->
  accepts t tr = true ->
  tr.(t_fn) t m c
    (fold_left (fun w tr => fst (tr.(t_fn) t m c w)) (filter (accepts t) ts1) w)
  = (w1, Py.Raise e) ->
  dispatch (ts1 ++ tr :: ts2) t m c w = (w1, Py.Raise e).
Proof.
  revert w. induction ts1 as [|tr1 rest IH]; intros w Hret Hacc Hraise; simpl.
  - unfold accepts in Hacc. rewrite Hacc. simpl in Hraise. now rewrite Hraise.
  - assert (Hrest : accepted_return rest t m c).
    { intros tr' w' Hin. apply Hret. now right. }
    simpl in Hraise. unfold accepts at 1 in Hraise.
    destruct (py_in t (t_types tr1)) eqn:E.
    + specialize (Hret tr1 w (or_introl eq_refl) E).
      simpl in Hraise.
      destruct (t_fn tr1 t m c w) as [w2 [[]|e2]]; simpl in *;
        [now apply IH|discriminate].
    + now apply IH.
Qed.

Lemma dispatch_snoc (ts : list (transport World)) (tr : transport World)
    (t m : string) (c : Py.value) (w : World) :
  accepted_return ts t m c ->
  accepts t tr = true ->
  dispatch (ts ++ [tr]) t m c w
  = tr.(t_fn) t m c (fst (dispatch ts t m c w)).
Proof.
  revert w. induction ts as [|tr1 rest IH]; intros w Hret Hacc; simpl.
  - unfold accepts in Hacc. rewrite Hacc.
    destruct (t_fn tr t m c w) as [w1 [[]|e]]; reflexivity.
  - assert (Hrest : accepted_return rest t m c).
    { intros tr' w' Hin. apply Hret. now right. }
    destruct (py_in t (t_types tr1)) eqn:E.
    + specialize (Hret tr1 w (or_introl eq_refl) E).
      destruct (t_fn tr1 t m c w) as [w2 [[]|e2]]; simpl in *;
        [now apply IH|discriminate].
    + now apply IH.
Qed.

End LoggerFacts.

Arguments of_type t m /.
Arguments accepts {World} t tr /.
Arguments accepted_return {World} ts t m c.
Arguments run_in_turn {World} ts t m c w.

(** The items of a list up to the first that satisfies [p], that one
    included. *)
Fixpoint upto {A : Type} (p : A -> bool) (l : list A) : list A :=
  match l with
  | [] => []
  | x :: rest => if p x then [x] else x :: upto p rest
  end.

Definition raises (s : nat * list string * option Py.exn) : bool :=
  match snd s with
  | Some _ => true
  | None => false
  end.

Definition takes (t : string) (s : nat * list string * option Py.exn)
    : bool :=
  Logger.py_in t (snd (fst s)).

(** What a run of probes ends with: the exception of the first that raises,
    or a return. *)
Definition outcome_of (l : list (nat * list string * option Py.exn))
    : Py.result unit :=
  match find raises l with
  | Some s =>
      match snd s with
      | Some e => Py.Raise e
      | None => Py.Ok tt
      end
  | None => Py.Ok tt
  end.

Lemma dispatch_probes (specs : list (nat * list string * option Py.exn))
    (t m : string) (c : Py.value) (w : list Logger.call) :
  Logger.dispatch (map Logger.probe specs) t m c w
  = (w ++ map (fun s => (fst (fst s), (t, m, c)))
              (upto raises (filter (takes t) specs)),
     outcome_of (filter (takes t) specs)).
Proof.
  revert w. induction specs as [|[[id tys] o] rest IH]; intros w.
  - simpl. now rewrite app_nil_r.
  - cbn [map filter Logger.dispatch].
    change (takes t (id, tys, o)) with (Logger.py_in t tys).
    change (Logger.t_types (Logger.probe (id, tys, o))) with tys.
    destruct (Logger.py_in t tys); [|apply IH].
    destruct o as [e|]; [reflexivity|].
    cbn [Logger.t_fn Logger.probe fst snd]. rewrite IH, <- app_assoc.
    reflexivity.
Qed.

Lemma dispatch_recorders (specs : list (nat * list string)) (t m : string)
    (c : Py.value) (w : list Logger.call) :
  Logger.dispatch (map (fun s => Logger.recorder (fst s) (snd s)) specs) t m c w
  = (w ++ map (fun s => (fst s, (t, m, c)))
              (filter (fun s => Logger.py_in t (snd s)) specs),
     Py.Ok tt).
Proof.
  revert w. induction specs as [|[id tys] rest IH]; intros w; simpl.
  - now rewrite app_nil_r.
  - destruct (Logger.py_in t tys); simpl.
    + rewrite IH, <- app_assoc. reflexivity.
    + apply IH.
Qed.

(** C4, with the case of a transport that raises.  A call [log(t, m, c)]
    leaves the transports as they are and appends the one record
    [{type: t, message: m, context: c}] to the end of the buffer, whatever
    the transports do.  It then runs the
    transports whose type list contains [t], in registration order, each
    on [(t, m, c)], until one raises: the call ends with that exception
    and the transports after it are not run.  With transports that record
    their calls, the calls made are those of the transports that take [t],
    up to the first that raises, that one included.  When the transports
    that take [t] all return, exactly those are run.  A transport added
    with the default type list takes each of 'error', 'warning', 'info'
    and 'success', and is run last. *)
Theorem log_appends_and_dispatches :
  forall (World : Type) (L : Logger.XPlaneLogger World) (t m : string)
         (c : Py.value) (w : World),
    Logger.transports (fst (Logger.log L t m c w)) = Logger.transports L
    /\ Logger.messages (fst (Logger.log L t m c w))
       = Logger.messages L ++ [Logger.mkMessage t m c]
    /\ snd (Logger.log L t m c w)
       = run_in_turn (filter (accepts t) (Logger.transports L)) t m c w
    /\ (forall (specs : list (nat * list string * option Py.exn))
               (ms : list Logger.message),
          snd (Logger.log (Logger.mkLogger (map Logger.probe specs) ms)
                          t m c [])
          = (map (fun s => (fst (fst s), (t, m, c)))
                 (upto raises (filter (takes t) specs)),
             outcome_of (filter (takes t) specs)))
    /\ (accepted_return (Logger.transports L) t m c ->
        snd (Logger.log L t m c w)
        = (fold_left (fun w tr => fst (Logger.t_fn tr t m c w))
                     (filter (accepts t) (Logger.transports L)) w,
           Py.Ok tt))
    /\ (forall (specs : list (nat * list string)) (ms : list Logger.message),
          snd (Logger.log
                 (Logger.mkLogger
                    (map (fun s => Logger.recorder (fst s) (snd s)) specs) ms)
                 t m c [])
          = (map (fun s => (fst s, (t, m, c)))
                 (filter (fun s => Logger.py_in t (snd s)) specs),
             Py.Ok tt))
    /\ Forall
         (fun t' =>
            forall fn,
              accepts t' (Logger.mkTransport fn Logger.default_messageTypes)
              = true
              /\ (accepted_return (Logger.transports L) t' m c ->
                  snd (Logger.log (Logger.addTransport_default L fn) t' m c w)
                  = fn t' m c (fst (snd (Logger.log L t' m c w)))))
         ["error"; "warning"; "info"; "success"].
Proof.
  intros World L t m c w. unfold Logger.log; simpl.
  split; [reflexivity|]. split; [reflexivity|].
  split; [apply dispatch_run_in_turn|].
  split; [intros specs ms; apply (dispatch_probes specs t m c [])|].
  split; [apply dispatch_filter|].
  split; [intros specs ms; apply dispatch_recorders|].
  repeat constructor; try reflexivity; intros Hret;
    apply (dispatch_snoc World (Logger.transports L)
             (Logger.mkTransport fn Logger.default_messageTypes));
    solve [assumption | reflexivity].
Qed.

(** Counterexample for C4 read without that case: of three transports
    that all take 'error', the second raising, the third is not run; the
    record is in the buffer all the same. *)
Lemma log_stops_at_raising_transport :
  let L :=
    Logger.mkLogger
      (map Logger.probe
           [(1, ["error"], None); (2, ["error"], Some Py.ValueError);
            (3, ["error"], None)])
      [] in
  Forall (fun tr => Logger.py_in "error" (Logger.t_types tr) = true)
         (Logger.transports L)
  /\ Logger.log L "error" "bad" Py.VNone []
     = (Logger.mkLogger (Logger.transports L)
                        [Logger.mkMessage "error" "bad" Py.VNone],
        ([(1, ("error", "bad", Py.VNone)); (2, ("error", "bad", Py.VNone))],
         Py.Raise Py.ValueError)).
Proof. split; [repeat constructor|reflexivity]. Qed.

(** C9. [findOfType(t)] is the buffer restricted to the messages of type
    [t], in the order of the buffer; [hasOfType(t)] is [True] exactly when
    that list is not empty; and the four [Errors]/[Warnings] methods are
    these two at 'error' and 'warning'. *)
Theorem findOfType_hasOfType :
  forall (World : Type) (L : Logger.XPlaneLogger World) (t : string),
    Logger.findOfType L t = filter (of_type t) (Logger.messages L)
    /\ (Logger.hasOfType L t = true <-> Logger.findOfType L t <> [])
    /\ (Logger.hasOfType L t = false <-> Logger.findOfType L t = [])
    /\ Logger.findErrors L = filter (of_type "error") (Logger.messages L)
    /\ (Logger.hasErrors L = true <-> Logger.findErrors L <> [])
    /\ Logger.findWarnings L = filter (of_type "warning") (Logger.messages L)
    /\ (Logger.hasWarnings L = true <-> Logger.findWarnings L <> []).
Proof.
  intros World L t.
  assert (Hhas : forall t', Logger.hasOfType L t' = true
                            <-> Logger.findOfType L t' <> []).
  { intros t'. unfold Logger.hasOfType.
    rewrite hasOfType_loop_existsb, findOfType_filter.
    apply existsb_filter_nonempty. }
  split; [apply findOfType_filter|].
  split; [apply Hhas|].
  split.
  { split.
    - intros Hf. destruct (Logger.findOfType L t) eqn:E; [reflexivity|].
      assert (Ht : Logger.hasOfType L t = true)
        by (apply Hhas; rewrite E; discriminate).
      congruence.
    - intros E. destruct (Logger.hasOfType L t) eqn:Hh; [|reflexivity].
      apply Hhas in Hh. contradiction. }
  split; [apply findOfType_filter|].
  split; [apply Hhas|].
  split; [apply findOfType_filter|apply Hhas].
Qed.

(** ** Texture-face modes *)

Section TexFaceFacts.

Import MaterialConverter.

Lemma land_pow2 (x k : Z) :
  (0 <= k)%Z ->
  Z.land x (2 ^ k) = if Z.testbit x k then (2 ^ k)%Z else 0%Z.
Proof.
  intros Hk. apply Z.bits_inj'. intros n Hn.
  rewrite Z.land_spec, Z.pow2_bits_eqb by assumption.
  destruct (Z.eqb_spec k n) as [->|Hne].
  - destruct (Z.testbit x n); simpl.
    + rewrite Z.pow2_bits_eqb, Z.eqb_refl by assumption. reflexivity.
    + now rewrite Z.bits_0.
  - rewrite andb_false_r. destruct (Z.testbit x k).
    + rewrite Z.pow2_bits_eqb by assumption.
      symmetry. now apply Z.eqb_neq.
    + now rewrite Z.bits_0.
Qed.

Lemma flag_set_testbit (x k : Z) :
  (0 <= k)%Z -> flag_set x k = Z.testbit x k.
Proof.
  intros Hk. unfold flag_set.
  rewrite Z.shiftl_1_l, land_pow2 by assumption.
  destruct (Z.testbit x k); simpl.
  - assert (0 < 2 ^ k)%Z by (apply Z.pow_pos_nonneg; lia).
    destruct (Z.eqb_spec (2 ^ k) 0); [lia|reflexivity].
  - reflexivity.
Qed.

Lemma decode_testbit (p : MTexPoly) :
  decode p
  = mkTexFaceModes
      (Z.testbit p.(mode) 2) (Z.testbit p.(mode) 7) (Z.testbit p.(mode) 4)
      (Z.testbit p.(mode) 10) (Z.testbit p.(mode) 0) (Z.testbit p.(mode) 9)
      (Z.testbit p.(mode) 13)
      (Z.testbit p.(transp) 1) (Z.testbit p.(transp) 2).
Proof.
  unfold decode. rewrite !flag_set_testbit by lia. reflexivity.
Qed.

End TexFaceFacts.

(** The bits of [mode] and of [transp] that the decoding reads. *)
Definition mode_bits : list Z := [2; 7; 4; 10; 0; 9; 13]%Z.
Definition transp_bits : list Z := [1; 2]%Z.

(** C3. The face modes of a polygon are the bit tests TEX = mode bit 2,
    TILES = mode bit 7, LIGHT = mode bit 4, INVISIBLE = mode bit 10,
    DYNAMIC = mode bit 0, TWOSIDE = mode bit 9, SHADOW = mode bit 13,
    ALPHA = transp bit 1, CLIP = transp bit 2; and two texture-poly structs
    that agree on those nine bits decode to the same modes, whatever their
    other bits and fields are. *)
Theorem decode_exact_bits :
  forall p : MaterialConverter.MTexPoly,
    let m := MaterialConverter.mode p in
    let t := MaterialConverter.transp p in
    let r := MaterialConverter.decode p in
    MaterialConverter.TEX r = Z.testbit m 2
    /\ MaterialConverter.TILES r = Z.testbit m 7
    /\ MaterialConverter.LIGHT r = Z.testbit m 4
    /\ MaterialConverter.INVISIBLE r = Z.testbit m 10
    /\ MaterialConverter.DYNAMIC r = Z.testbit m 0
    /\ MaterialConverter.TWOSIDE r = Z.testbit m 9
    /\ MaterialConverter.SHADOW r = Z.testbit m 13
    /\ MaterialConverter.ALPHA r = Z.testbit t 1
    /\ MaterialConverter.CLIP r = Z.testbit t 2
    /\ (forall q : MaterialConverter.MTexPoly,
          Forall (fun k => Z.testbit (MaterialConverter.mode q) k
                           = Z.testbit m k) mode_bits ->
          Forall (fun k => Z.testbit (MaterialConverter.transp q) k
                           = Z.testbit t k) transp_bits ->
          MaterialConverter.decode q = r).
Proof.
  intros p m t r. subst m t r. rewrite decode_testbit.
  repeat (split; [reflexivity|]).
  intros q Hm Ht. rewrite decode_testbit.
  unfold mode_bits in Hm. unfold transp_bits in Ht.
  repeat match goal with
         | H : Forall _ (_ :: _) |- _ => inversion H; subst; clear H
         | H : Forall _ [] |- _ => clear H
         end.
  cbv beta in *. congruence.
Qed.

(** ** The dictionary of _get_tf_modes_from_ctypes *)

Section TfDictFacts.

Import MaterialConverter.

Lemma tf_eqb_eq (a b : _TexFaceModes) : tf_eqb a b = true <-> a = b.
Proof.
  split.
  - destruct a, b. unfold tf_eqb. simpl. intros Hab.
    repeat (apply andb_prop in Hab; destruct Hab as [Hab ?]).
    repeat match goal with
           | E : Bool.eqb _ _ = true |- _ => apply eqb_prop in E
           end.
    subst. reflexivity.
  - intros ->. unfold tf_eqb. now rewrite !eqb_reflx.
Qed.

Lemma tf_eqb_refl (a : _TexFaceModes) : tf_eqb a a = true.
Proof. now apply tf_eqb_eq. Qed.

Lemma tf_eqb_neq (a b : _TexFaceModes) : tf_eqb a b = false <-> a <> b.
Proof.
  split.
  - intros Hf ->. rewrite tf_eqb_refl in Hf. discriminate.
  - intros Hne. destruct (tf_eqb a b) eqn:E; [|reflexivity].
    apply tf_eqb_eq in E. contradiction.
Qed.

(** [d[k]] read without inserting: the list under [k], empty without one. *)
Definition lookup (d : tf_dict) (k : _TexFaceModes) : list nat :=
  match find (fun e => tf_eqb (fst e) k) d with
  | Some e => snd e
  | None => []
  end.

(** All the indices stored, with repeats. *)
Definition stored (d : tf_dict) : list nat := List.concat (map snd d).

Lemma lookup_dict_append (d : tf_dict) (k0 k : _TexFaceModes) (n : nat) :
  lookup (dict_append d k0 n) k
  = lookup d k ++ (if tf_eqb k0 k then [n] else []).
Proof.
  unfold lookup. induction d as [|[k' l] rest IH]; simpl.
  - destruct (tf_eqb k0 k); reflexivity.
  - destruct (tf_eqb k' k0) eqn:E0; simpl.
    + apply tf_eqb_eq in E0. subst k'.
      destruct (tf_eqb k0 k); [reflexivity|]. now rewrite app_nil_r.
    + destruct (tf_eqb k' k) eqn:E1; [|exact IH].
      apply tf_eqb_eq in E1. subst k'.
      apply tf_eqb_neq in E0.
      assert (E : tf_eqb k0 k = false) by (apply tf_eqb_neq; congruence).
      rewrite E. now rewrite app_nil_r.
Qed.

Lemma keys_dict_append (d : tf_dict) (k0 : _TexFaceModes) (n : nat) :
  map fst (dict_append d k0 n)
  = if existsb (fun k' => tf_eqb k' k0) (map fst d)
    then map fst d else map fst d ++ [k0].
Proof.
  induction d as [|[k' l] rest IH]; simpl; [reflexivity|].
  destruct (tf_eqb k' k0); simpl; [reflexivity|].
  rewrite IH. destruct (existsb _ (map fst rest)); reflexivity.
Qed.

Lemma NoDup_keys_dict_append (d : tf_dict) (k0 : _TexFaceModes) (n : nat) :
  NoDup (map fst d) -> NoDup (map fst (dict_append d k0 n)).
Proof.
  intros Hnd. rewrite keys_dict_append.
  destruct (existsb _ (map fst d)) eqn:E; [assumption|].
  apply NoDup_rev in Hnd. rewrite <- (rev_involutive (_ ++ _)).
  apply NoDup_rev. rewrite rev_app_distr. simpl. constructor; [|assumption].
  intros Hin. apply in_rev in Hin.
  assert (Ht : existsb (fun k' => tf_eqb k' k0) (map fst d) = true).
  { apply existsb_exists. exists k0. split; [assumption|apply tf_eqb_refl]. }
  congruence.
Qed.

Lemma nonempty_dict_append (d : tf_dict) (k0 : _TexFaceModes) (n : nat) :
  Forall (fun e => snd e <> []) d ->
  Forall (fun e => snd e <> []) (dict_append d k0 n).
Proof.
  induction d as [|[k' l] rest IH]; simpl; intros Hd.
  - constructor; [discriminate|constructor].
  - inversion Hd; subst. destruct (tf_eqb k' k0).
    + constructor; [|assumption]. simpl. destruct l; discriminate.
    + constructor; auto.
Qed.

Lemma stored_dict_append (d : tf_dict) (k0 : _TexFaceModes) (n i : nat) :
  count_occ Nat.eq_dec (stored (dict_append d k0 n)) i
  = count_occ Nat.eq_dec (stored d) i + (if Nat.eq_dec n i then 1 else 0).
Proof.
  unfold stored. induction d as [|[k' l] rest IH]; simpl.
  - destruct (Nat.eq_dec n i); reflexivity.
  - destruct (tf_eqb k' k0); simpl.
    + rewrite !count_occ_app. simpl.
      destruct (Nat.eq_dec n i); lia.
    + rewrite !count_occ_app, IH. lia.
Qed.

Lemma NoDup_keys_lookup (d : tf_dict) (k : _TexFaceModes) (l : list nat) :
  NoDup (map fst d) -> In (k, l) d -> lookup d k = l.
Proof.
  unfold lookup. induction d as [|[k' l'] rest IH]; simpl; [tauto|].
  intros Hnd [Heq|Hin].
  - inversion Heq; subst. now rewrite tf_eqb_refl.
  - inversion Hnd as [|? ? Hnotin Hnd']; subst.
    destruct (tf_eqb k' k) eqn:E.
    + apply tf_eqb_eq in E. subst k'. exfalso. apply Hnotin.
      change k with (fst (k, l)). now apply in_map.
    + now apply IH.
Qed.

Lemma lookup_nonempty_key (d : tf_dict) (k : _TexFaceModes) :
  lookup d k <> [] -> In k (map fst d).
Proof.
  unfold lookup. destruct (find _ d) as [[k' l]|] eqn:E; [|congruence].
  intros _. apply find_some in E. destruct E as [Hin Heq].
  simpl in Heq. apply tf_eqb_eq in Heq. subst k'.
  change k with (fst (k, l)). now apply in_map.
Qed.

(** The loop of [_get_tf_modes_from_ctypes] on the zipped arrays. *)
Definition collect (ps : list (MPoly * MTexPoly)) : tf_dict :=
  fold_left
    (fun poly_c_info '(idx, (mpoly_current, mtpoly_current)) =>
       dict_append poly_c_info (decode mtpoly_current) idx)
    (enumerate ps) [].

(** Whether polygon [i] of the zipped arrays decodes to [k]. *)
Definition decodes_to (ps : list (MPoly * MTexPoly)) (k : _TexFaceModes)
    (i : nat) : bool :=
  match nth_error ps i with
  | Some p => tf_eqb (decode (snd p)) k
  | None => false
  end.

Lemma combine_snoc {A B : Type} (a : list A) (b : list B) (x : A) (y : B) :
  List.length a = List.length b ->
  combine (a ++ [x]) (b ++ [y]) = combine a b ++ [(x, y)].
Proof.
  revert b. induction a as [|x' a IH]; intros [|y' b] Hlen;
    simpl in *; try discriminate; [reflexivity|].
  f_equal. apply IH. now injection Hlen.
Qed.

Lemma enumerate_snoc {A : Type} (l : list A) (x : A) :
  enumerate (l ++ [x]) = enumerate l ++ [(List.length l, x)].
Proof.
  unfold enumerate. rewrite length_app. simpl.
  rewrite Nat.add_1_r, seq_S. simpl.
  apply combine_snoc. apply length_seq.
Qed.

Lemma collect_snoc (ps : list (MPoly * MTexPoly)) (p : MPoly * MTexPoly) :
  collect (ps ++ [p]) = dict_append (collect ps) (decode (snd p)) (List.length ps).
Proof.
  unfold collect. rewrite enumerate_snoc, fold_left_app.
  destruct p as [mp mtp]. reflexivity.
Qed.

Lemma decodes_to_snoc_old (ps : list (MPoly * MTexPoly)) p k i :
  i < List.length ps -> decodes_to (ps ++ [p]) k i = decodes_to ps k i.
Proof.
  intros Hi. unfold decodes_to. now rewrite nth_error_app1.
Qed.

Lemma decodes_to_snoc_new (ps : list (MPoly * MTexPoly)) p k :
  decodes_to (ps ++ [p]) k (List.length ps) = tf_eqb (decode (snd p)) k.
Proof.
  unfold decodes_to. rewrite nth_error_app2 by lia.
  now rewrite Nat.sub_diag.
Qed.

Lemma lookup_collect (ps : list (MPoly * MTexPoly)) (k : _TexFaceModes) :
  lookup (collect ps) k = filter (decodes_to ps k) (seq 0 (List.length ps)).
Proof.
  induction ps as [|p ps IH] using rev_ind; [reflexivity|].
  rewrite collect_snoc, lookup_dict_append, IH, length_app. simpl.
  rewrite Nat.add_1_r, seq_S, filter_app. simpl.
  rewrite decodes_to_snoc_new. f_equal.
  apply filter_ext_in. intros i Hi. apply in_seq in Hi.
  symmetry. apply decodes_to_snoc_old. lia.
Qed.

Lemma NoDup_keys_collect (ps : list (MPoly * MTexPoly)) :
  NoDup (map fst (collect ps)).
Proof.
  induction ps as [|p ps IH] using rev_ind; [constructor|].
  rewrite collect_snoc. now apply NoDup_keys_dict_append.
Qed.

Lemma nonempty_collect (ps : list (MPoly * MTexPoly)) :
  Forall (fun e => snd e <> []) (collect ps).
Proof.
  induction ps as [|p ps IH] using rev_ind; [constructor|].
  rewrite collect_snoc. now apply nonempty_dict_append.
Qed.

Lemma stored_collect (ps : list (MPoly * MTexPoly)) (i : nat) :
  count_occ Nat.eq_dec (stored (collect ps)) i
  = if (i <? List.length ps)%nat then 1 else 0.
Proof.
  induction ps as [|p ps IH] using rev_ind; [reflexivity|].
  rewrite collect_snoc, stored_dict_append, IH, length_app. simpl.
  destruct (Nat.eq_dec (List.length ps) i) as [E|Hne];
    destruct (Nat.ltb_spec i (List.length ps));
    destruct (Nat.ltb_spec i (List.length ps + 1)); lia.
Qed.

Lemma StronglySorted_seq (a n : nat) : StronglySorted lt (seq a n).
Proof.
  revert a. induction n as [|n IH]; intros a; simpl; constructor.
  - apply IH.
  - apply Forall_forall. intros x Hx. apply in_seq in Hx. lia.
Qed.

Lemma StronglySorted_filter {A : Type} (R : A -> A -> Prop) (p : A -> bool)
    (l : list A) :
  StronglySorted R l -> StronglySorted R (filter p l).
Proof.
  induction 1 as [|x l Hs IH Hall]; simpl; [constructor|].
  destruct (p x); [|assumption].
  constructor; [assumption|].
  apply Forall_forall. intros y Hy. apply filter_In in Hy.
  rewrite Forall_forall in Hall. now apply Hall.
Qed.

Lemma nth_error_combine {A B : Type} (a : list A) (b : list B) (i : nat) :
  nth_error (combine a b) i
  = match nth_error a i, nth_error b i with
    | Some x, Some y => Some (x, y)
    | _, _ => None
    end.
Proof.
  revert b i. induction a as [|x a IH]; intros [|y b] [|i]; simpl; auto.
  destruct (nth_error a i); reflexivity.
Qed.

End TfDictFacts.

Section TfPartition.

Import MaterialConverter.

Lemma ptr_slice_all {A : Type} (l : list A) (n : nat) :
  List.length l = n -> ptr_slice (Some l) n = Py.Ok l.
Proof.
  intros <-. destruct l as [|x l]; [reflexivity|].
  unfold ptr_slice. now rewrite firstn_all.
Qed.

Lemma decodes_to_combine (mps : list MPoly) (mtps : list MTexPoly)
    (k : _TexFaceModes) (i : nat) :
  List.length mps = List.length mtps ->
  decodes_to (combine mps mtps) k i = true
  <-> exists p, nth_error mtps i = Some p /\ decode p = k.
Proof.
  intros Hlen. unfold decodes_to. rewrite nth_error_combine.
  split.
  - destruct (nth_error mps i), (nth_error mtps i) as [p|]; try discriminate.
    simpl. intros E. apply tf_eqb_eq in E. now exists p.
  - intros (p & Hp & Hk). rewrite Hp.
    destruct (nth_error mps i) eqn:Em.
    + simpl. now apply tf_eqb_eq.
    + apply nth_error_None in Em.
      assert (i < List.length mtps) by (apply nth_error_Some; congruence).
      lia.
Qed.

Lemma in_filter_decodes_to (ps : list (MPoly * MTexPoly)) (k : _TexFaceModes)
    (i : nat) :
  In i (filter (decodes_to ps k) (seq 0 (List.length ps)))
  <-> decodes_to ps k i = true.
Proof.
  rewrite filter_In, in_seq. split; [tauto|].
  intros Hd. split; [|assumption].
  unfold decodes_to in Hd. destruct (nth_error ps i) eqn:E; [|discriminate].
  assert (i < List.length ps) by (apply nth_error_Some; congruence). lia.
Qed.

End TfPartition.

(** What it is for a dictionary to group the polygons [0 .. n-1] of a
    texture-poly array by their decoded modes. *)
Definition groups_polygons (mtps : list MaterialConverter.MTexPoly) (n : nat)
    (d : MaterialConverter.tf_dict) : Prop :=
  (* the keys are distinct *)
  NoDup (map fst d)
  (* and are the combinations that some polygon decodes to *)
  /\ (forall k,
        In k (map fst d)
        <-> exists i p,
              nth_error mtps i = Some p /\ MaterialConverter.decode p = k)
  (* each list is strictly increasing and holds the polygons of its key *)
  /\ (forall k l,
        In (k, l) d ->
        StronglySorted lt l
        /\ forall i,
             In i l
             <-> exists p,
                   nth_error mtps i = Some p /\ MaterialConverter.decode p = k)
  (* every index below [n] is stored once in all, and no other index is *)
  /\ (forall i,
        count_occ Nat.eq_dec (List.concat (map snd d)) i
        = if (i <? n)%nat then 1 else 0).

(** C2. On a mesh object whose two arrays hold [totpoly] entries,
    [_get_tf_modes_from_ctypes] returns a dictionary whose keys are the
    distinct decoded combinations and whose lists partition the indices
    [0 .. totpoly-1]: each index is stored exactly once, in a strictly
    increasing list, under the key its own polygon decodes to. *)
Theorem get_tf_modes_partition :
  forall (obj : MaterialConverter.Object)
         (mps : list MaterialConverter.MPoly)
         (mtps : list MaterialConverter.MTexPoly),
    MaterialConverter.type obj = "MESH" ->
    MaterialConverter.mpoly (MaterialConverter.data obj) = Some mps ->
    MaterialConverter.mtpoly (MaterialConverter.data obj) = Some mtps ->
    List.length mps = MaterialConverter.totpoly (MaterialConverter.data obj) ->
    List.length mtps = MaterialConverter.totpoly (MaterialConverter.data obj) ->
    exists d,
      MaterialConverter._get_tf_modes_from_ctypes obj = Py.Ok d
      /\ groups_polygons mtps
           (MaterialConverter.totpoly (MaterialConverter.data obj)) d.
Proof.
  intros obj mps mtps Hty Hmp Hmtp Hlen1 Hlen2.
  assert (Hlen : List.length mps = List.length mtps) by congruence.
  exists (collect (combine mps mtps)). split.
  - unfold MaterialConverter._get_tf_modes_from_ctypes.
    rewrite Hty, Hmp, Hmtp. simpl.
    rewrite !ptr_slice_all by assumption. reflexivity.
  - set (ps := combine mps mtps).
    assert (Hps : List.length ps = List.length mtps).
    { unfold ps. rewrite length_combine. lia. }
    pose proof (NoDup_keys_collect ps) as Hnd.
    assert (Hentry : forall k l, In (k, l) (collect ps) ->
                       l = filter (decodes_to ps k) (seq 0 (List.length ps))).
    { intros k l Hin. rewrite <- lookup_collect. symmetry.
      now apply NoDup_keys_lookup. }
    split; [exact Hnd|]. split; [|split].
    + intros k. split.
      * intros Hin. apply in_map_iff in Hin.
        destruct Hin as ([k' l] & Hk & Hin). simpl in Hk. subst k'.
        pose proof (nonempty_collect ps) as Hne.
        rewrite Forall_forall in Hne. specialize (Hne _ Hin). simpl in Hne.
        rewrite (Hentry _ _ Hin) in Hne.
        destruct (filter (decodes_to ps k) (seq 0 (List.length ps)))
          as [|i rest] eqn:E; [contradiction|].
        assert (Hi : In i (filter (decodes_to ps k) (seq 0 (List.length ps))))
          by (rewrite E; now left).
        apply in_filter_decodes_to in Hi.
        apply decodes_to_combine in Hi; [|assumption].
        destruct Hi as (p & Hp & Hk). now exists i, p.
      * intros (i & p & Hp & Hk).
        apply lookup_nonempty_key. rewrite lookup_collect.
        assert (Hi : In i (filter (decodes_to ps k) (seq 0 (List.length ps)))).
        { apply in_filter_decodes_to. apply decodes_to_combine; [assumption|].
          now exists p. }
        intros E. rewrite E in Hi. contradiction.
    + intros k l Hin. rewrite (Hentry _ _ Hin). split.
      * apply StronglySorted_filter, StronglySorted_seq.
      * intros i. rewrite in_filter_decodes_to.
        now apply decodes_to_combine.
    + intros i. fold (stored (collect ps)). rewrite stored_collect.
      now rewrite Hps, Hlen2.
Qed.

(** A mesh object with three polygons: the first and the last have only
    TEX pressed (mode 4), the second has TEX and DYNAMIC (mode 5). *)
Definition sample_mpolys : list MaterialConverter.MPoly :=
  [MaterialConverter.mkMPoly 0 4 0 0;
   MaterialConverter.mkMPoly 4 4 0 0;
   MaterialConverter.mkMPoly 8 4 0 0].

Definition sample_mtpolys : list MaterialConverter.MTexPoly :=
  [MaterialConverter.mkMTexPoly 0 0 4 0;
   MaterialConverter.mkMTexPoly 0 0 5 0;
   MaterialConverter.mkMTexPoly 0 0 4 0].

Definition sample_material : MaterialConverter.Material :=
  MaterialConverter.mkMaterial "Material" "on" 0%Q false 0 true false true.

Definition sample_object : MaterialConverter.Object :=
  MaterialConverter.mkObject "Cube" "MESH"
    (MaterialConverter.mkMesh 3 (Some sample_mpolys) (Some sample_mtpolys))
    [Some sample_material].

Lemma get_tf_modes_partition_witness :
  exists d,
    MaterialConverter._get_tf_modes_from_ctypes sample_object = Py.Ok d
    /\ groups_polygons sample_mtpolys 3 d.
Proof.
  apply (get_tf_modes_partition sample_object sample_mpolys sample_mtpolys);
    reflexivity.
Defined.

(** ** VerStruct *)

Section VerFacts.

Import Ver.

Variable K : constants.

Lemma index_In (l : list string) (x : string) :
  In x l -> exists i, index l x = Py.Ok i /\ (0 <= i)%Z.
Proof.
  induction l as [|y rest IH]; simpl; [tauto|].
  intros Hin. destruct (String.eqb y x) eqn:E.
  - exists 0%Z. split; [reflexivity|lia].
  - destruct Hin as [->|Hin]; [now rewrite String.eqb_refl in E|].
    destruct (IH Hin) as (i & Hi & Hpos). rewrite Hi. simpl.
    exists (i + 1)%Z. split; [reflexivity|lia].
Qed.

(** [is_valid] on a version tuple of strings never returns: the tuple is
    too short or too long, or its first element is compared with 3. *)
Lemma is_valid_of_strings (v : VerStruct) (l : list string) :
  addon_version v = map Py.VStr l ->
  exists e, is_valid K v = Py.Raise e.
Proof.
  intros Hl. unfold is_valid.
  destruct (Nat.eqb_spec (List.length (addon_version v)) 3) as [Hlen|Hlen];
    simpl; [|eauto].
  unfold addon_ge. rewrite Hl in *.
  destruct l as [|a l]; [discriminate|]. simpl. eauto.
Qed.

Lemma is_valid_init : is_valid K (init K) = Py.Ok None.
Proof. reflexivity. Qed.

End VerFacts.

(** C5 (the code departs from it). Whatever the constants are,
    [parse_version] raises on the documented old format '3.2' (the tuple
    has two elements, and [is_valid] raises on it), on the documented
    modern format '3.4.0-beta.5+1.20170906154330' (the version tuple holds
    strings, and comparing one with 3 is a [TypeError]), and on text such as
    'abc' (a [ValueError] from [int]); on '3.2.0' and '3.3.13' it returns a
    struct that [is_valid] accepts. *)
Theorem parse_version_raises :
  forall K : Ver.constants,
    Ver.parse_version K "3.2"
    = Py.Raise (Py.Exception "Incorrect types passed into VerStruct")
    /\ Ver.parse_version K "3.4.0-beta.5+1.20170906154330"
       = Py.Raise Py.TypeError
    /\ Ver.parse_version K "abc" = Py.Raise Py.ValueError
    /\ Ver.parse_version Ver.sample_constants "3.2.0"
       = Py.Ok (Some (Ver.mkVer [Py.VInt 3; Py.VInt 2; Py.VInt 0]
                                "leg" 0 0 "NO_BUILD_NUMBR"))
    /\ Ver.parse_version Ver.sample_constants "3.3.13"
       = Py.Ok (Some (Ver.mkVer [Py.VInt 3; Py.VInt 3; Py.VInt 13]
                                "leg" 0 0 "NO_BUILD_NUMBR")).
Proof.
  intros K. repeat split; reflexivity.
Qed.

(** C6 (the code departs from it). For a build type [bt] of [BUILD_TYPES],
    comparing version 3.4.0, build [bt].2 with version 3.5.0, build [bt].1
    reaches the trailing [raise]: the versions differ, so the first block
    is skipped; 2 <= 1 fails in the second; (3,4,0) >= (3,5,0) fails in the
    third. *)
Theorem cmp_reaches_trailing_raise :
  forall (K : Ver.constants) (bt : string) (dm1 dm2 : Z) (bn1 bn2 : string)
         (include_data_model_version include_build_number : bool),
    In bt (Ver.BUILD_TYPES K) ->
    Ver.cmp K
      (Ver.mkVer [Py.VInt 3; Py.VInt 4; Py.VInt 0] bt 2 dm1 bn1)
      (Ver.mkVer [Py.VInt 3; Py.VInt 5; Py.VInt 0] bt 1 dm2 bn2)
      include_data_model_version include_build_number
    = Py.Raise (Py.Exception "cmp function not implemented properly").
Proof.
  intros K bt dm1 dm2 bn1 bn2 f1 f2 Hin.
  destruct (index_In (Ver.BUILD_TYPES K) bt Hin) as (i & Hi & _).
  unfold Ver.cmp. simpl. rewrite Hi. simpl.
  rewrite Z.leb_refl. reflexivity.
Qed.

Lemma cmp_reaches_trailing_raise_witness :
  In "beta" (Ver.BUILD_TYPES Ver.sample_constants)
  /\ Ver.is_valid Ver.sample_constants
       (Ver.mkVer [Py.VInt 3; Py.VInt 4; Py.VInt 0] "beta" 2 1 "NO_BUILD_NUMBR")
     = Py.Ok (Some true)
  /\ Ver.is_valid Ver.sample_constants
       (Ver.mkVer [Py.VInt 3; Py.VInt 5; Py.VInt 0] "beta" 1 1 "NO_BUILD_NUMBR")
     = Py.Ok (Some true)
  /\ Ver.cmp Ver.sample_constants
       (Ver.mkVer [Py.VInt 3; Py.VInt 4; Py.VInt 0] "beta" 2 1 "NO_BUILD_NUMBR")
       (Ver.mkVer [Py.VInt 3; Py.VInt 5; Py.VInt 0] "beta" 1 1 "NO_BUILD_NUMBR")
       false false
     = Py.Raise (Py.Exception "cmp function not implemented properly").
Proof.
  split; [simpl; tauto|].
  split; [reflexivity|].
  split; [reflexivity|].
  apply (cmp_reaches_trailing_raise Ver.sample_constants "beta");
    simpl; tauto.
Defined.

(** ** do_249_conversion *)

Section ConvertFacts.

Import Constants249 Convert.

Variable World : Type.
Variable H : Host World.

(** What everything but the guard and the layer step leaves alone: the run
    counter and the layer calls. *)
Definition same_runs_and_layer_calls (st st' : State World) : Prop :=
  _runs st' = _runs st /\ layer_calls st' = layer_calls st.

Definition preserves {A : Type} (m : M World A) : Prop :=
  forall st, same_runs_and_layer_calls st (fst (m st)).

Lemma same_refl (st : State World) : same_runs_and_layer_calls st st.
Proof. split; reflexivity. Qed.

Lemma same_trans (a b c : State World) :
  same_runs_and_layer_calls a b -> same_runs_and_layer_calls b c ->
  same_runs_and_layer_calls a c.
Proof. intros [? ?] [? ?]. split; congruence. Qed.

Lemma layer_calls_record_call (st : State World) (c : call) :
  layer_calls (record_call st c)
  = layer_calls st ++ (if is_layer_call c then [c] else []).
Proof.
  unfold layer_calls, record_call. simpl. rewrite filter_app. simpl.
  destruct (is_layer_call c); reflexivity.
Qed.

Lemma preserves_ret {A : Type} (a : A) : preserves (ret a).
Proof. intros st. apply same_refl. Qed.

Lemma preserves_raise {A : Type} (e : Py.exn) : preserves (@raise World A e).
Proof. intros st. apply same_refl. Qed.

Lemma preserves_bind {A B : Type} (m : M World A) (k : A -> M World B) :
  preserves m -> (forall a, preserves (k a)) -> preserves (bindM m k).
Proof.
  intros Hm Hk st. unfold bindM. specialize (Hm st).
  destruct (m st) as [st1 [a|e]]; simpl in *; [|exact Hm].
  eapply same_trans; [exact Hm|apply Hk].
Qed.

Lemma preserves_host_set (f : World -> World) : preserves (host_set f).
Proof. intros st. split; reflexivity. Qed.

Lemma preserves_host_get {A : Type} (f : World -> A) : preserves (host_get f).
Proof. intros st. apply same_refl. Qed.

Lemma preserves_host_call {A : Type} (c : call)
    (f : World -> World * Py.result A) :
  is_layer_call c = false -> preserves (host_call c f).
Proof.
  intros Hc st. unfold host_call.
  destruct (f (world (record_call st c))) as [w r]. simpl.
  split; [reflexivity|].
  change (layer_calls (record_call st c) = layer_calls st).
  rewrite layer_calls_record_call, Hc. apply app_nil_r.
Qed.

Lemma preserves_update_converted (l : list object_ref) :
  preserves (@update_converted World l).
Proof. intros st. split; reflexivity. Qed.

Lemma preserves_unconverted_armature (obj : object_ref) :
  preserves (unconverted_armature H obj).
Proof. intros st. apply same_refl. Qed.

Lemma preserves_armature_loop (scene : scene_ref) (objs : list object_ref) :
  preserves (armature_loop H scene objs).
Proof.
  induction objs as [|obj rest IH]; simpl; [apply preserves_ret|].
  apply preserves_bind; [apply preserves_unconverted_armature|].
  intros selected. apply preserves_bind; [|intros _; exact IH].
  destruct selected; [|apply preserves_ret].
  apply preserves_bind; [now apply preserves_host_call|].
  intros l. apply preserves_update_converted.
Qed.

Lemma preserves_manipulator_loop (scene : scene_ref)
    (objs : list object_ref) :
  preserves (manipulator_loop H scene objs).
Proof.
  induction objs as [|obj rest IH]; simpl; [apply preserves_ret|].
  apply preserves_bind; [now apply preserves_host_call|].
  intros _. exact IH.
Qed.

Lemma preserves_rename_first_root (wf : WorkflowType) (i : nat)
    (new_roots : list object_ref) :
  preserves (rename_first_root H wf i new_roots).
Proof.
  unfold rename_first_root.
  destruct (WorkflowType_eqb wf REGULAR); [|apply preserves_ret].
  destruct new_roots; [apply preserves_raise|apply preserves_host_set].
Qed.

Lemma preserves_convert_scene_objects (wf : WorkflowType) (i : nat)
    (scene : scene_ref) :
  preserves (convert_scene_objects H wf i scene).
Proof.
  unfold convert_scene_objects.
  repeat first
    [ apply preserves_host_set
    | apply preserves_host_get
    | apply preserves_ret
    | apply preserves_rename_first_root
    | apply preserves_armature_loop
    | apply preserves_manipulator_loop
    | now apply preserves_host_call
    | apply preserves_bind
    | intro ].
Qed.

(** The layer step keeps the counter; under SKIP it makes no call, under
    the other two it makes exactly one, for its scene. *)
Lemma convert_layer_properties_spec (wf : WorkflowType) (scene : scene_ref)
    (new_roots : list object_ref) (st : State World) :
  _runs (fst (convert_layer_properties H wf scene new_roots st)) = _runs st
  /\ layer_calls (fst (convert_layer_properties H wf scene new_roots st))
     = layer_calls st
       ++ match wf with
          | SKIP => []
          | _ => [Call_do_convert_layer_properties scene wf new_roots]
          end.
Proof.
  destruct wf; simpl; try (now rewrite app_nil_r);
    unfold host_call;
    match goal with
    | |- context [do_convert_layer_properties H ?s ?w ?r ?x] =>
        destruct (do_convert_layer_properties H s w r x) as [w' r']
    end; simpl; (split; [reflexivity|]);
    match goal with
    | |- layer_calls (set_world (record_call ?s ?c) _) = _ =>
        change (layer_calls (record_call s c) = layer_calls s ++ [c])
    end; now rewrite layer_calls_record_call.
Qed.

Lemma convert_scene_spec (wf : WorkflowType) (i : nat) (scene : scene_ref)
    (st : State World) :
  _runs (fst (convert_scene H wf i scene st)) = _runs st
  /\ match wf with
     | SKIP =>
         layer_calls (fst (convert_scene H wf i scene st)) = layer_calls st
     | _ =>
         snd (convert_scene H wf i scene st) = Py.Ok tt ->
         exists new_roots,
           layer_calls (fst (convert_scene H wf i scene st))
           = layer_calls st
             ++ [Call_do_convert_layer_properties scene wf new_roots]
     end.
Proof.
  unfold convert_scene, bindM.
  pose proof (preserves_convert_scene_objects wf i scene st) as [Hr Hl].
  destruct (convert_scene_objects H wf i scene st) as [st1 [new_roots|e]];
    simpl in Hr, Hl.
  - destruct (convert_layer_properties_spec wf scene new_roots st1)
      as [Hr' Hl'].
    split; [congruence|].
    destruct wf.
    + intros _. exists new_roots. now rewrite Hl', Hl.
    + intros _. exists new_roots. now rewrite Hl', Hl.
    + rewrite Hl', Hl. apply app_nil_r.
  - simpl. split; [exact Hr|]. destruct wf; try discriminate. exact Hl.
Qed.

Lemma scene_loop_spec (wf : WorkflowType) (scns : list scene_ref) :
  forall (i : nat) (st : State World),
    _runs (fst (scene_loop H wf i scns st)) = _runs st
    /\ match wf with
       | SKIP => layer_calls (fst (scene_loop H wf i scns st)) = layer_calls st
       | _ =>
           snd (scene_loop H wf i scns st) = Py.Ok tt ->
           exists cs,
             layer_calls (fst (scene_loop H wf i scns st))
             = layer_calls st ++ cs
             /\ map call_scene cs = scns
             /\ Forall (fun c => is_layer_call c = true) cs
       end.
Proof.
  induction scns as [|scene rest IH]; intros i st.
  - simpl. split; [reflexivity|].
    destruct wf; try reflexivity; intros _; exists [];
      rewrite app_nil_r; repeat split; constructor.
  - simpl. unfold bindM.
    destruct (convert_scene_spec wf i scene st) as [Hr Hl].
    destruct (convert_scene H wf i scene st) as [st1 [u|e]]; simpl in Hr, Hl.
    + destruct (IH (S i) st1) as [Hr' Hl'].
      split; [congruence|].
      destruct wf.
      * intros Hok. destruct u. destruct (Hl eq_refl) as (roots & E1).
        destruct (Hl' Hok) as (cs & E2 & Hm & Hall).
        exists (Call_do_convert_layer_properties scene REGULAR roots :: cs).
        rewrite E2, E1, <- app_assoc. simpl.
        repeat split; [now rewrite Hm|constructor; auto].
      * intros Hok. destruct u. destruct (Hl eq_refl) as (roots & E1).
        destruct (Hl' Hok) as (cs & E2 & Hm & Hall).
        exists (Call_do_convert_layer_properties scene BULK roots :: cs).
        rewrite E2, E1, <- app_assoc. simpl.
        repeat split; [now rewrite Hm|constructor; auto].
      * congruence.
    + simpl. split; [exact Hr|]. destruct wf; try discriminate. exact Hl.
Qed.

Lemma do_249_conversion_guard (wf : WorkflowType) (st : State World) :
  0 < _runs st -> do_249_conversion H wf st = (st, Py.Ok tt).
Proof.
  intros Hpos. unfold do_249_conversion.
  destruct (Nat.ltb_spec 0 (_runs st)); [reflexivity|lia].
Qed.

Lemma do_249_conversion_counts (wf : WorkflowType) (st : State World) :
  0 < _runs (fst (do_249_conversion H wf st)).
Proof.
  unfold do_249_conversion.
  destruct (Nat.ltb_spec 0 (_runs st)); [assumption|].
  match goal with
  | |- context [scene_loop H wf 1 ?l ?s] =>
      destruct (scene_loop_spec wf l 1 s) as [Hr _]
  end.
  rewrite Hr. simpl. lia.
Qed.

End ConvertFacts.

(** ** convert_materials *)

Section ConvertMaterialsFacts.

Import Constants249 MaterialConverter.

Variable K : constants.
Variable find_property_in_parents : Object -> string -> bool.
Variable get_all_children_recursive : Object -> list Object -> list Object.
Variable unique_name : list string -> string -> string.
Variable material_slot_remove : Object -> Z -> Object.
Variable dict_items : dict_order.
Variable material_users : State -> string -> nat.






(** With at most two groups the object is not split: the state is as it
    was and [new_objs] is the object itself. *)
Lemma convert_object_unsplit (is_cockpit : bool) (obj : Object) (st : State)
    (d : tf_dict) :
  _get_tf_modes_from_ctypes obj = Py.Ok d ->
  List.length d <= 2 ->
  convert_object K find_property_in_parents unique_name material_slot_remove
                 dict_items is_cockpit obj st
  = (st, Py.Ok [obj]).
Proof.
  intros Hd Hlen. unfold convert_object. rewrite Hd.
  destruct (Nat.ltb_spec 2 (List.length d)); [lia|reflexivity].
Qed.






End ConvertMaterialsFacts.

(** ** The layer step of do_249_conversion, whatever the outcome *)

Section LayerCalls.

Import Constants249 Convert.

Variable World : Type.
Variable H : Host World.




End LayerCalls.


(** C8. Whatever happened in an invocation of [do_249_conversion], normal
    return or exception, every later invocation returns at once and leaves
    the state as it is: the counter, the set of converted objects, the
    host's scenes and objects, and the record of calls. *)
Theorem do_249_conversion_runs_once :
  forall (World : Type) (H : Convert.Host World)
         (wf : Constants249.WorkflowType) (st : Convert.State World)
         (later : list Constants249.WorkflowType),
    let st1 := fst (Convert.do_249_conversion H wf st) in
    (forall wf', Convert.do_249_conversion H wf' st1 = (st1, Py.Ok tt))
    /\ fold_left (fun s wf' => fst (Convert.do_249_conversion H wf' s))
                 later st1
       = st1.
Proof.
  intros World H wf st later st1.
  assert (Hpos : 0 < Convert._runs st1)
    by apply do_249_conversion_counts.
  assert (Hid : forall wf', Convert.do_249_conversion H wf' st1
                            = (st1, Py.Ok tt))
    by (intros wf'; now apply do_249_conversion_guard).
  split; [exact Hid|].
  induction later as [|wf' rest IH]; simpl; [reflexivity|].
  now rewrite Hid.
Qed.

(** C1 (the code departs from it). A mesh object whose polygons carry
    exactly two distinct combinations is not split: [convert_object] leaves
    the scene as it was (no object is added, none is trimmed, no material
    is converted) and [new_objs] is the object itself.  The test that
    guards the split is [len(all_tf_modes) > 2]. *)
Theorem two_groups_are_not_split :
  forall (K : MaterialConverter.constants)
         (find_property_in_parents : MaterialConverter.Object -> string -> bool)
         (unique_name : list string -> string -> string)
         (material_slot_remove :
            MaterialConverter.Object -> Z -> MaterialConverter.Object)
         (dict_items : MaterialConverter.dict_order)
         (is_cockpit : bool) (obj : MaterialConverter.Object)
         (st : MaterialConverter.State) (d : MaterialConverter.tf_dict),
    MaterialConverter._get_tf_modes_from_ctypes obj = Py.Ok d ->
    List.length d = 2 ->
    MaterialConverter.convert_object K find_property_in_parents unique_name
      material_slot_remove dict_items is_cockpit obj st
    = (st, Py.Ok [obj]).
Proof.
  intros K fp un msr items is_cockpit obj st d Hd Hlen.
  eapply convert_object_unsplit; [exact Hd|lia].
Qed.

(** *** Runs on concrete data *)

(** A host that names a copy [wanted.001] when [wanted] is taken, finds no
    property on any parent, whose slot removal leaves the object as it
    is, and that counts no user of any material. *)
Definition sample_unique_name (used : list string) (wanted : string) : string :=
  if existsb (String.eqb wanted) used then (wanted ++ ".001")%string
  else wanted.

Definition sample_find_property (obj : MaterialConverter.Object)
    (prop : string) : bool := false.

Definition sample_slot_remove (obj : MaterialConverter.Object) (slot_idx : Z)
    : MaterialConverter.Object := obj.

Definition sample_users (st : MaterialConverter.State) (material : string)
    : nat := 0.

Definition sample_scene : MaterialConverter.State :=
  MaterialConverter.mkState [sample_object] "aircraft" [].

Definition modes_of (mode : Z) : MaterialConverter._TexFaceModes :=
  MaterialConverter.decode (MaterialConverter.mkMTexPoly 0 0 mode 0).

Lemma two_groups_are_not_split_witness :
  MaterialConverter._get_tf_modes_from_ctypes sample_object
  = Py.Ok [(modes_of 4, [0; 2]); (modes_of 5, [1])]
  /\ List.length [(modes_of 4, [0; 2]); (modes_of 5, [1])] = 2
  /\ MaterialConverter.convert_object MaterialConverter.sample_constants
       sample_find_property sample_unique_name sample_slot_remove
       MaterialConverter.insertion_order false sample_object sample_scene
     = (sample_scene, Py.Ok [sample_object]).
Proof.
  split; [reflexivity|]. split; [reflexivity|].
  apply (two_groups_are_not_split MaterialConverter.sample_constants
           sample_find_property sample_unique_name sample_slot_remove
           MaterialConverter.insertion_order false
           sample_object sample_scene
           [(modes_of 4, [0; 2]); (modes_of 5, [1])]);
    reflexivity.
Defined.

(** The same object through [convert_materials] under REGULAR: the scene is
    left as it was, the default material made for the object being removed
    again for want of a user. *)
Lemma convert_materials_two_groups :
  MaterialConverter.convert_materials MaterialConverter.sample_constants
    sample_find_property (fun _ _ => []) sample_unique_name sample_slot_remove
    MaterialConverter.insertion_order sample_users
    sample_scene Constants249.REGULAR sample_object "Cube"
  = (sample_scene, ([("Cube", [sample_object])], Py.Ok tt)).
Proof. reflexivity. Qed.

(** A mesh object whose polygons have the given modes, one slot. *)
Definition object_with_modes (modes : list Z) : MaterialConverter.Object :=
  MaterialConverter.mkObject "Cube" "MESH"
    (MaterialConverter.mkMesh (List.length modes)
       (Some (map (fun _ => MaterialConverter.mkMPoly 0 4 0 0) modes))
       (Some (map (fun m => MaterialConverter.mkMTexPoly 0 0 m 0) modes)))
    [Some sample_material].

Definition run_in_order (dict_items : MaterialConverter.dict_order)
    (modes : list Z)
    : MaterialConverter.State * Py.result (list MaterialConverter.Object) :=
  MaterialConverter.convert_object MaterialConverter.sample_constants
    sample_find_property sample_unique_name sample_slot_remove dict_items
    false (object_with_modes modes)
    (MaterialConverter.mkState [object_with_modes modes] "aircraft" []).

Definition run_on_modes (modes : list Z)
    : MaterialConverter.State * Py.result (list MaterialConverter.Object) :=
  run_in_order MaterialConverter.insertion_order modes.

(** Three groups are split: three objects are added, each with the
    polygons of its group and with its material converted. *)
Lemma three_groups_are_split :
  let r := run_on_modes [4; 5; 4; 1]%Z in
  snd r = Py.Ok []
  /\ map (fun o => (MaterialConverter.name o,
                    MaterialConverter.mtpoly (MaterialConverter.data o),
                    map (option_map MaterialConverter.mat_name)
                        (MaterialConverter.material_slots o)))
         (MaterialConverter.scene_objects (fst r))
     = [("Cube",
         Some [MaterialConverter.mkMTexPoly 0 0 4 0;
               MaterialConverter.mkMTexPoly 0 0 5 0;
               MaterialConverter.mkMTexPoly 0 0 4 0;
               MaterialConverter.mkMTexPoly 0 0 1 0],
         [Some "Material"]);
        ("Cube.001SHADOW",
         Some [MaterialConverter.mkMTexPoly 0 0 4 0;
               MaterialConverter.mkMTexPoly 0 0 4 0],
         [Some "Material_split_TEDY"]);
        ("Cube.001TILE",
         Some [MaterialConverter.mkMTexPoly 0 0 5 0],
         [Some "Material_split_TE"]);
        ("Cube.001INVISIBLE",
         Some [MaterialConverter.mkMTexPoly 0 0 1 0],
         [Some "Material_split_"])].
Proof. split; reflexivity. Qed.

(** Four groups: the fourth copy is linked to the scene, then its name
    fails for want of a fourth suffix. *)
Lemma four_groups_raise :
  let r := run_on_modes [4; 5; 1; 0]%Z in
  snd r = Py.Raise Py.IndexError
  /\ map MaterialConverter.name (MaterialConverter.scene_objects (fst r))
     = ["Cube"; "Cube.001SHADOW"; "Cube.001TILE"; "Cube.001INVISIBLE";
        "Cube.001"].
Proof. split; reflexivity. Qed.

(** A host with two scenes of two objects each, one of them an armature,
    whose converters all return; the world counts the assignments made. *)
Definition sample_host : Convert.Host nat :=
  Convert.mkHost
    (fun _ => [0; 1])
    (fun _ scene => [10 * scene; 10 * scene + 1])
    (fun _ obj => if Nat.even obj then "ARMATURE" else "MESH")
    (fun _ w => S w)
    (fun _ w => S w)
    (fun _ _ w => S w)
    (fun scene _ w => (w, Py.Ok [100 + scene]))
    (fun _ armature w => (w, Py.Ok [armature]))
    (fun _ _ w => (w, Py.Ok false))
    (fun _ _ _ w => (w, Py.Ok tt)).

Definition sample_start : Convert.State nat := Convert.mkState 0 [] 0 [].

Lemma sample_run_regular :
  let r := Convert.do_249_conversion sample_host Constants249.REGULAR
             sample_start in
  snd r = Py.Ok tt
  /\ Convert._runs (fst r) = 1
  /\ Convert._converted_objects (fst r) = [0; 10]
  /\ Convert.layer_calls (fst r)
     = [Convert.Call_do_convert_layer_properties 0 Constants249.REGULAR [100];
        Convert.Call_do_convert_layer_properties 1 Constants249.REGULAR [101]].
Proof. repeat split. Qed.

Lemma sample_run_skip :
  let r := Convert.do_249_conversion sample_host Constants249.SKIP
             sample_start in
  snd r = Py.Ok tt
  /\ Convert.layer_calls (fst r) = []
  /\ List.length (Convert.calls (fst r)) = 8.
Proof. repeat split. Qed.

(** A logger with two recording transports, the first for errors only, the
    second with the default types. *)
Definition sample_logger : Logger.XPlaneLogger (list Logger.call) :=
  Logger.addTransport_default
    (Logger.addTransport Logger.init
       (Logger.t_fn (Logger.recorder 1 ["error"])) ["error"])
    (Logger.t_fn (Logger.recorder 2 Logger.default_messageTypes)).

Lemma log_appends_and_dispatches_witness :
  accepted_return (Logger.transports sample_logger) "info" "done" Py.VNone
  /\ snd (Logger.log sample_logger "info" "done" Py.VNone [])
     = ([(2, ("info", "done", Py.VNone))], Py.Ok tt)
  /\ snd (Logger.log sample_logger "error" "bad" Py.VNone [])
     = ([(1, ("error", "bad", Py.VNone)); (2, ("error", "bad", Py.VNone))],
        Py.Ok tt).
Proof.
  assert (Hret : forall t m,
            accepted_return (Logger.transports sample_logger) t m Py.VNone).
  { intros t m tr w [<-|[<-|[]]] _; reflexivity. }
  split; [apply Hret|]. split.
  - destruct (log_appends_and_dispatches (list Logger.call) sample_logger
                "info" "done" Py.VNone [])
      as (_ & _ & _ & _ & Hrun & _).
    rewrite (Hrun (Hret _ _)). reflexivity.
  - destruct (log_appends_and_dispatches (list Logger.call) sample_logger
                "error" "bad" Py.VNone [])
      as (_ & _ & _ & _ & Hrun & _).
    rewrite (Hrun (Hret _ _)). reflexivity.
Defined.









(** ** Further properties *)

(** X1. On a string that contains '-', [parse_version] never returns a
    struct: when the format matches it raises (the version tuple is made of
    strings), and when it does not match it returns [None]. *)
Theorem parse_version_modern_never_parses :
  forall (K : Ver.constants) (version_str : string),
    Text.contains "-" version_str = true ->
    match Ver.match_version (Text.contains "+" version_str) version_str with
    | Some _ => exists e, Ver.parse_version K version_str = Py.Raise e
    | None => Ver.parse_version K version_str = Py.Ok None
    end.
Proof.
  intros K s Hdash. unfold Ver.parse_version. rewrite Hdash.
  destruct (Ver.match_version (Text.contains "+" s) s) as [m|];
    [|reflexivity].
  destruct (Text.py_int (Ver.group3 m)) as [btv|e]; simpl; [|eauto].
  destruct (Text.contains "+" s).
  - destruct (Ver.group45 m) as [[g4 g5]|]; simpl; [|eauto].
    destruct (Text.py_int g4) as [dmv|e]; simpl; [|eauto].
    match goal with
    | |- context [Ver.is_valid K ?v] =>
        destruct (is_valid_of_strings K v (Text.split_dot (Ver.group1 m))
                    eq_refl) as (e & ->)
    end.
    simpl. eauto.
  - simpl.
    match goal with
    | |- context [Ver.is_valid K ?v] =>
        destruct (is_valid_of_strings K v (Text.split_dot (Ver.group1 m))
                    eq_refl) as (e & ->)
    end.
    simpl. eauto.
Qed.

Lemma parse_version_modern_never_parses_witness :
  Text.contains "-" "3.4.0-rc.1" = true
  /\ exists e,
       Ver.parse_version Ver.sample_constants "3.4.0-rc.1" = Py.Raise e.
Proof.
  split; [reflexivity|].
  exact (parse_version_modern_never_parses Ver.sample_constants "3.4.0-rc.1"
           eq_refl).
Defined.

(** X2. The two [include_...] arguments of [cmp] have no effect on its
    outcome, and a result it returns is -1, 0 or 1. *)
Theorem cmp_ignores_flags :
  forall (K : Ver.constants) (lhs rhs : Ver.VerStruct)
         (include_data_model_version include_build_number : bool),
    Ver.cmp K lhs rhs include_data_model_version include_build_number
    = Ver.cmp K lhs rhs false false
    /\ match Ver.cmp K lhs rhs false false with
       | Py.Ok r => r = (-1)%Z \/ r = 0%Z \/ r = 1%Z
       | Py.Raise _ => True
       end.
Proof.
  intros K lhs rhs f1 f2. unfold Ver.cmp.
  repeat (simpl;
          match goal with
          | |- context [Ver.tuple_eqb ?a ?b] => destruct (Ver.tuple_eqb a b)
          | |- context [Ver.tuple_le ?a ?b] =>
              destruct (Ver.tuple_le a b) as [[|]|?]
          | |- context [Ver.tuple_ge ?a ?b] =>
              destruct (Ver.tuple_ge a b) as [[|]|?]
          | |- context [Ver.index ?a ?b] => destruct (Ver.index a b)
          | |- context [if ?b then _ else _] => destruct b
          end);
    simpl; split; solve [reflexivity | auto].
Qed.

Section SplitFacts.

Import MaterialConverter.

Lemma mem_nat_In (i : nat) (l : list nat) : mem_nat i l = true <-> In i l.
Proof.
  unfold mem_nat. rewrite existsb_exists. split.
  - intros (x & Hin & E). apply Nat.eqb_eq in E. now subst.
  - intros Hin. exists i. split; [assumption|apply Nat.eqb_refl].
Qed.

(** Strictly increasing lists with the same elements are equal. *)
Lemma sorted_same_elements (l1 l2 : list nat) :
  StronglySorted lt l1 -> StronglySorted lt l2 ->
  (forall i, In i l1 <-> In i l2) -> l1 = l2.
Proof.
  revert l2. induction l1 as [|x l1 IH]; intros l2 H1 H2 Hsame.
  - destruct l2 as [|y l2]; [reflexivity|].
    exfalso. apply (proj2 (Hsame y)). now left.
  - destruct l2 as [|y l2].
    + exfalso. apply (proj1 (Hsame x)). now left.
    + inversion H1 as [|? ? Hs1 Hall1]; subst.
      inversion H2 as [|? ? Hs2 Hall2]; subst.
      rewrite Forall_forall in Hall1, Hall2.
      assert (x = y).
      { destruct (proj1 (Hsame x) (or_introl eq_refl)) as [->|Hx];
          [reflexivity|].
        destruct (proj2 (Hsame y) (or_introl eq_refl)) as [->|Hy];
          [reflexivity|].
        specialize (Hall1 _ Hy). specialize (Hall2 _ Hx). lia. }
      subst y. f_equal. apply IH; try assumption.
      intros i. split; intros Hi.
      * destruct (proj1 (Hsame i) (or_intror Hi)) as [->|]; [|assumption].
        specialize (Hall1 _ Hi). lia.
      * destruct (proj2 (Hsame i) (or_intror Hi)) as [->|]; [|assumption].
        specialize (Hall2 _ Hi). lia.
Qed.

Lemma filter_mem_sorted (l : list nat) (n : nat) :
  StronglySorted lt l -> (forall i, In i l -> i < n) ->
  filter (fun i => mem_nat i l) (seq 0 n) = l.
Proof.
  intros Hs Hlt. apply sorted_same_elements; [|assumption|].
  - apply StronglySorted_filter, StronglySorted_seq.
  - intros i. rewrite filter_In, in_seq, mem_nat_In. split; [tauto|].
    intros Hi. specialize (Hlt _ Hi). split; [lia|assumption].
Qed.

Lemma fold_slot_remove_data (material_slot_remove : Object -> Z -> Object)
    (idxs : list Z) (obj : Object) :
  (forall o z, data (material_slot_remove o z) = data o) ->
  data (fold_left material_slot_remove idxs obj) = data obj.
Proof.
  intros Hkeep. revert obj. induction idxs as [|z rest IH]; intros obj; simpl;
    [reflexivity|].
  now rewrite IH, Hkeep.
Qed.

End SplitFacts.

(** X3. [remove_faces] on one group of the dictionary: when the host's slot
    removal leaves the mesh alone, the object at the position given comes
    out with exactly the polygons of the group, in their order, and the
    rest of the scene is as it was.  The group is any strictly increasing
    list of polygon indices of the mesh, as the lists of
    [_get_tf_modes_from_ctypes] are. *)
Theorem remove_faces_keeps_group :
  forall (material_slot_remove :
            MaterialConverter.Object -> Z -> MaterialConverter.Object)
         (face_ids : list nat) (h : nat) (st : MaterialConverter.State)
         (new_obj : MaterialConverter.Object),
    (forall o z,
        MaterialConverter.data (material_slot_remove o z)
        = MaterialConverter.data o) ->
    nth_error (MaterialConverter.scene_objects st) h = Some new_obj ->
    StronglySorted lt face_ids ->
    (forall i, In i face_ids ->
               i < MaterialConverter.totpoly (MaterialConverter.data new_obj)) ->
    exists trimmed,
      MaterialConverter.remove_faces material_slot_remove face_ids h st
      = (MaterialConverter.mkState
           (MaterialConverter.update (MaterialConverter.scene_objects st) h
                                     trimmed)
           (MaterialConverter.root_export_type st)
           (MaterialConverter.materials st),
         Py.Ok tt)
      /\ MaterialConverter.data trimmed
         = MaterialConverter.mkMesh (List.length face_ids)
             (option_map (MaterialConverter.select face_ids)
                (MaterialConverter.mpoly (MaterialConverter.data new_obj)))
             (option_map (MaterialConverter.select face_ids)
                (MaterialConverter.mtpoly (MaterialConverter.data new_obj))).
Proof.
  intros msr face_ids h st new_obj Hkeep Hnth Hsorted Hbound.
  unfold MaterialConverter.remove_faces. rewrite Hnth.
  rewrite (filter_mem_sorted face_ids _ Hsorted Hbound).
  eexists. split; [reflexivity|].
  now rewrite fold_slot_remove_data.
Qed.

Lemma remove_faces_keeps_group_witness :
  exists trimmed,
    MaterialConverter.remove_faces sample_slot_remove [0; 2] 0 sample_scene
    = (MaterialConverter.mkState [trimmed] "aircraft" [], Py.Ok tt)
    /\ MaterialConverter.data trimmed
       = MaterialConverter.mkMesh 2
           (Some [MaterialConverter.mkMPoly 0 4 0 0;
                  MaterialConverter.mkMPoly 8 4 0 0])
           (Some [MaterialConverter.mkMTexPoly 0 0 4 0;
                  MaterialConverter.mkMTexPoly 0 0 4 0]).
Proof.
  apply (remove_faces_keeps_group sample_slot_remove [0; 2] 0 sample_scene
           sample_object).
  - reflexivity.
  - reflexivity.
  - repeat constructor.
  - simpl. intros i [<-|[<-|[]]]; lia.
Defined.

(** X4. What [_convert_material] always does: the copy is named after the
    material and the short name of the modes, its local shadow is the
    negation of SHADOW, and INVISIBLE turns drawing off; nothing but a
    GLOBAL_ property found under TEX changes the root's export type. *)
Theorem convert_material_settings :
  forall (K : MaterialConverter.constants)
         (find_property_in_parents : MaterialConverter.Object -> string -> bool)
         (root_export : string) (search_obj : MaterialConverter.Object)
         (is_cockpit : bool) (tf_modes : MaterialConverter._TexFaceModes)
         (mat : MaterialConverter.Material),
    let r := MaterialConverter._convert_material K find_property_in_parents
               root_export search_obj is_cockpit tf_modes mat in
    MaterialConverter.mat_name (fst r)
    = (MaterialConverter.mat_name mat ++ "_split_"
       ++ MaterialConverter.short_name tf_modes)%string
    /\ MaterialConverter.shadow_local (fst r)
       = negb (MaterialConverter.SHADOW tf_modes)
    /\ MaterialConverter.draw (fst r)
       = (if MaterialConverter.INVISIBLE tf_modes then false
          else MaterialConverter.draw mat)
    /\ (MaterialConverter.TEX tf_modes = false -> snd r = root_export)
    /\ (snd r = root_export
        \/ snd r = MaterialConverter.EXPORT_TYPE_INSTANCED_SCENERY K).
Proof.
  intros K fp root_export search_obj is_cockpit tf mat r. subst r.
  unfold MaterialConverter._convert_material.
  destruct tf as [tex tiles light invisible dynamic twoside shadow alpha clip].
  cbn [MaterialConverter.TEX MaterialConverter.TILES MaterialConverter.LIGHT
       MaterialConverter.INVISIBLE MaterialConverter.DYNAMIC
       MaterialConverter.TWOSIDE MaterialConverter.SHADOW
       MaterialConverter.ALPHA MaterialConverter.CLIP].
  set (new_name := (MaterialConverter.mat_name mat ++ _)%string).
  set (m0 := MaterialConverter.set_mat_name mat new_name).
  set (P := if tex then _ else (m0, root_export)).
  assert (HP : MaterialConverter.mat_name (fst P) = new_name
               /\ MaterialConverter.draw (fst P) = MaterialConverter.draw mat
               /\ (tex = false -> snd P = root_export)
               /\ (snd P = root_export
                   \/ snd P
                      = MaterialConverter.EXPORT_TYPE_INSTANCED_SCENERY K)).
  { subst P. destruct tex, alpha, clip;
      destruct (fp search_obj "ATTR_shadow_blend");
      destruct (fp search_obj "GLOBAL_shadow_blend");
      destruct (fp search_obj "ATTR_no_blend");
      destruct (fp search_obj "GLOBAL_no_blend");
      cbn [fst snd MaterialConverter.mat_name MaterialConverter.draw
           MaterialConverter.set_blend MaterialConverter.set_mat_name m0];
      repeat split; auto; discriminate. }
  clearbody P. destruct P as [m1 e1]. cbn [fst snd] in HP.
  destruct HP as (Hn & Hd & Ht & He).
  destruct tiles, light, invisible, dynamic, is_cockpit;
    destruct (fp search_obj "ATTR_draped");
    cbn [fst snd negb andb orb
         MaterialConverter.mat_name MaterialConverter.draw
         MaterialConverter.shadow_local
         MaterialConverter.set_draped MaterialConverter.set_poly_os
         MaterialConverter.set_draw MaterialConverter.set_solid_camera
         MaterialConverter.set_shadow_local];
    repeat split; auto.
Qed.

(* ================================================================== *)
(** * More of xplane_helpers.py: VerStruct *)
(* ================================================================== *)

(** ** The order that cmp computes *)

Module CmpOrder.

Import Ver.

(** The test of the first block of [cmp]: same version tuple, same build
    type, same build type version. *)
Definition same_release (lhs rhs : VerStruct) : bool :=
  tuple_eqb lhs.(addon_version) rhs.(addon_version)
  && String.eqb lhs.(build_type) rhs.(build_type)
  && (lhs.(build_type_version) =? rhs.(build_type_version))%Z.

Section WithConstants.

Variable K : constants.

(** The three nested tests of the second block, in the order in which they
    are evaluated. *)
Definition le_all (lhs rhs : VerStruct) : Py.result bool :=
  le <- tuple_le lhs.(addon_version) rhs.(addon_version) ;;
  if le then
    il <- index K.(BUILD_TYPES) lhs.(build_type) ;;
    ir <- index K.(BUILD_TYPES) rhs.(build_type) ;;
    Py.Ok ((il <=? ir)%Z
           && (lhs.(build_type_version) <=? rhs.(build_type_version))%Z)
  else Py.Ok false.

(** The three nested tests of the third block. *)
Definition ge_all (lhs rhs : VerStruct) : Py.result bool :=
  ge <- tuple_ge lhs.(addon_version) rhs.(addon_version) ;;
  if ge then
    il <- index K.(BUILD_TYPES) lhs.(build_type) ;;
    ir <- index K.(BUILD_TYPES) rhs.(build_type) ;;
    Py.Ok ((il >=? ir)%Z
           && (lhs.(build_type_version) >=? rhs.(build_type_version))%Z)
  else Py.Ok false.

(** [cmp] with the branches that return the same value merged. *)
Definition cmp_blocks (lhs rhs : VerStruct) : Py.result Z :=
  if same_release lhs rhs then Py.Ok 0%Z
  else
    lt <- le_all lhs rhs ;;
    if lt then Py.Ok (-1)%Z
    else
      gt <- ge_all lhs rhs ;;
      if gt then Py.Ok 1%Z
      else Py.Raise (Py.Exception "cmp function not implemented properly").

End WithConstants.

End CmpOrder.

Section CmpFacts.

Import Ver CmpOrder.

Variable K : constants.

Lemma cmp_as_blocks (lhs rhs : VerStruct) (f1 f2 : bool) :
  cmp K lhs rhs f1 f2 = cmp_blocks K lhs rhs.
Proof.
  unfold cmp, cmp_blocks, same_release, le_all, ge_all.
  repeat (simpl;
          match goal with
          | |- context [tuple_eqb ?a ?b] => destruct (tuple_eqb a b)
          | |- context [tuple_le ?a ?b] => destruct (tuple_le a b) as [[|]|?]
          | |- context [tuple_ge ?a ?b] => destruct (tuple_ge a b) as [[|]|?]
          | |- context [index ?a ?b] => destruct (index a b)
          | |- context [if ?b then _ else _] => destruct b
          end);
    reflexivity.
Qed.

Lemma value_eqb_sym (a b : Py.value) : value_eqb a b = value_eqb b a.
Proof.
  destruct a, b; simpl; auto using Z.eqb_sym, String.eqb_sym.
Qed.

Lemma value_eqb_refl (a : Py.value) : value_eqb a a = true.
Proof.
  destruct a; simpl; auto using Z.eqb_refl, String.eqb_refl.
Qed.

Lemma tuple_eqb_sym (a b : list Py.value) : tuple_eqb a b = tuple_eqb b a.
Proof.
  revert b. induction a as [|x a IH]; intros [|y b]; simpl; auto.
  now rewrite value_eqb_sym, IH.
Qed.

Lemma tuple_eqb_refl (a : list Py.value) : tuple_eqb a a = true.
Proof.
  induction a as [|x a IH]; simpl; [reflexivity|].
  now rewrite value_eqb_refl, IH.
Qed.

Lemma value_ge_le (a b : Py.value) : value_ge a b = value_le b a.
Proof.
  destruct a, b; simpl; try reflexivity. now rewrite Z.geb_leb.
Qed.

Lemma tuple_ge_le (a b : list Py.value) : tuple_ge a b = tuple_le b a.
Proof.
  revert b. induction a as [|x a IH]; intros [|y b]; simpl; auto.
  rewrite value_eqb_sym, value_ge_le, IH. reflexivity.
Qed.

Lemma value_le_antisym (a b : Py.value) :
  value_le a b = Py.Ok true -> value_le b a = Py.Ok true ->
  value_eqb a b = true.
Proof.
  destruct a, b; simpl; try discriminate.
  - intros [= H1] [= H2]. apply Z.eqb_eq.
    apply Z.leb_le in H1, H2. lia.
  - intros [= H1] [= H2]. apply String.eqb_eq.
    now apply String.leb_antisym.
Qed.

Lemma tuple_le_antisym (a b : list Py.value) :
  tuple_le a b = Py.Ok true -> tuple_le b a = Py.Ok true ->
  tuple_eqb a b = true.
Proof.
  revert b. induction a as [|x a IH]; intros [|y b]; simpl; auto;
    try discriminate.
  rewrite (value_eqb_sym y x).
  destruct (value_eqb x y) eqn:E; simpl; [apply IH|].
  intros H1 H2. rewrite (value_le_antisym x y H1 H2) in E. discriminate.
Qed.

(** The two directions of the order are defined together. *)
Lemma value_le_defined (a b : Py.value) (r : bool) :
  value_le a b = Py.Ok r -> exists r', value_le b a = Py.Ok r'.
Proof. destruct a, b; simpl; try discriminate; eauto. Qed.

Lemma tuple_le_defined (a b : list Py.value) (r : bool) :
  tuple_le a b = Py.Ok r -> exists r', tuple_le b a = Py.Ok r'.
Proof.
  revert b r. induction a as [|x a IH]; intros [|y b] r; simpl; eauto.
  rewrite (value_eqb_sym y x).
  destruct (value_eqb x y); [apply IH|apply value_le_defined].
Qed.

Lemma index_raises (l : list string) (x : string) (e : Py.exn) :
  index l x = Py.Raise e -> e = Py.ValueError.
Proof.
  induction l as [|y rest IH]; simpl; [congruence|].
  destruct (String.eqb y x); [discriminate|].
  destruct (index rest x); simpl; [discriminate|].
  intros [= <-]. now apply IH.
Qed.

Lemma index_nonneg (l : list string) (x : string) (i : Z) :
  index l x = Py.Ok i -> (0 <= i)%Z.
Proof.
  revert i. induction l as [|y rest IH]; intros i; simpl; [discriminate|].
  destruct (String.eqb y x); [intros [= <-]; lia|].
  destruct (index rest x) as [j|]; simpl; [|discriminate].
  intros [= <-]. specialize (IH j eq_refl). lia.
Qed.

Lemma index_inj (l : list string) (x y : string) (i : Z) :
  index l x = Py.Ok i -> index l y = Py.Ok i -> x = y.
Proof.
  revert i. induction l as [|z rest IH]; intros i; simpl; [discriminate|].
  destruct (String.eqb z x) eqn:Ex; destruct (String.eqb z y) eqn:Ey.
  - intros _ _. apply String.eqb_eq in Ex, Ey. congruence.
  - intros [= <-]. destruct (index rest y) as [j|] eqn:E; simpl;
      [|discriminate].
    intros [= Hc]. apply index_nonneg in E. lia.
  - destruct (index rest x) as [j|] eqn:E; simpl; [|discriminate].
    intros [= <-] [= Hc]. apply index_nonneg in E. lia.
  - destruct (index rest x) as [j|] eqn:E1; simpl; [|discriminate].
    destruct (index rest y) as [j'|] eqn:E2; simpl; [|discriminate].
    intros [= <-] [= Hj]. apply (IH j); [reflexivity|].
    f_equal. lia.
Qed.

Lemma same_release_sym (lhs rhs : VerStruct) :
  same_release lhs rhs = same_release rhs lhs.
Proof.
  unfold same_release.
  now rewrite tuple_eqb_sym, String.eqb_sym, Z.eqb_sym.
Qed.

Lemma ge_all_le_all (lhs rhs : VerStruct) :
  ge_all K lhs rhs = le_all K rhs lhs.
Proof.
  unfold ge_all, le_all. rewrite tuple_ge_le.
  destruct (tuple_le _ _) as [[|]|e]; simpl; try reflexivity.
  destruct (index (BUILD_TYPES K) (build_type lhs)) as [il|e1] eqn:E1;
    destruct (index (BUILD_TYPES K) (build_type rhs)) as [ir|e2] eqn:E2;
    simpl.
  - now rewrite !Z.geb_leb.
  - reflexivity.
  - apply index_raises in E1. now subst.
  - apply index_raises in E1. apply index_raises in E2. now subst.
Qed.

(** Both ways below means the same release. *)
Lemma le_all_antisym (lhs rhs : VerStruct) :
  le_all K lhs rhs = Py.Ok true -> le_all K rhs lhs = Py.Ok true ->
  same_release lhs rhs = true.
Proof.
  unfold le_all, same_release.
  destruct (tuple_le (addon_version lhs) (addon_version rhs))
    as [[|]|] eqn:L1; simpl; try discriminate.
  destruct (tuple_le (addon_version rhs) (addon_version lhs))
    as [[|]|] eqn:L2; simpl; try discriminate.
  destruct (index (BUILD_TYPES K) (build_type lhs)) as [il|] eqn:E1;
    simpl; try discriminate.
  destruct (index (BUILD_TYPES K) (build_type rhs)) as [ir|] eqn:E2;
    simpl; try discriminate.
  intros [= H1] [= H2].
  apply andb_prop in H1, H2. destruct H1 as [Hi1 Hv1], H2 as [Hi2 Hv2].
  apply Z.leb_le in Hi1, Hv1, Hi2, Hv2.
  rewrite (tuple_le_antisym _ _ L1 L2). simpl.
  assert (il = ir) by lia. subst ir.
  rewrite (index_inj _ _ _ _ E1 E2), String.eqb_refl. simpl.
  apply Z.eqb_eq. lia.
Qed.

Lemma le_all_defined (lhs rhs : VerStruct) :
  le_all K lhs rhs = Py.Ok true -> exists r, le_all K rhs lhs = Py.Ok r.
Proof.
  unfold le_all.
  destruct (tuple_le (addon_version lhs) (addon_version rhs))
    as [[|]|] eqn:L1; simpl; try discriminate.
  destruct (tuple_le_defined _ _ _ L1) as (r' & ->). simpl.
  destruct (index (BUILD_TYPES K) (build_type lhs)) as [il|]; simpl;
    try discriminate.
  destruct (index (BUILD_TYPES K) (build_type rhs)) as [ir|]; simpl;
    try discriminate.
  intros _. destruct r'; eauto.
Qed.

Lemma cmp_blocks_antisym (lhs rhs : VerStruct) (r : Z) :
  cmp_blocks K lhs rhs = Py.Ok r -> cmp_blocks K rhs lhs = Py.Ok (- r)%Z.
Proof.
  unfold cmp_blocks. rewrite (same_release_sym rhs lhs).
  destruct (same_release lhs rhs) eqn:S; [now intros [= <-]|].
  rewrite (ge_all_le_all lhs rhs), (ge_all_le_all rhs lhs).
  destruct (le_all K lhs rhs) as [[|]|] eqn:L1; simpl; try discriminate.
  - intros [= <-].
    destruct (le_all_defined _ _ L1) as ([|] & L2); rewrite L2; simpl.
    + rewrite (le_all_antisym _ _ L1 L2) in S. discriminate.
    + reflexivity.
  - destruct (le_all K rhs lhs) as [[|]|] eqn:L2; simpl; try discriminate.
    now intros [= <-].
Qed.

End CmpFacts.

(** X5. [cmp] is antisymmetric where it returns: when [cmp(lhs, rhs)] is
    [r], [cmp(rhs, lhs)] is [-r], whatever the two optional arguments
    are. *)
Theorem cmp_antisymmetric :
  forall (K : Ver.constants) (lhs rhs : Ver.VerStruct) (f1 f2 g1 g2 : bool)
         (r : Z),
    Ver.cmp K lhs rhs f1 f2 = Py.Ok r ->
    Ver.cmp K rhs lhs g1 g2 = Py.Ok (- r)%Z.
Proof.
  intros K lhs rhs f1 f2 g1 g2 r. rewrite !cmp_as_blocks.
  apply cmp_blocks_antisym.
Qed.

Lemma cmp_antisymmetric_witness :
  Ver.cmp Ver.sample_constants
    (Ver.mkVer [Py.VInt 3; Py.VInt 4; Py.VInt 0] "alpha" 1 1 "NO_BUILD_NUMBR")
    (Ver.mkVer [Py.VInt 3; Py.VInt 4; Py.VInt 0] "rc" 2 3 "NO_BUILD_NUMBR")
    false false
  = Py.Ok (-1)%Z
  /\ Ver.cmp Ver.sample_constants
       (Ver.mkVer [Py.VInt 3; Py.VInt 4; Py.VInt 0] "rc" 2 3 "NO_BUILD_NUMBR")
       (Ver.mkVer [Py.VInt 3; Py.VInt 4; Py.VInt 0] "alpha" 1 1
                  "NO_BUILD_NUMBR")
       true true
     = Py.Ok 1%Z.
Proof.
  split; [reflexivity|].
  apply (cmp_antisymmetric Ver.sample_constants
           (Ver.mkVer [Py.VInt 3; Py.VInt 4; Py.VInt 0] "alpha" 1 1
                      "NO_BUILD_NUMBR")
           (Ver.mkVer [Py.VInt 3; Py.VInt 4; Py.VInt 0] "rc" 2 3
                      "NO_BUILD_NUMBR")
           false false true true (-1)%Z).
  reflexivity.
Defined.

(** X6. [cmp] returns 0 exactly when the version tuples, the build types
    and the build type versions are equal: a struct compares equal to
    itself, and the data model version and the build number never enter
    the outcome. *)
Theorem cmp_zero_iff_same_release :
  forall (K : Ver.constants) (lhs rhs : Ver.VerStruct) (f1 f2 : bool),
    (Ver.cmp K lhs rhs f1 f2 = Py.Ok 0%Z
     <-> CmpOrder.same_release lhs rhs = true)
    /\ Ver.cmp K lhs lhs f1 f2 = Py.Ok 0%Z
    /\ (forall dm1 dm2 bn1 bn2,
          Ver.cmp K
            (Ver.mkVer (Ver.addon_version lhs) (Ver.build_type lhs)
                       (Ver.build_type_version lhs) dm1 bn1)
            (Ver.mkVer (Ver.addon_version rhs) (Ver.build_type rhs)
                       (Ver.build_type_version rhs) dm2 bn2)
            f1 f2
          = Ver.cmp K lhs rhs f1 f2).
Proof.
  intros K lhs rhs f1 f2. split; [|split].
  - rewrite cmp_as_blocks. unfold CmpOrder.cmp_blocks.
    destruct (CmpOrder.same_release lhs rhs); [tauto|].
    split; [|discriminate].
    destruct (CmpOrder.le_all K lhs rhs) as [[|]|]; simpl; try discriminate.
    destruct (CmpOrder.ge_all K lhs rhs) as [[|]|]; simpl; discriminate.
  - rewrite cmp_as_blocks. unfold CmpOrder.cmp_blocks, CmpOrder.same_release.
    now rewrite tuple_eqb_refl, String.eqb_refl, Z.eqb_refl.
  - intros dm1 dm2 bn1 bn2. rewrite !cmp_as_blocks. reflexivity.
Qed.

(** ** What is_valid accepts *)

Module Validity.

Import Ver.


End Validity.

Section IsValidFacts.

Import Ver Validity.

Variable K : constants.

Lemma index_Ok_In (l : list string) (x : string) (i : Z) :
  index l x = Py.Ok i -> In x l.
Proof.
  revert i. induction l as [|y rest IH]; intros i; simpl; [discriminate|].
  destruct (String.eqb_spec y x) as [->|Hne]; [now left|].
  destruct (index rest x) as [j|] eqn:E; simpl; [|discriminate].
  intros _. right. now apply (IH j).
Qed.







End IsValidFacts.


(** X8. [is_valid] does not always answer [True] or [False]: it raises on
    a version tuple that does not have three elements, it returns [None]
    when the major version is an integer below 3 (whatever the other
    members are), and it raises [ValueError] when the version tuple passes
    and the build type is not one of [BUILD_TYPES]. *)
Theorem is_valid_other_outcomes :
  forall (K : Ver.constants) (v : Ver.VerStruct),
    (List.length (Ver.addon_version v) <> 3 ->
     Ver.is_valid K v
     = Py.Raise (Py.Exception "Incorrect types passed into VerStruct"))
    /\ (forall a y z,
          Ver.addon_version v = [Py.VInt a; y; z] -> (a < 3)%Z ->
          Ver.is_valid K v = Py.Ok None)
    /\ (forall a b c,
          Ver.addon_version v = [Py.VInt a; Py.VInt b; Py.VInt c] ->
          (3 <= a)%Z -> (0 <= b)%Z -> (0 <= c)%Z ->
          ~ In (Ver.build_type v) (Ver.BUILD_TYPES K) ->
          Ver.is_valid K v = Py.Raise Py.ValueError).
Proof.
  intros K v. split; [|split].
  - intros Hlen. unfold Ver.is_valid.
    destruct (Nat.eqb_spec (List.length (Ver.addon_version v)) 3);
      [contradiction|reflexivity].
  - intros a y z Hl Ha. unfold Ver.is_valid, Ver.addon_ge.
    rewrite Hl. simpl. destruct (Z.geb_spec a 3); [lia|reflexivity].
  - intros a b c Hl Ha Hb Hc Hnotin. unfold Ver.is_valid, Ver.addon_ge.
    rewrite Hl. simpl.
    destruct (Z.geb_spec a 3); [|lia].
    destruct (Z.geb_spec b 0); [|lia].
    destruct (Z.geb_spec c 0); [|lia]. simpl.
    destruct (Ver.index (Ver.BUILD_TYPES K) (Ver.build_type v)) as [i|e]
      eqn:Ei; simpl.
    + exfalso. apply Hnotin. now apply (index_Ok_In _ _ i).
    + now rewrite (index_raises _ _ _ Ei).
Qed.

Lemma is_valid_other_outcomes_witness :
  Ver.is_valid Ver.sample_constants
    (Ver.mkVer [Py.VInt 2; Py.VInt 49; Py.VStr "x"] "beta" 1 1 "NO_BUILD_NUMBR")
  = Py.Ok None
  /\ Ver.is_valid Ver.sample_constants
       (Ver.mkVer [Py.VInt 3; Py.VInt 4; Py.VInt 0] "gamma" 1 1
                  "NO_BUILD_NUMBR")
     = Py.Raise Py.ValueError.
Proof.
  split.
  - apply (proj1 (proj2 (is_valid_other_outcomes Ver.sample_constants _))
             2%Z (Py.VInt 49) (Py.VStr "x")); [reflexivity|lia].
  - apply (proj2 (proj2 (is_valid_other_outcomes Ver.sample_constants _))
             3%Z 4%Z 0%Z); try reflexivity; try lia.
    simpl. intros [H|[H|[H|[H|[H|[]]]]]]; discriminate.
Defined.

(** ** The build number is read by its first fourteen characters *)

Section BuildNumberFacts.

Import Ver.

Lemma take_app (n : nat) (s t a b : string) :
  Text.take n s = Some (a, b) ->
  Text.take n (s ++ t) = Some (a, (b ++ t)%string).
Proof.
  revert s a b. induction n as [|n IH]; intros s a b; simpl.
  - now intros [= <- <-].
  - destruct s as [|c s]; [discriminate|]. simpl.
    destruct (Text.take n s) as [[a' b']|] eqn:E; [|discriminate].
    intros [= <- <-]. now rewrite (IH _ _ _ E).
Qed.

Lemma digitsN_app (n : nat) (s t a b : string) :
  Text.digitsN n s = Some (a, b) ->
  Text.digitsN n (s ++ t) = Some (a, (b ++ t)%string).
Proof.
  unfold Text.digitsN.
  destruct (Text.take n s) as [[a' b']|] eqn:E; [|discriminate].
  rewrite (take_app _ _ t _ _ E).
  destruct (Text.all Text.is_digit a'); [|discriminate].
  now intros [= <- <-].
Qed.

Lemma match_datetime_app (s t : string) (groups : list string) :
  match_datetime s = Some groups ->
  match_datetime (s ++ t) = Some groups.
Proof.
  unfold match_datetime.
  destruct (Text.digitsN 4 s) as [[g1 s1]|] eqn:E1; [|discriminate].
  rewrite (digitsN_app _ _ t _ _ E1).
  destruct (Text.digitsN 2 s1) as [[g2 s2]|] eqn:E2; [|discriminate].
  rewrite (digitsN_app _ _ t _ _ E2).
  destruct (Text.digitsN 2 s2) as [[g3 s3]|] eqn:E3; [|discriminate].
  rewrite (digitsN_app _ _ t _ _ E3).
  destruct (Text.digitsN 2 s3) as [[g4 s4]|] eqn:E4; [|discriminate].
  rewrite (digitsN_app _ _ t _ _ E4).
  destruct (Text.digitsN 2 s4) as [[g5 s5]|] eqn:E5; [|discriminate].
  rewrite (digitsN_app _ _ t _ _ E5).
  destruct (Text.digitsN 2 s5) as [[g6 s6]|] eqn:E6; [|discriminate].
  rewrite (digitsN_app _ _ t _ _ E6).
  auto.
Qed.

Lemma take_short (n : nat) (s : string) :
  String.length s < n -> Text.take n s = None.
Proof.
  revert s. induction n as [|n IH]; intros s; simpl; [lia|].
  destruct s as [|c s]; simpl; [reflexivity|].
  intros Hlen. rewrite IH by lia. reflexivity.
Qed.

Lemma take_length (n : nat) (s a b : string) :
  Text.take n s = Some (a, b) -> String.length s = n + String.length b.
Proof.
  revert s a b. induction n as [|n IH]; intros s a b; simpl.
  - now intros [= <- <-].
  - destruct s as [|c s]; [discriminate|].
    destruct (Text.take n s) as [[a' b']|] eqn:E; [|discriminate].
    intros [= <- <-]. simpl. now rewrite (IH _ _ _ E).
Qed.

Lemma digitsN_length (n : nat) (s a b : string) :
  Text.digitsN n s = Some (a, b) -> String.length s = n + String.length b.
Proof.
  unfold Text.digitsN.
  destruct (Text.take n s) as [[a' b']|] eqn:E; [|discriminate].
  destruct (Text.all Text.is_digit a'); [|discriminate].
  intros [= <- <-]. now apply (take_length _ _ a').
Qed.

Lemma match_datetime_short (s : string) :
  String.length s < 14 -> match_datetime s = None.
Proof.
  intros Hlen. unfold match_datetime.
  destruct (Text.digitsN 4 s) as [[g1 s1]|] eqn:E1; [|reflexivity].
  apply digitsN_length in E1.
  destruct (Text.digitsN 2 s1) as [[g2 s2]|] eqn:E2; [|reflexivity].
  apply digitsN_length in E2.
  destruct (Text.digitsN 2 s2) as [[g3 s3]|] eqn:E3; [|reflexivity].
  apply digitsN_length in E3.
  destruct (Text.digitsN 2 s3) as [[g4 s4]|] eqn:E4; [|reflexivity].
  apply digitsN_length in E4.
  destruct (Text.digitsN 2 s4) as [[g5 s5]|] eqn:E5; [|reflexivity].
  apply digitsN_length in E5.
  destruct (Text.digitsN 2 s5) as [[g6 s6]|] eqn:E6; [|reflexivity].
  apply digitsN_length in E6. lia.
Qed.

End BuildNumberFacts.

(** X9. The date test of [is_valid] looks at the first fourteen characters
    of the build number only: a build number that passes still passes with
    any text appended, and one shorter than fourteen characters fails. *)
Theorem build_number_prefix_decides :
  forall (s t : string),
    (Ver.build_number_is_datetime s = true ->
     Ver.build_number_is_datetime (s ++ t) = true)
    /\ (String.length s < 14 -> Ver.build_number_is_datetime s = false).
Proof.
  intros s t. split.
  - unfold Ver.build_number_is_datetime.
    destruct (Ver.match_datetime s) as [groups|] eqn:E; [|discriminate].
    now rewrite (match_datetime_app s t groups E).
  - intros Hlen. unfold Ver.build_number_is_datetime.
    now rewrite match_datetime_short.
Qed.

Lemma build_number_prefix_decides_witness :
  Ver.build_number_is_datetime "20170906154330" = true
  /\ Ver.build_number_is_datetime "20170906154330 and more" = true
  /\ Ver.build_number_is_datetime "2017090615433" = false.
Proof.
  split; [reflexivity|]. split.
  - apply (proj1 (build_number_prefix_decides "20170906154330" " and more")).
    reflexivity.
  - apply (proj2 (build_number_prefix_decides "2017090615433" "")).
    simpl. lia.
Defined.

(** ** __str__, __repr__ and the version history *)

Module VerText.

Import Ver.

(** [str(n)] of an integer. *)
Definition str_int (z : Z) : string :=
  DecimalString.NilZero.string_of_int (Z.to_int z).

(** [str(x)] of a value. *)
Definition str_value (x : Py.value) : string :=
  match x with
  | Py.VNone => "None"
  | Py.VInt z => str_int z
  | Py.VStr s => s
  end.

(** [sep.join(parts)] *)
Fixpoint join (sep : string) (parts : list string) : string :=
  match parts with
  | [] => ""
  | [p] => p
  | p :: rest => p ++ sep ++ join sep rest
  end.

(** [__repr__] *)
Definition repr (self : VerStruct) : string :=
  "(" ++ ("(" ++ join "," (map str_value self.(addon_version)) ++ ")")
  ++ ", " ++ ("'" ++ self.(build_type) ++ "'")
  ++ ", " ++ str_int self.(build_type_version)
  ++ ", " ++ str_int self.(data_model_version)
  ++ ", " ++ ("'" ++ self.(build_number) ++ "'") ++ ")".

(** [__str__] *)
Definition to_str (self : VerStruct) : string :=
  join "." (map str_value self.(addon_version))
  ++ "-" ++ self.(build_type)
  ++ "." ++ str_int self.(build_type_version)
  ++ "+" ++ str_int self.(data_model_version)
  ++ "." ++ self.(build_number).

(** What [add_to_version_history] returns: the new entry (known here by
    its name), [None], or [False]. *)
Inductive added : Type :=
| NewEntry (name : string)
| AddedNone
| AddedFalse.

(** [add_to_version_history].  The history is the list of its entries'
    names; [safe_set_version_data] belongs to the property group of the
    host and is a parameter, taken by whether it succeeds. *)
Definition add_to_version_history (safe_set_version_data : VerStruct -> bool)
    (history : list string) (version_to_add : VerStruct)
    : list string * added :=
  if (List.length history =? 0)%nat
     || negb (String.eqb (last history "") (repr version_to_add))
  then
    let history := history ++ [repr version_to_add] in
    let success := safe_set_version_data version_to_add in
    if negb success
    then (removelast history, AddedNone)
    else (history, NewEntry (repr version_to_add))
  else (history, AddedFalse).

(** No entry has the name of the entry before it. *)
Fixpoint no_repeat (history : list string) : Prop :=
  match history with
  | [] => True
  | x :: rest =>
      match rest with
      | [] => True
      | y :: _ => x <> y /\ no_repeat rest
      end
  end.

End VerText.

Section VerTextFacts.

Import Ver VerText.

Lemma contains_app (c : ascii) (a b : string) :
  Text.contains c (a ++ b) = Text.contains c a || Text.contains c b.
Proof.
  induction a as [|d a IH]; simpl; [reflexivity|].
  now rewrite IH, orb_assoc.
Qed.

Lemma to_str_has_dash (v : VerStruct) : Text.contains "-" (to_str v) = true.
Proof.
  unfold to_str. rewrite contains_app. apply orb_true_iff. right.
  reflexivity.
Qed.

(** On a string with a '-', [parse_version] hands back no struct. *)
Lemma parse_version_dash (K : constants) (s : string) (r : VerStruct) :
  Text.contains "-" s = true -> parse_version K s <> Py.Ok (Some r).
Proof.
  intros Hdash. unfold parse_version. rewrite Hdash.
  destruct (match_version (Text.contains "+" s) s) as [m|];
    [|discriminate].
  destruct (Text.py_int (group3 m)) as [btv|e]; simpl; [|discriminate].
  destruct (Text.contains "+" s).
  - destruct (group45 m) as [[g4 g5]|]; simpl; [|discriminate].
    destruct (Text.py_int g4) as [dmv|e]; simpl; [|discriminate].
    match goal with
    | |- context [is_valid K ?v] =>
        destruct (is_valid_of_strings K v (Text.split_dot (group1 m))
                    eq_refl) as (e & ->)
    end.
    discriminate.
  - simpl.
    match goal with
    | |- context [is_valid K ?v] =>
        destruct (is_valid_of_strings K v (Text.split_dot (group1 m))
                    eq_refl) as (e & ->)
    end.
    discriminate.
Qed.

Lemma no_repeat_snoc (history : list string) (x : string) :
  no_repeat history ->
  (history = [] \/ last history "" <> x) ->
  no_repeat (history ++ [x]).
Proof.
  induction history as [|a rest IH]; simpl; [auto|].
  destruct rest as [|b rest'].
  - simpl. intros _ [Hnil|Hne]; [discriminate|]. split; auto.
  - intros [Hab Hrest] Hlast. simpl. split; [assumption|].
    apply IH; [assumption|]. right.
    destruct Hlast as [Hnil|Hne]; [discriminate|]. exact Hne.
Qed.

End VerTextFacts.

(** X10. Writing a version out with [__str__] and reading it back with
    [parse_version] never gives the version back: the text always has a
    '-', and on such text [parse_version] raises or returns [None]. *)
Theorem str_then_parse_never_round_trips :
  forall (K : Ver.constants) (v r : Ver.VerStruct),
    Text.contains "-" (VerText.to_str v) = true
    /\ Ver.parse_version K (VerText.to_str v) <> Py.Ok (Some r).
Proof.
  intros K v r. split; [apply to_str_has_dash|].
  apply parse_version_dash, to_str_has_dash.
Qed.

(** X11. [add_to_version_history] never makes an entry follow an entry of
    the same name: a history without such a repeat stays without one.  The
    history comes out unchanged or with the one entry named by the repr of
    the version at its end; it is unchanged with answer [False] exactly
    when its last entry already has that name, and unchanged with answer
    [None] when the version data is refused. *)
Theorem add_to_version_history_no_repeat :
  forall (safe_set_version_data : Ver.VerStruct -> bool)
         (history : list string) (version_to_add : Ver.VerStruct),
    let r := VerText.add_to_version_history safe_set_version_data history
               version_to_add in
    (VerText.no_repeat history -> VerText.no_repeat (fst r))
    /\ (snd r = VerText.AddedFalse
        <-> history <> []
            /\ last history "" = VerText.repr version_to_add)
    /\ match snd r with
       | VerText.NewEntry name =>
           name = VerText.repr version_to_add
           /\ fst r = history ++ [name]
           /\ safe_set_version_data version_to_add = true
       | VerText.AddedNone =>
           fst r = history /\ safe_set_version_data version_to_add = false
       | VerText.AddedFalse => fst r = history
       end.
Proof.
  intros safe history v r. subst r. unfold VerText.add_to_version_history.
  destruct history as [|a rest].
  - simpl. destruct (safe v); simpl.
    + repeat split; auto; try discriminate. intros [H _]. congruence.
    + repeat split; auto; try discriminate. intros [H _]. congruence.
  - change (List.length (a :: rest) =? 0)%nat with false.
    rewrite orb_false_l.
    destruct (String.eqb_spec (last (a :: rest) "") (VerText.repr v))
      as [Heq|Hne]; simpl negb; cbv iota.
    + repeat split; auto. discriminate.
    + destruct (safe v); simpl negb; cbv iota; cbn [fst snd].
      * split; [|split].
        -- intros Hnr. apply no_repeat_snoc; auto.
        -- split; [discriminate|]. intros [_ H]. contradiction.
        -- auto.
      * rewrite removelast_last. split; [|split].
        -- auto.
        -- split; [discriminate|]. intros [_ H]. contradiction.
        -- auto.
Qed.

Lemma add_to_version_history_no_repeat_witness :
  VerText.no_repeat
    ["((3,4,0), 'beta', 1, 1, 'NO_BUILD_NUMBR')"]
  /\ VerText.no_repeat
       (fst (VerText.add_to_version_history (fun _ => true)
               ["((3,4,0), 'beta', 1, 1, 'NO_BUILD_NUMBR')"]
               (Ver.mkVer [Py.VInt 3; Py.VInt 4; Py.VInt 0] "beta" 2 1
                          "NO_BUILD_NUMBR"))).
Proof.
  split; [exact I|].
  apply (proj1 (add_to_version_history_no_repeat (fun _ => true)
                  ["((3,4,0), 'beta', 1, 1, 'NO_BUILD_NUMBR')"]
                  (Ver.mkVer [Py.VInt 3; Py.VInt 4; Py.VInt 0] "beta" 2 1
                             "NO_BUILD_NUMBR"))).
  exact I.
Defined.

(* ================================================================== *)
(** * More of xplane_helpers.py: the rest of XPlaneLogger *)
(* ================================================================== *)

Module LoggerText.

Import Logger.

(** An instance of [str.upper] to run the code on: it raises the 7-bit
    letters and leaves every other character. *)
Definition upper_char (c : ascii) : ascii :=
  let n := nat_of_ascii c in
  if (97 <=? n)%nat && (n <=? 122)%nat then ascii_of_nat (n - 32) else c.

Fixpoint upper_7bit (s : string) : string :=
  match s with
  | EmptyString => EmptyString
  | String c rest => String (upper_char c) (upper_7bit rest)
  end.

(** The line feed. *)
Definition nl : string := String (ascii_of_nat 10) EmptyString.

(** What the transports of the class write to, and the module's counter
    [message_to_str_count]. *)
Record Out : Type := mkOut {
  file : string;
  console : string;
  message_to_str_count : nat
}.

Section WithUpper.

(** [str.upper], the interpreter's.  It is taken as given: of the code
    points below 256 it sends two (181 and 255) past that range and one
    (223) to two letters, so it is not a function on the characters of
    this model. *)
Variable upper : string -> string.

(** [messageToString]: the text, and the counter after the call. *)
Definition messageToString (messageType message : string)
    (context : Py.value) (count : nat) : string * nat :=
  ((upper messageType ++ ": " ++ message)%string, S count).

(** The loop of [messagesToString]. *)
Fixpoint messagesToString_loop (messages : list message) (out : string)
    (count : nat) : string * nat :=
  match messages with
  | [] => (out, count)
  | m :: rest =>
      let '(s, count) :=
        messageToString m.(m_type) m.(m_message) m.(m_context) count in
      messagesToString_loop rest (out ++ s ++ nl)%string count
  end.



(** [ConsoleTransport()]: [print('\n')] writes two line feeds, and the
    counter is tested before [messageToString] raises it. *)
Definition ConsoleTransport (messageType message : string)
    (context : Py.value) (w : Out) : Out * Py.result unit :=
  let blank :=
    if (w.(message_to_str_count) =? 1)%nat then (nl ++ nl)%string else "" in
  let '(s, count) :=
    messageToString messageType message context w.(message_to_str_count) in
  (mkOut w.(file) (w.(console) ++ blank ++ s ++ nl)%string count, Py.Ok tt).

End WithUpper.

(** [clearTransports], [clearMessages] *)
Definition clearTransports {World : Type} (self : XPlaneLogger World)
    : XPlaneLogger World :=
  mkLogger [] self.(Logger.messages).

Definition clearMessages {World : Type} (self : XPlaneLogger World)
    : XPlaneLogger World :=
  mkLogger self.(transports) [].

(** [error], [warn], [info], [success] *)
Definition error {World : Type} (self : XPlaneLogger World) (message : string)
    (context : Py.value) (w : World) :=
  log self "error" message context w.

Definition warn {World : Type} (self : XPlaneLogger World) (message : string)
    (context : Py.value) (w : World) :=
  log self "warning" message context w.

Definition info {World : Type} (self : XPlaneLogger World) (message : string)
    (context : Py.value) (w : World) :=
  log self "info" message context w.

Definition success {World : Type} (self : XPlaneLogger World)
    (message : string) (context : Py.value) (w : World) :=
  log self "success" message context w.

(** [findInfos] *)
Definition findInfos {World : Type} (self : XPlaneLogger World)
    : list message :=
  findOfType self "info".

(** One call of [log] after the other, up to the first that raises. *)
Fixpoint log_all {World : Type} (self : XPlaneLogger World)
    (entries : list message) (w : World)
    : XPlaneLogger World * (World * Py.result unit) :=
  match entries with
  | [] => (self, (w, Py.Ok tt))
  | e :: rest =>
      match log self e.(m_type) e.(m_message) e.(m_context) w with
      | (self1, (w1, Py.Ok _)) => log_all self1 rest w1
      | (self1, (w1, Py.Raise x)) => (self1, (w1, Py.Raise x))
      end
  end.

(** The text of [messagesToString] for a list of messages. *)
Definition lines (upper : string -> string) (ms : list message) : string :=
  fst (messagesToString_loop upper ms "" 0).

End LoggerText.

Section LoggerTextFacts.

Import Logger LoggerText.

Variable upper : string -> string.

Lemma append_nil_r (s : string) : (s ++ "")%string = s.
Proof. induction s as [|c s IH]; simpl; [reflexivity|now rewrite IH]. Qed.

Lemma append_assoc (a b c : string) :
  ((a ++ b) ++ c)%string = (a ++ (b ++ c))%string.
Proof. induction a as [|d a IH]; simpl; [reflexivity|now rewrite IH]. Qed.

Lemma messagesToString_loop_acc (ms : list message) (out : string)
    (count : nat) :
  messagesToString_loop upper ms out count
  = ((out ++ lines upper ms)%string, count + List.length ms).
Proof.
  unfold lines. revert out count.
  induction ms as [|m rest IH]; intros out count; simpl.
  - now rewrite append_nil_r, Nat.add_0_r.
  - rewrite IH. rewrite (IH (_ ++ nl)%string 1). simpl.
    rewrite !append_assoc. f_equal. lia.
Qed.

Lemma lines_cons (m : message) (rest : list message) :
  lines upper (m :: rest)
  = (upper (m_type m) ++ ": " ++ m_message m ++ nl ++ lines upper rest)%string.
Proof.
  unfold lines at 1. simpl. rewrite messagesToString_loop_acc. simpl.
  now rewrite !append_assoc.
Qed.

Lemma lines_app (ms1 ms2 : list message) :
  lines upper (ms1 ++ ms2) = (lines upper ms1 ++ lines upper ms2)%string.
Proof.
  induction ms1 as [|m rest IH]; simpl; [reflexivity|].
  rewrite !lines_cons, IH, !append_assoc. reflexivity.
Qed.

Lemma findOfType_snoc {World : Type} (L : XPlaneLogger World)
    (m : message) (t : string) :
  findOfType (mkLogger (transports L) (messages L ++ [m])) t
  = findOfType L t ++ (if String.eqb (m_type m) t then [m] else []).
Proof.
  rewrite !findOfType_filter. simpl. rewrite filter_app. reflexivity.
Qed.

End LoggerTextFacts.

(** X12. What is logged can be found again: after [log(t, m, c)] the
    messages of a type [t'] are those there were before, followed by the
    new record when [t'] is [t], so [hasOfType(t)] holds; accordingly
    [error] makes [hasErrors] true and leaves the warnings as they were.
    After [clearMessages] no type has a message and the transports are
    kept. *)
Theorem log_then_find :
  forall (World : Type) (L : Logger.XPlaneLogger World) (t m : string)
         (c : Py.value) (w : World) (t' : string),
    Logger.findOfType (fst (Logger.log L t m c w)) t'
    = Logger.findOfType L t'
      ++ (if String.eqb t t' then [Logger.mkMessage t m c] else [])
    /\ Logger.hasOfType (fst (Logger.log L t m c w)) t = true
    /\ Logger.hasErrors (fst (LoggerText.error L m c w)) = true
    /\ Logger.findWarnings (fst (LoggerText.error L m c w))
       = Logger.findWarnings L
    /\ Logger.findOfType (LoggerText.clearMessages L) t' = []
    /\ Logger.hasOfType (LoggerText.clearMessages L) t' = false
    /\ Logger.transports (LoggerText.clearMessages L) = Logger.transports L.
Proof.
  intros World L t m c w t'.
  assert (Hfind : forall u u' x,
            Logger.findOfType (fst (Logger.log L u x c w)) u'
            = Logger.findOfType L u'
              ++ (if String.eqb u u' then [Logger.mkMessage u x c] else [])).
  { intros u u' x. unfold Logger.log. cbn [fst].
    apply (findOfType_snoc L (Logger.mkMessage u x c) u'). }
  assert (Hhas : forall u x,
            Logger.hasOfType (fst (Logger.log L u x c w)) u = true).
  { intros u x. unfold Logger.hasOfType.
    rewrite hasOfType_loop_existsb. apply existsb_filter_nonempty.
    rewrite <- findOfType_filter, Hfind, String.eqb_refl. intros E.
    apply app_eq_nil in E. destruct E as [_ E]. discriminate. }
  split; [apply Hfind|]. split; [apply Hhas|].
  split; [apply Hhas|].
  split; [unfold Logger.findWarnings, LoggerText.error;
          rewrite Hfind; simpl; apply app_nil_r|].
  repeat split.
Qed.

Section TransportFacts.

Import Logger LoggerText.

Variable upper : string -> string.

(** The entries that a type list lets through. *)
Definition accepted_entries (types : list string) (entries : list message)
    : list message :=
  filter (fun e => py_in (m_type e) types) entries.

(** A logger with one transport that always returns: a run of calls
    buffers every entry and hands the accepted ones to the transport, in
    order. *)
Lemma log_all_single {World : Type} (tr : transport World)
    (entries : list message) :
  (forall t m c w, snd (t_fn tr t m c w) = Py.Ok tt) ->
  forall (L : XPlaneLogger World) (w : World),
    transports L = [tr] ->
    log_all L entries w
    = (mkLogger [tr] (messages L ++ entries),
       (fold_left
          (fun w e => fst (t_fn tr (m_type e) (m_message e) (m_context e) w))
          (accepted_entries (t_types tr) entries) w,
        Py.Ok tt)).
Proof.
  intros Hret. induction entries as [|e rest IH]; intros L w Htr.
  - simpl. rewrite app_nil_r, <- Htr. now destruct L.
  - simpl. unfold log. rewrite Htr. simpl.
    destruct e as [t m c]. simpl.
    destruct (py_in t (t_types tr)) eqn:E; simpl.
    + specialize (Hret t m c w).
      destruct (t_fn tr t m c w) as [w1 [[]|x]]; simpl in *;
        [|discriminate].
      rewrite IH by reflexivity. simpl. now rewrite <- app_assoc.
    + rewrite IH by reflexivity. simpl. now rewrite <- app_assoc.
Qed.


Definition console_step (w : Out) (e : message) : Out :=
  fst (ConsoleTransport upper (m_type e) (m_message e) (m_context e) w).


Lemma console_step_eq (w : Out) (m : message) :
  console_step w m
  = mkOut (file w)
          (console w
           ++ (if (message_to_str_count w =? 1)%nat then nl ++ nl else "")
           ++ (upper (m_type m) ++ ": " ++ m_message m) ++ nl)%string
          (S (message_to_str_count w)).
Proof. reflexivity. Qed.

(** Past the first two calls of [messageToString] the console transport
    writes the lines and nothing else. *)
Lemma console_fold_late (ms : list message) (w : Out) :
  2 <= message_to_str_count w ->
  fold_left console_step ms w
  = mkOut (file w) (console w ++ lines upper ms)%string
          (message_to_str_count w + List.length ms).
Proof.
  revert w. induction ms as [|m rest IH]; intros w Hc.
  - cbn [fold_left List.length]. unfold lines. cbn [messagesToString_loop fst].
    rewrite append_nil_r, Nat.add_0_r. now destruct w.
  - cbn [fold_left List.length].
    rewrite IH by (rewrite console_step_eq; cbn [message_to_str_count]; lia).
    rewrite console_step_eq. cbn [file console message_to_str_count].
    destruct (Nat.eqb_spec (message_to_str_count w) 1); [lia|].
    rewrite lines_cons, !append_assoc. cbn [append]. f_equal. lia.
Qed.

Lemma console_fold_at_1 (m : message) (rest : list message) (w : Out) :
  message_to_str_count w = 1 ->
  fold_left console_step (m :: rest) w
  = mkOut (file w) (console w ++ nl ++ nl ++ lines upper (m :: rest))%string
          (1 + List.length (m :: rest)).
Proof.
  intros Hc. cbn [fold_left].
  rewrite console_fold_late
    by (rewrite console_step_eq; cbn [message_to_str_count]; lia).
  rewrite console_step_eq. cbn [file console message_to_str_count].
  rewrite Hc. cbn [Nat.eqb List.length].
  rewrite lines_cons, !append_assoc. reflexivity.
Qed.

Lemma console_fold_at_0 (m1 m2 : message) (rest : list message) (w : Out) :
  message_to_str_count w = 0 ->
  fold_left console_step (m1 :: m2 :: rest) w
  = mkOut (file w)
          (console w ++ lines upper [m1] ++ nl ++ nl
           ++ lines upper (m2 :: rest))%string
          (List.length (m1 :: m2 :: rest)).
Proof.
  intros Hc. change (fold_left console_step (m1 :: m2 :: rest) w)
    with (fold_left console_step (m2 :: rest) (console_step w m1)).
  rewrite console_fold_at_1
    by (rewrite console_step_eq; cbn [message_to_str_count]; lia).
  rewrite console_step_eq. cbn [file console message_to_str_count].
  rewrite Hc. cbn [Nat.eqb List.length].
  rewrite (lines_cons upper m1 []). unfold lines at 1.
  cbn [messagesToString_loop fst].
  rewrite ?append_assoc. cbn [append]. rewrite ?append_assoc.
  reflexivity.
Qed.

End TransportFacts.



(** X14. The blank line of [ConsoleTransport] comes with the message that
    finds the counter at 1: with a fresh counter it is written between the
    first and the second message it prints, not before the first; with the
    counter at 1 it is written first; with the counter at 2 or more it is
    never written.  Apart from it the console gets the lines of
    [messagesToString] for the entries the transport takes. *)
Theorem console_transport_blank_line :
  forall (upper : string -> string) (types : list string)
         (L : Logger.XPlaneLogger LoggerText.Out)
         (entries : list Logger.message) (w : LoggerText.Out),
    Logger.transports L
    = [Logger.mkTransport (LoggerText.ConsoleTransport upper) types] ->
    let out := fst (snd (LoggerText.log_all L entries w)) in
    let printed := accepted_entries types entries in
    snd (snd (LoggerText.log_all L entries w)) = Py.Ok tt
    /\ LoggerText.file out = LoggerText.file w
    /\ (2 <= LoggerText.message_to_str_count w ->
        LoggerText.console out
        = (LoggerText.console w ++ LoggerText.lines upper printed)%string)
    /\ (LoggerText.message_to_str_count w = 1 ->
        forall m rest, printed = m :: rest ->
        LoggerText.console out
        = (LoggerText.console w ++ LoggerText.nl ++ LoggerText.nl
           ++ LoggerText.lines upper printed)%string)
    /\ (LoggerText.message_to_str_count w = 0 ->
        forall m1 m2 rest, printed = m1 :: m2 :: rest ->
        LoggerText.console out
        = (LoggerText.console w ++ LoggerText.lines upper [m1]
           ++ LoggerText.nl ++ LoggerText.nl
           ++ LoggerText.lines upper (m2 :: rest))%string).
Proof.
  intros upper types L entries w Htr out printed. subst out printed.
  rewrite (log_all_single
             (Logger.mkTransport (LoggerText.ConsoleTransport upper) types)
             entries (fun _ _ _ _ => eq_refl) L w Htr).
  cbn [fst snd Logger.t_types Logger.t_fn].
  change (fold_left _ (accepted_entries types entries) w)
    with (fold_left (console_step upper) (accepted_entries types entries) w).
  split; [reflexivity|]. split.
  { generalize (accepted_entries types entries). intros ms. revert w.
    induction ms as [|m rest IH]; intros w; simpl; [reflexivity|].
    now rewrite IH. }
  split; [|split].
  - intros Hc. now rewrite console_fold_late.
  - intros Hc m rest ->. now rewrite console_fold_at_1.
  - intros Hc m1 m2 rest ->. now rewrite console_fold_at_0.
Qed.

Lemma console_transport_blank_line_witness :
  LoggerText.console
    (fst (snd (LoggerText.log_all
                 (Logger.addTransport_default Logger.init
                    (LoggerText.ConsoleTransport LoggerText.upper_7bit))
                 [Logger.mkMessage "info" "a" Py.VNone;
                  Logger.mkMessage "info" "b" Py.VNone]
                 (LoggerText.mkOut "" "" 0))))
  = ("INFO: a" ++ LoggerText.nl ++ LoggerText.nl ++ LoggerText.nl
     ++ "INFO: b" ++ LoggerText.nl)%string.
Proof.
  destruct (console_transport_blank_line LoggerText.upper_7bit
              Logger.default_messageTypes
              (Logger.addTransport_default Logger.init
                 (LoggerText.ConsoleTransport LoggerText.upper_7bit))
              [Logger.mkMessage "info" "a" Py.VNone;
               Logger.mkMessage "info" "b" Py.VNone]
              (LoggerText.mkOut "" "" 0) eq_refl)
    as (_ & _ & _ & _ & H0).
  rewrite (H0 eq_refl _ _ _ eq_refl). reflexivity.
Defined.

(* ================================================================== *)
(** * More of xplane_helpers.py: getColorAndLitTextureSlots *)
(* ================================================================== *)

Module Textures.

(** What the function reads of a texture and of a texture slot. *)
Record Texture : Type := mkTexture {
  tex_type : string
}.

Record TextureSlot : Type := mkSlot {
  use : bool;
  texture : option Texture;
  use_map_color_diffuse : bool;
  use_map_emit : bool
}.

(** [slot and slot.use and slot.texture and slot.texture.type == 'IMAGE'];
    an entry of [mat.texture_slots] may be [None]. *)
Definition is_image_slot (slot : option TextureSlot) : bool :=
  match slot with
  | None => false
  | Some s =>
      s.(use)
      && match s.(texture) with
         | None => false
         | Some t => String.eqb t.(tex_type) "IMAGE"
         end
  end.

(** The loop, with [texture] and [textureLit] as they stand. *)
Fixpoint slots_loop (slots : list (option TextureSlot))
    (texture textureLit : option TextureSlot)
    : option TextureSlot * option TextureSlot :=
  match slots with
  | [] => (texture, textureLit)
  | slot :: rest =>
      if is_image_slot slot then
        match slot with
        | Some s =>
            if s.(use_map_color_diffuse) then slots_loop rest slot textureLit
            else if s.(use_map_emit) then slots_loop rest texture slot
            else slots_loop rest texture textureLit
        | None => slots_loop rest texture textureLit
        end
      else slots_loop rest texture textureLit
  end.

(** [getColorAndLitTextureSlots(mat)], on [mat.texture_slots]. *)
Definition getColorAndLitTextureSlots (texture_slots : list (option TextureSlot))
    : option TextureSlot * option TextureSlot :=
  slots_loop texture_slots None None.

(** A slot that the function takes as the colour texture, and one it takes
    as the lit texture. *)
Definition is_color (slot : option TextureSlot) : bool :=
  is_image_slot slot
  && match slot with
     | Some s => s.(use_map_color_diffuse)
     | None => false
     end.

Definition is_lit (slot : option TextureSlot) : bool :=
  is_image_slot slot
  && match slot with
     | Some s => negb s.(use_map_color_diffuse) && s.(use_map_emit)
     | None => false
     end.

(** [found] is the last entry of [slots] that satisfies [p], or nothing
    when no entry does. *)
Definition last_such (p : option TextureSlot -> bool)
    (slots : list (option TextureSlot)) (found : option TextureSlot) : Prop :=
  match found with
  | Some s =>
      exists before after,
        slots = before ++ Some s :: after
        /\ p (Some s) = true
        /\ Forall (fun x => p x = false) after
  | None => Forall (fun x => p x = false) slots
  end.

End Textures.

Section TexturesFacts.

Import Textures.

(** The last entry that satisfies [p], starting from [acc]. *)
Definition keep_last (p : option TextureSlot -> bool)
    (slots : list (option TextureSlot)) (acc : option TextureSlot)
    : option TextureSlot :=
  fold_left (fun acc slot => if p slot then slot else acc) slots acc.

Lemma slots_loop_keep_last (slots : list (option TextureSlot))
    (texture textureLit : option TextureSlot) :
  slots_loop slots texture textureLit
  = (keep_last is_color slots texture, keep_last is_lit slots textureLit).
Proof.
  unfold keep_last. revert texture textureLit.
  induction slots as [|slot rest IH]; intros t l; simpl; [reflexivity|].
  rewrite <- IH. unfold is_color, is_lit.
  destruct (is_image_slot slot) eqn:E; simpl; [|reflexivity].
  destruct slot as [s|]; [|discriminate].
  destruct (use_map_color_diffuse s), (use_map_emit s); reflexivity.
Qed.

Lemma keep_last_none (p : option TextureSlot -> bool)
    (slots : list (option TextureSlot)) (acc : option TextureSlot) :
  Forall (fun x => p x = false) slots -> keep_last p slots acc = acc.
Proof.
  unfold keep_last. revert acc.
  induction slots as [|slot rest IH]; intros acc Hall; simpl; [reflexivity|].
  inversion Hall as [|? ? Hs Hrest]; subst. rewrite Hs. now apply IH.
Qed.

Lemma keep_last_spec (p : option TextureSlot -> bool)
    (slots : list (option TextureSlot)) :
  p None = false ->
  last_such p slots (keep_last p slots None).
Proof.
  intros HpNone.
  assert (Hgen : forall acc,
            (exists before after,
               slots = before ++ keep_last p slots acc :: after
               /\ p (keep_last p slots acc) = true
               /\ Forall (fun x => p x = false) after)
            \/ (keep_last p slots acc = acc
                /\ Forall (fun x => p x = false) slots)).
  { unfold keep_last.
    induction slots as [|slot rest IH]; intros acc; simpl.
    - right. split; [reflexivity|constructor].
    - destruct (p slot) eqn:E.
      + destruct (IH slot) as [(b & a & Hl & Hp & Ha)|[Hk Hall]].
        * left. exists (slot :: b), a. simpl. rewrite <- Hl. auto.
        * left. exists [], rest. rewrite Hk. simpl. auto.
      + destruct (IH acc) as [(b & a & Hl & Hp & Ha)|[Hk Hall]].
        * left. exists (slot :: b), a. simpl. rewrite <- Hl. auto.
        * right. split; [assumption|]. constructor; assumption. }
  destruct (Hgen None) as [(b & a & Hl & Hp & Ha)|[Hk Hall]].
  - unfold last_such. destruct (keep_last p slots None) as [s|] eqn:E.
    + exists b, a. auto.
    + congruence.
  - rewrite Hk. exact Hall.
Qed.

End TexturesFacts.

(** X15. [getColorAndLitTextureSlots] returns, as the colour texture, the
    last slot that is set, in use, holds an image texture and maps the
    diffuse colour, and as the lit texture the last such slot that maps
    emission and not the diffuse colour; a part is [None] exactly when no
    slot qualifies for it. *)
Theorem getColorAndLitTextureSlots_last_wins :
  forall texture_slots : list (option Textures.TextureSlot),
    Textures.last_such Textures.is_color texture_slots
      (fst (Textures.getColorAndLitTextureSlots texture_slots))
    /\ Textures.last_such Textures.is_lit texture_slots
         (snd (Textures.getColorAndLitTextureSlots texture_slots)).
Proof.
  intros slots. unfold Textures.getColorAndLitTextureSlots.
  rewrite slots_loop_keep_last. simpl.
  split; now apply keep_last_spec.
Qed.

(* ================================================================== *)
(** * More of xplane_249_material_converter.py *)
(* ================================================================== *)

(** ** short_name *)

Module ShortName.

Import MaterialConverter.

(** Whether [sub] occurs in [s]. *)
Fixpoint occurs (sub s : string) : bool :=
  String.prefix sub s
  || match s with
     | EmptyString => false
     | String _ rest => occurs sub rest
     end.

(** The modes read back from a short name. *)
Definition of_short_name (s : string) : _TexFaceModes :=
  mkTexFaceModes
    (occurs "TE" s) (occurs "TI" s) (occurs "LI" s) (occurs "IN" s)
    (negb (occurs "DY" s)) (occurs "TW" s) (occurs "SH" s)
    (occurs "AL" s) (occurs "CL" s).

End ShortName.

Section ShortNameFacts.

Import MaterialConverter ShortName.

Lemma of_short_name_short_name (tf : _TexFaceModes) :
  of_short_name (short_name tf) = tf.
Proof.
  destruct tf as [[] [] [] [] [] [] [] [] []]; vm_compute; reflexivity.
Qed.

Lemma append_cancel_l (a b c : string) :
  (a ++ b)%string = (a ++ c)%string -> b = c.
Proof.
  induction a as [|x a IH]; simpl; [auto|].
  intros [= H]. now apply IH.
Qed.

End ShortNameFacts.

Lemma convert_material_name
    (K : MaterialConverter.constants)
    (fp : MaterialConverter.Object -> string -> bool)
    (root_export : string) (search_obj : MaterialConverter.Object)
    (is_cockpit : bool) (tf : MaterialConverter._TexFaceModes)
    (mat : MaterialConverter.Material) :
  MaterialConverter.mat_name
    (fst (MaterialConverter._convert_material K fp root_export search_obj
            is_cockpit tf mat))
  = (MaterialConverter.mat_name mat ++ "_split_"
     ++ MaterialConverter.short_name tf)%string.
Proof.
  unfold MaterialConverter._convert_material.
  destruct tf as [tex tiles light invisible dynamic twoside shadow alpha clip].
  cbn [MaterialConverter.TEX MaterialConverter.TILES MaterialConverter.LIGHT
       MaterialConverter.INVISIBLE MaterialConverter.DYNAMIC
       MaterialConverter.TWOSIDE MaterialConverter.SHADOW
       MaterialConverter.ALPHA MaterialConverter.CLIP].
  set (new_name := (MaterialConverter.mat_name mat ++ _)%string).
  set (m0 := MaterialConverter.set_mat_name mat new_name).
  set (P := if tex then _ else (m0, root_export)).
  assert (HP : MaterialConverter.mat_name (fst P) = new_name).
  { subst P. destruct tex, alpha, clip;
      destruct (fp search_obj "ATTR_shadow_blend");
      destruct (fp search_obj "GLOBAL_shadow_blend");
      destruct (fp search_obj "ATTR_no_blend");
      destruct (fp search_obj "GLOBAL_no_blend");
      reflexivity. }
  clearbody P. destruct P as [m1 e1]. cbn [fst] in HP.
  destruct tiles, light, invisible, dynamic, is_cockpit;
    destruct (fp search_obj "ATTR_draped");
    exact HP.
Qed.

(** X16. [short_name] tells the face-mode combinations apart: two
    combinations with the same short name are the same combination.  So
    the materials that [_convert_material] makes from one material for two
    different combinations never get the same name. *)
Theorem short_name_injective :
  forall (a b : MaterialConverter._TexFaceModes),
    (MaterialConverter.short_name a = MaterialConverter.short_name b ->
     a = b)
    /\ (forall K find_property_in_parents root_export search_obj is_cockpit
               (mat : MaterialConverter.Material),
          MaterialConverter.mat_name
            (fst (MaterialConverter._convert_material K
                    find_property_in_parents root_export search_obj
                    is_cockpit a mat))
          = MaterialConverter.mat_name
              (fst (MaterialConverter._convert_material K
                      find_property_in_parents root_export search_obj
                      is_cockpit b mat)) ->
          a = b).
Proof.
  intros a b.
  assert (Hinj : MaterialConverter.short_name a
                 = MaterialConverter.short_name b -> a = b).
  { intros E. rewrite <- (of_short_name_short_name a),
                      <- (of_short_name_short_name b).
    now rewrite E. }
  split; [exact Hinj|].
  intros K fp root_export search_obj is_cockpit mat Hname.
  rewrite !convert_material_name in Hname.
  apply Hinj.
  apply append_cancel_l in Hname. now apply append_cancel_l in Hname.
Qed.

(** ** The groups of _get_tf_modes_from_ctypes: how many, in what order *)

Module Groups.

Import MaterialConverter.

Definition bools : list bool := [true; false].

(** Every combination of the nine buttons. *)
Definition all_modes : list _TexFaceModes :=
  flat_map (fun a => flat_map (fun b => flat_map (fun c =>
  flat_map (fun d => flat_map (fun e => flat_map (fun f =>
  flat_map (fun g => flat_map (fun h =>
  map (fun i => mkTexFaceModes a b c d e f g h i) bools)
  bools) bools) bools) bools) bools) bools) bools) bools.

End Groups.

Section GroupsFacts.

Import MaterialConverter Groups.

Lemma in_all_modes (tf : _TexFaceModes) : In tf all_modes.
Proof.
  assert (E : existsb (tf_eqb tf) all_modes = true)
    by (destruct tf as [[] [] [] [] [] [] [] [] []]; vm_compute; reflexivity).
  apply existsb_exists in E. destruct E as (x & Hin & Heq).
  apply tf_eqb_eq in Heq. now subst.
Qed.

Lemma length_stored_dict_append (d : tf_dict) (k : _TexFaceModes) (n : nat) :
  List.length (stored (dict_append d k n)) = S (List.length (stored d)).
Proof.
  unfold stored. induction d as [|[k' l] rest IH]; simpl; [reflexivity|].
  destruct (tf_eqb k' k); simpl.
  - rewrite !length_app. simpl. lia.
  - rewrite !length_app, IH. lia.
Qed.

Lemma length_stored_collect (ps : list (MPoly * MTexPoly)) :
  List.length (stored (collect ps)) = List.length ps.
Proof.
  induction ps as [|p ps IH] using rev_ind; [reflexivity|].
  rewrite collect_snoc, length_stored_dict_append, IH, length_app.
  simpl. lia.
Qed.

Lemma length_le_stored (d : tf_dict) :
  Forall (fun e => snd e <> []) d ->
  List.length d <= List.length (stored d).
Proof.
  unfold stored. induction 1 as [|[k l] rest Hl Hrest IH]; simpl; [lia|].
  rewrite length_app. destruct l; [contradiction|]. simpl in *. lia.
Qed.

Lemma stored_collect_bound (ps : list (MPoly * MTexPoly)) (i : nat) :
  In i (stored (collect ps)) -> i < List.length ps.
Proof.
  intros Hin. apply (count_occ_In Nat.eq_dec) in Hin.
  rewrite stored_collect in Hin.
  destruct (Nat.ltb_spec i (List.length ps)); lia.
Qed.

Lemma get_tf_modes_is_collect (obj : Object) (mps : list MPoly)
    (mtps : list MTexPoly) :
  type obj = "MESH" ->
  mpoly (data obj) = Some mps ->
  mtpoly (data obj) = Some mtps ->
  List.length mps = totpoly (data obj) ->
  List.length mtps = totpoly (data obj) ->
  _get_tf_modes_from_ctypes obj = Py.Ok (collect (combine mps mtps)).
Proof.
  intros Hty Hmp Hmtp Hlen1 Hlen2.
  unfold _get_tf_modes_from_ctypes. rewrite Hty, Hmp, Hmtp. simpl.
  rewrite !ptr_slice_all by assumption. reflexivity.
Qed.

End GroupsFacts.

(** X17. On a mesh object whose two arrays hold [totpoly] entries, the
    dictionary of [_get_tf_modes_from_ctypes] has at most [totpoly] groups
    and at most 512, it is empty exactly when the mesh has no polygon, and
    no group is empty. *)
Theorem get_tf_modes_group_count :
  forall (obj : MaterialConverter.Object)
         (mps : list MaterialConverter.MPoly)
         (mtps : list MaterialConverter.MTexPoly)
         (d : MaterialConverter.tf_dict),
    MaterialConverter.type obj = "MESH" ->
    MaterialConverter.mpoly (MaterialConverter.data obj) = Some mps ->
    MaterialConverter.mtpoly (MaterialConverter.data obj) = Some mtps ->
    List.length mps = MaterialConverter.totpoly (MaterialConverter.data obj) ->
    List.length mtps = MaterialConverter.totpoly (MaterialConverter.data obj) ->
    MaterialConverter._get_tf_modes_from_ctypes obj = Py.Ok d ->
    List.length d <= MaterialConverter.totpoly (MaterialConverter.data obj)
    /\ List.length d <= 512
    /\ (d = [] <-> MaterialConverter.totpoly (MaterialConverter.data obj) = 0)
    /\ Forall (fun e => snd e <> []) d.
Proof.
  intros obj mps mtps d Hty Hmp Hmtp Hlen1 Hlen2 Hd.
  rewrite (get_tf_modes_is_collect obj mps mtps Hty Hmp Hmtp Hlen1 Hlen2)
    in Hd.
  injection Hd as <-.
  set (ps := combine mps mtps).
  assert (Hps : List.length ps
                = MaterialConverter.totpoly (MaterialConverter.data obj)).
  { unfold ps. rewrite length_combine. lia. }
  pose proof (nonempty_collect ps) as Hne.
  pose proof (length_le_stored _ Hne) as Hle.
  rewrite length_stored_collect, Hps in Hle.
  split; [exact Hle|]. split; [|split].
  - change 512 with (List.length Groups.all_modes).
    rewrite <- (length_map fst).
    apply NoDup_incl_length; [apply NoDup_keys_collect|].
    intros k _. apply in_all_modes.
  - split.
    + intros E. rewrite <- Hps, <- length_stored_collect, E. reflexivity.
    + intros E. rewrite E in Hle. destruct (collect ps); [reflexivity|].
      simpl in Hle. lia.
  - exact Hne.
Qed.

Lemma get_tf_modes_group_count_witness :
  MaterialConverter._get_tf_modes_from_ctypes sample_object
  = Py.Ok [(modes_of 4, [0; 2]); (modes_of 5, [1])]
  /\ List.length [(modes_of 4, [0; 2]); (modes_of 5, [1])] <= 3
  /\ Forall (fun e => snd e <> [])
            [(modes_of 4, [0; 2]); (modes_of 5, [1])].
Proof.
  split; [reflexivity|].
  destruct (get_tf_modes_group_count sample_object sample_mpolys
              sample_mtpolys [(modes_of 4, [0; 2]); (modes_of 5, [1])])
    as (Hle & _ & _ & Hne); try reflexivity.
  split; assumption.
Defined.

(** X18. The ways [_get_tf_modes_from_ctypes] fails or comes back empty: on
    an object that is not a mesh the assertion fails with the object's
    name; on a mesh with polygons whose polygon array or texture-face
    array is missing (a mesh that was not unwrapped) it raises
    [SystemError], the [ValueError] of the read through the [NULL] pointer
    being its cause; on a mesh without polygons it returns the empty
    dictionary, whether or not the arrays are there. *)
Theorem get_tf_modes_failures :
  forall obj : MaterialConverter.Object,
    (MaterialConverter.type obj <> "MESH" ->
     MaterialConverter._get_tf_modes_from_ctypes obj
     = Py.Raise (Py.AssertionError
                   (MaterialConverter.name obj ++ " is not a MESH type")))
    /\ (MaterialConverter.type obj = "MESH" ->
        MaterialConverter.totpoly (MaterialConverter.data obj) = 0 ->
        MaterialConverter._get_tf_modes_from_ctypes obj = Py.Ok [])
    /\ (MaterialConverter.type obj = "MESH" ->
        0 < MaterialConverter.totpoly (MaterialConverter.data obj) ->
        MaterialConverter.mpoly (MaterialConverter.data obj) = None
        \/ MaterialConverter.mtpoly (MaterialConverter.data obj) = None ->
        MaterialConverter._get_tf_modes_from_ctypes obj
        = Py.Raise (Py.SystemError Py.ValueError)).
Proof.
  intros obj. unfold MaterialConverter._get_tf_modes_from_ctypes.
  split; [|split].
  - intros Hty.
    destruct (String.eqb_spec (MaterialConverter.type obj) "MESH");
      [contradiction|reflexivity].
  - intros -> ->. reflexivity.
  - intros -> Hpos Hnull.
    destruct (MaterialConverter.totpoly (MaterialConverter.data obj))
      as [|n]; [lia|].
    simpl.
    destruct (MaterialConverter.mpoly (MaterialConverter.data obj));
      simpl; [|reflexivity].
    destruct Hnull as [Hnull|Hnull]; [discriminate|].
    now rewrite Hnull.
Qed.

Lemma get_tf_modes_failures_witness :
  MaterialConverter._get_tf_modes_from_ctypes
    (MaterialConverter.mkObject "Plane" "MESH"
       (MaterialConverter.mkMesh 1
          (Some [MaterialConverter.mkMPoly 0 4 0 0]) None)
       [])
  = Py.Raise (Py.SystemError Py.ValueError).
Proof.
  apply (proj2 (proj2 (get_tf_modes_failures
                         (MaterialConverter.mkObject "Plane" "MESH"
                            (MaterialConverter.mkMesh 1
                               (Some [MaterialConverter.mkMPoly 0 4 0 0])
                               None)
                            [])))).
  - reflexivity.
  - simpl. lia.
  - now right.
Defined.

(** ** The split of convert_materials *)

Section SplitRun.

Import MaterialConverter.

Variable unique_name : list string -> string -> string.

(** A copy as [copy_obj] links it: the object under another name. *)
Definition is_copy_of (obj c : Object) : Prop :=
  data c = data obj
  /\ type c = type obj
  /\ material_slots c = material_slots obj.

(** With no suffix left, [make_copies] stops with [IndexError], one copy
    after the last that got a suffix. *)
Lemma make_copies_overflow (obj : Object)
    (items : list (_TexFaceModes * list nat)) :
  forall (i : nat) (st : State),
    i <= 3 -> 3 < i + List.length items ->
    exists cs,
      make_copies unique_name obj items i st
      = (mkState (scene_objects st ++ cs) (root_export_type st)
                 (materials st),
         Py.Raise Py.IndexError)
      /\ List.length cs = 4 - i
      /\ Forall (is_copy_of obj) cs.
Proof.
  induction items as [|[k f] rest IH]; intros i st Hi Hlen; simpl in *;
    [lia|].
  unfold copy_obj.
  destruct i as [|[|[|[|i]]]]; cbn [nth_error]; try lia.
  4:{ eexists [_]. repeat split. repeat constructor. }
  all: match goal with
       | |- context [make_copies unique_name _ _ ?j ?s] =>
           destruct (IH j s) as (cs & -> & Hcs & Hall); [lia|simpl; lia|]
       end;
    cbn [scene_objects root_export_type materials];
    rewrite <- app_assoc; simpl;
    eexists (_ :: cs); repeat split;
    [ simpl; lia
    | constructor; [repeat split|assumption] ].
Qed.

End SplitRun.

(** X19. A mesh object whose polygons carry four or more combinations makes
    [convert_object] raise [IndexError], in whatever order the dictionary
    is gone through: three copies are linked and renamed, a fourth is
    linked, and its renaming finds no fourth suffix.  The four copies stay
    in the scene, untrimmed, after the objects that were there. *)
Theorem four_or_more_groups_raise :
  forall (K : MaterialConverter.constants)
         (find_property_in_parents : MaterialConverter.Object -> string -> bool)
         (unique_name : list string -> string -> string)
         (material_slot_remove :
            MaterialConverter.Object -> Z -> MaterialConverter.Object)
         (dict_items : MaterialConverter.dict_order)
         (is_cockpit : bool) (obj : MaterialConverter.Object)
         (st : MaterialConverter.State) (d : MaterialConverter.tf_dict),
    MaterialConverter._get_tf_modes_from_ctypes obj = Py.Ok d ->
    4 <= List.length d ->
    exists copies,
      MaterialConverter.convert_object K find_property_in_parents unique_name
        material_slot_remove dict_items is_cockpit obj st
      = (MaterialConverter.mkState
           (MaterialConverter.scene_objects st ++ copies)
           (MaterialConverter.root_export_type st)
           (MaterialConverter.materials st),
         Py.Raise Py.IndexError)
      /\ List.length copies = 4
      /\ Forall (is_copy_of obj) copies.
Proof.
  intros K fp un msr ord is_cockpit obj st d Hd Hlen.
  unfold MaterialConverter.convert_object. rewrite Hd.
  destruct (Nat.ltb_spec 2 (List.length d)); [|lia].
  pose proof (Permutation_length
                (MaterialConverter.visits_each_once ord _ d)) as Hsame.
  destruct (make_copies_overflow un obj (MaterialConverter.entries ord _ d)
                                 0 st)
    as (cs & -> & Hcs & Hall); [lia|lia|].
  exists cs. repeat split; assumption.
Qed.

Lemma four_or_more_groups_raise_witness :
  exists copies,
    run_on_modes [4; 5; 1; 0; 4]%Z
    = (MaterialConverter.mkState
         (object_with_modes [4; 5; 1; 0; 4]%Z :: copies) "aircraft" [],
       Py.Raise Py.IndexError)
    /\ List.length copies = 4
    /\ Forall (is_copy_of (object_with_modes [4; 5; 1; 0; 4]%Z)) copies.
Proof.
  apply (four_or_more_groups_raise MaterialConverter.sample_constants
           sample_find_property sample_unique_name sample_slot_remove
           MaterialConverter.insertion_order false
           (object_with_modes [4; 5; 1; 0; 4]%Z)
           (MaterialConverter.mkState
              [object_with_modes [4; 5; 1; 0; 4]%Z] "aircraft" [])
           [(modes_of 4, [0; 4]); (modes_of 5, [1]); (modes_of 1, [2]);
            (modes_of 0, [3])]).
  - reflexivity.
  - simpl. lia.
Defined.

Module SplitSpec.

Import MaterialConverter.

(** The suffixes of [copy_obj]. *)
Definition suffixes : list string := ["SHADOW"; "TILE"; "INVISIBLE"].

(** The dictionary of the split for the groups [items], the first copy
    being at position [base]. *)
Fixpoint col_of (items : list (_TexFaceModes * list nat)) (base : nat)
    : list (_TexFaceModes * (list nat * nat)) :=
  match items with
  | [] => []
  | (k, f) :: rest => (k, (f, base)) :: col_of rest (S base)
  end.

(** The copy of [obj] that [copy_obj] links when the names [used] are
    taken: the copy is named by the host, then the suffix is added and the
    host names it again. *)
Definition copy_at (unique_name : list string -> string -> string)
    (obj : Object) (used : list string) (suffix : string) : Object :=
  mkObject (unique_name used (unique_name used (name obj) ++ suffix)%string)
           (type obj) (data obj) (material_slots obj).

(** The copies linked one after the other for a list of suffixes, [objs]
    being the objects of the scene before. *)
Fixpoint copies (unique_name : list string -> string -> string)
    (obj : Object) (sufs : list string) (objs : list Object) : list Object :=
  match sufs with
  | [] => []
  | suffix :: rest =>
      let c := copy_at unique_name obj (map name objs) suffix in
      c :: copies unique_name obj rest (objs ++ [c])
  end.

(** A mesh cut down to the faces whose index is in [face_ids]. *)
Definition trim (mesh : Mesh) (face_ids : list nat) : Mesh :=
  let keep :=
    filter (fun i => mem_nat i face_ids) (seq 0 mesh.(totpoly)) in
  mkMesh (List.length keep)
         (option_map (select keep) mesh.(mpoly))
         (option_map (select keep) mesh.(mtpoly)).

(** The slots that [remove_faces] removes: those of the materials that
    only faces outside [face_ids] use, highest first. *)
Definition slots_to_remove (mesh : Mesh) (face_ids : list nat) : list Z :=
  let faces := seq 0 mesh.(totpoly) in
  let kept_mats :=
    map (face_material mesh) (filter (fun i => mem_nat i face_ids) faces) in
  sorted_desc
    (filter (fun m => negb (mem_Z m kept_mats))
            (map (face_material mesh)
                 (filter (fun i => negb (mem_nat i face_ids)) faces))).

(** What [remove_faces] makes of the object [c0] for the faces [face_ids]:
    the mesh is cut down, then the host removes the slots. *)
Definition trimmed_copy (material_slot_remove : Object -> Z -> Object)
    (c0 : Object) (face_ids : list nat) : Object :=
  fold_left material_slot_remove (slots_to_remove (data c0) face_ids)
    (mkObject (name c0) (type c0) (trim (data c0) face_ids)
              (material_slots c0)).

(** [c] is [after] with the material of its first slot replaced by the one
    that [_convert_material] makes of it for the modes [k]. *)
Definition converted_from (K : constants)
    (find_property_in_parents : Object -> string -> bool)
    (is_cockpit : bool) (k : _TexFaceModes) (after c : Object) : Prop :=
  exists m slots,
    material_slots after = Some m :: slots
    /\ c = mkObject (name after) (type after) (data after)
           (Some (fst (_convert_material K find_property_in_parents ""
                         after is_cockpit k m))
            :: slots).

(** The host's slot removal changes the material slots of the object and
    nothing else of what [Object] holds. *)
Definition changes_slots_only (material_slot_remove : Object -> Z -> Object)
    : Prop :=
  forall o z,
    data (material_slot_remove o z) = data o
    /\ name (material_slot_remove o z) = name o
    /\ type (material_slot_remove o z) = type o.

End SplitSpec.

Section ConvertMaterialParts.

Import MaterialConverter.

Variable K : constants.
Variable find_property_in_parents : Object -> string -> bool.

Ltac open_convert_material :=
  unfold _convert_material;
  match goal with
  | tf : _TexFaceModes |- _ =>
      destruct tf
        as [tex tiles light invisible dynamic twoside shadow alpha clip]
  end;
  cbn [TEX TILES LIGHT INVISIBLE DYNAMIC TWOSIDE SHADOW ALPHA CLIP].

(** The root's export type after [_convert_material] is the one before or
    instanced scenery. *)
Lemma convert_material_export (root_export : string) (search_obj : Object)
    (is_cockpit : bool) (tf : _TexFaceModes) (mat : Material) :
  snd (_convert_material K find_property_in_parents root_export search_obj
         is_cockpit tf mat) = root_export
  \/ snd (_convert_material K find_property_in_parents root_export search_obj
            is_cockpit tf mat) = EXPORT_TYPE_INSTANCED_SCENERY K.
Proof.
  open_convert_material.
  set (m0 := set_mat_name mat _).
  set (P := if tex then _ else (m0, root_export)).
  assert (HP : snd P = root_export
               \/ snd P = EXPORT_TYPE_INSTANCED_SCENERY K).
  { subst P. destruct tex, alpha, clip;
      destruct (find_property_in_parents search_obj "ATTR_shadow_blend");
      destruct (find_property_in_parents search_obj "GLOBAL_shadow_blend");
      destruct (find_property_in_parents search_obj "ATTR_no_blend");
      destruct (find_property_in_parents search_obj "GLOBAL_no_blend");
      cbn [snd]; auto. }
  clearbody P. destruct P as [m1 e1]. exact HP.
Qed.

(** The material that [_convert_material] makes does not depend on the
    root's export type. *)
Lemma convert_material_fst (e1 e2 : string) (search_obj : Object)
    (is_cockpit : bool) (tf : _TexFaceModes) (mat : Material) :
  fst (_convert_material K find_property_in_parents e1 search_obj
         is_cockpit tf mat)
  = fst (_convert_material K find_property_in_parents e2 search_obj
           is_cockpit tf mat).
Proof.
  open_convert_material.
  set (m0 := set_mat_name mat _).
  set (P1 := if tex then _ else (m0, e1)).
  set (P2 := if tex then _ else (m0, e2)).
  assert (HP : fst P1 = fst P2).
  { subst P1 P2. destruct tex, alpha, clip;
      destruct (find_property_in_parents search_obj "ATTR_shadow_blend");
      destruct (find_property_in_parents search_obj "GLOBAL_shadow_blend");
      destruct (find_property_in_parents search_obj "ATTR_no_blend");
      destruct (find_property_in_parents search_obj "GLOBAL_no_blend");
      reflexivity. }
  clearbody P1 P2. destruct P1 as [m1 x1], P2 as [m2 x2].
  cbn [fst] in HP. subst m2. reflexivity.
Qed.

End ConvertMaterialParts.

Section SplitLoop.

Import MaterialConverter SplitSpec.

Variable K : constants.
Variable find_property_in_parents : Object -> string -> bool.
Variable unique_name : list string -> string -> string.
Variable material_slot_remove : Object -> Z -> Object.
Variable is_cockpit : bool.

Hypothesis slots_only : changes_slots_only material_slot_remove.

Lemma length_update {A : Type} (l : list A) (i : nat) (x : A) :
  List.length (update l i x) = List.length l.
Proof.
  revert i. induction l as [|y l IH]; intros [|i]; simpl; auto.
Qed.

Lemma nth_error_update_eq {A : Type} (l : list A) (i : nat) (x : A) :
  i < List.length l -> nth_error (update l i x) i = Some x.
Proof.
  revert i. induction l as [|y l IH]; intros [|i]; simpl; try lia; auto.
  intros Hi. apply IH. lia.
Qed.

Lemma nth_error_update_neq {A : Type} (l : list A) (i j : nat) (x : A) :
  j <> i -> nth_error (update l i x) j = nth_error l j.
Proof.
  revert i j. induction l as [|y l IH]; intros [|i] [|j]; simpl; auto;
    try congruence.
  all: intros Hne; apply IH; congruence.
Qed.

Lemma map_name_update (l : list Object) (h : nat) (o x : Object) :
  nth_error l h = Some o -> name x = name o ->
  map name (update l h x) = map name l.
Proof.
  revert h. induction l as [|y l IH]; intros [|h]; simpl; try discriminate.
  - intros [= ->] ->. reflexivity.
  - intros Hn Hx. f_equal. now apply IH.
Qed.

Lemma handles_col_of (items : list (_TexFaceModes * list nat)) (base : nat) :
  map (fun e => snd (snd e)) (col_of items base)
  = seq base (List.length items).
Proof.
  revert base. induction items as [|[k f] rest IH]; intros base; simpl;
    [reflexivity|].
  now rewrite IH.
Qed.

Lemma nth_error_col_of (items : list (_TexFaceModes * list nat))
    (base i : nat) (k : _TexFaceModes) (f : list nat) :
  nth_error items i = Some (k, f) ->
  In (k, (f, base + i)) (col_of items base).
Proof.
  revert base i. induction items as [|[k' f'] rest IH]; intros base [|i];
    simpl; try discriminate.
  - intros [= -> ->]. left. now rewrite Nat.add_0_r.
  - intros Hi. right. replace (base + S i) with (S base + i) by lia.
    now apply IH.
Qed.

Lemma length_copies (obj : Object) (sufs : list string) :
  forall objs, List.length (copies unique_name obj sufs objs)
               = List.length sufs.
Proof.
  induction sufs as [|s rest IH]; intros objs; simpl; [reflexivity|].
  now rewrite IH.
Qed.

(** The copy at place [j] was named with the objects of the scene and the
    copies before it in view. *)
Lemma nth_error_copies (obj : Object) (sufs : list string) :
  forall objs j suffix,
    nth_error sufs j = Some suffix ->
    nth_error (copies unique_name obj sufs objs) j
    = Some (copy_at unique_name obj
              (map name
                   (objs ++ firstn j (copies unique_name obj sufs objs)))
              suffix).
Proof.
  induction sufs as [|s rest IH]; intros objs [|j] suffix; simpl;
    try discriminate.
  - intros [= ->]. now rewrite app_nil_r.
  - intros Hj. rewrite (IH _ _ _ Hj). rewrite <- app_assoc. reflexivity.
Qed.

(** [make_copies], when it returns: there are at most as many groups as
    suffixes are left, and one copy per group is appended to the scene. *)
Lemma make_copies_ok (obj : Object)
    (items : list (_TexFaceModes * list nat)) :
  forall (i : nat) (st st1 : State) col,
    make_copies unique_name obj items i st = (st1, Py.Ok col) ->
    (items = [] \/ i + List.length items <= 3)
    /\ col = col_of items (List.length (scene_objects st))
    /\ root_export_type st1 = root_export_type st
    /\ materials st1 = materials st
    /\ scene_objects st1
       = scene_objects st
         ++ copies unique_name obj
                   (firstn (List.length items) (skipn i suffixes))
                   (scene_objects st).
Proof.
  induction items as [|[k f] rest IH]; intros i st st1 col; simpl.
  - intros [= <- <-]. split; [now left|]. split; [reflexivity|].
    split; [reflexivity|]. split; [reflexivity|]. now rewrite app_nil_r.
  - unfold copy_obj.
    destruct (nth_error ["SHADOW"; "TILE"; "INVISIBLE"] i) as [suffix|]
      eqn:Es; [|discriminate].
    assert (Hi : i < 3).
    { clear -Es. destruct i as [|[|[|i]]]; try lia.
      destruct i; discriminate. }
    assert (Hskip : skipn i suffixes = suffix :: skipn (S i) suffixes).
    { clear -Es. unfold suffixes.
      destruct i as [|[|[|i]]]; simpl in *; try congruence.
      destruct i; discriminate. }
    match goal with
    | |- context [make_copies unique_name obj rest (S i) ?s] =>
        destruct (make_copies unique_name obj rest (S i) s)
          as [st2 [col'|e]] eqn:Er; [|discriminate]
    end.
    intros [= <- <-].
    destruct (IH _ _ _ _ Er) as (Hlen & Hcol & Hroot & Hmats & Hobjs).
    cbn [scene_objects root_export_type materials] in *.
    rewrite length_app in Hcol. simpl in Hcol.
    rewrite Nat.add_1_r in Hcol.
    split; [right; destruct Hlen as [->|Hlen]; simpl; lia|].
    split; [now rewrite Hcol|]. split; [assumption|].
    split; [assumption|].
    rewrite Hobjs, Hskip, <- app_assoc. reflexivity.
Qed.

Lemma fold_slot_remove_keeps (idxs : list Z) (obj : Object) :
  data (fold_left material_slot_remove idxs obj) = data obj
  /\ name (fold_left material_slot_remove idxs obj) = name obj
  /\ type (fold_left material_slot_remove idxs obj) = type obj.
Proof.
  revert obj. induction idxs as [|z rest IH]; intros obj; simpl;
    [repeat split|].
  destruct (IH (material_slot_remove obj z)) as (E1 & E2 & E3).
  destruct (slots_only obj z) as (F1 & F2 & F3).
  repeat split; congruence.
Qed.

Lemma trimmed_copy_keeps (c0 : Object) (f : list nat) :
  data (trimmed_copy material_slot_remove c0 f) = trim (data c0) f
  /\ name (trimmed_copy material_slot_remove c0 f) = name c0
  /\ type (trimmed_copy material_slot_remove c0 f) = type c0.
Proof.
  unfold trimmed_copy.
  destruct (fold_slot_remove_keeps (slots_to_remove (data c0) f)
              (mkObject (name c0) (type c0) (trim (data c0) f)
                        (material_slots c0)))
    as (E1 & E2 & E3).
  repeat split; assumption.
Qed.

(** [remove_faces] then [convert_material] on the object at [h]. *)
Lemma split_step (k : _TexFaceModes) (f : list nat) (h : nat)
    (st st1 st2 : State) (o : Object) :
  nth_error (scene_objects st) h = Some o ->
  remove_faces material_slot_remove f h st = (st1, Py.Ok tt) ->
  convert_material K find_property_in_parents is_cockpit k h st1
  = (st2, Py.Ok tt) ->
  List.length (scene_objects st2) = List.length (scene_objects st)
  /\ map name (scene_objects st2) = map name (scene_objects st)
  /\ (forall j, j <> h ->
        nth_error (scene_objects st2) j = nth_error (scene_objects st) j)
  /\ (root_export_type st2 = root_export_type st
      \/ root_export_type st2 = EXPORT_TYPE_INSTANCED_SCENERY K)
  /\ (exists new_name, materials st2 = materials st ++ [new_name])
  /\ exists o2,
       nth_error (scene_objects st2) h = Some o2
       /\ converted_from K find_property_in_parents is_cockpit k
            (trimmed_copy material_slot_remove o f) o2.
Proof.
  intros Hnth Hrem Hconv.
  assert (Hh : h < List.length (scene_objects st))
    by (apply nth_error_Some; congruence).
  unfold remove_faces in Hrem. rewrite Hnth in Hrem.
  injection Hrem as <-.
  unfold convert_material in Hconv. cbn [scene_objects] in Hconv.
  rewrite nth_error_update_eq in Hconv by assumption.
  change (fold_left material_slot_remove _ _)
    with (trimmed_copy material_slot_remove o f) in Hconv.
  set (final := trimmed_copy material_slot_remove o f) in *.
  destruct (material_slots final) as [|[m|] slots] eqn:Eslots;
    try discriminate.
  cbn [root_export_type materials] in Hconv.
  pose proof (convert_material_export K find_property_in_parents
                (root_export_type st) final is_cockpit k m) as Hexport.
  pose proof (convert_material_fst K find_property_in_parents
                (root_export_type st) "" final is_cockpit k m) as Hfst.
  destruct (_convert_material K find_property_in_parents
              (root_export_type st) final is_cockpit k m)
    as [new_material export] eqn:Ec.
  cbn [fst snd] in Hexport, Hfst.
  injection Hconv as <-. cbn [scene_objects root_export_type materials].
  destruct (trimmed_copy_keeps o f) as (_ & Hname & _). fold final in Hname.
  split; [now rewrite !length_update|].
  split.
  { rewrite (map_name_update _ h final).
    - now apply (map_name_update _ h o).
    - apply nth_error_update_eq. assumption.
    - reflexivity. }
  split; [intros j Hj; now rewrite !nth_error_update_neq|].
  split; [exact Hexport|].
  split; [now eexists|].
  eexists. split; [apply nth_error_update_eq; now rewrite length_update|].
  exists m, slots. split; [exact Eslots|]. now rewrite Hfst.
Qed.

Lemma remove_faces_returns (f : list nat) (h : nat) (st : State) (o : Object) :
  nth_error (scene_objects st) h = Some o ->
  exists st1, remove_faces material_slot_remove f h st = (st1, Py.Ok tt).
Proof.
  intros Hnth. unfold remove_faces. rewrite Hnth. eauto.
Qed.

(** The loop over the dictionary of the split: each copy is cut down to its
    group and gets its material; no object changes its name, and no other
    object changes at all. *)
Lemma split_loop_spec (col : list (_TexFaceModes * (list nat * nat))) :
  forall st st',
    NoDup (map (fun e => snd (snd e)) col) ->
    (forall k f h, In (k, (f, h)) col ->
                   h < List.length (scene_objects st)) ->
    split_loop K find_property_in_parents material_slot_remove is_cockpit
               col st
    = (st', Py.Ok tt) ->
    List.length (scene_objects st') = List.length (scene_objects st)
    /\ map name (scene_objects st') = map name (scene_objects st)
    /\ (forall j, ~ In j (map (fun e => snd (snd e)) col) ->
          nth_error (scene_objects st') j = nth_error (scene_objects st) j)
    /\ (root_export_type st' = root_export_type st
        \/ root_export_type st' = EXPORT_TYPE_INSTANCED_SCENERY K)
    /\ (exists ms, materials st' = materials st ++ ms
                   /\ List.length ms = List.length col)
    /\ (forall k f h o,
          In (k, (f, h)) col ->
          nth_error (scene_objects st) h = Some o ->
          exists o2,
            nth_error (scene_objects st') h = Some o2
            /\ converted_from K find_property_in_parents is_cockpit k
                 (trimmed_copy material_slot_remove o f) o2).
Proof.
  induction col as [|[k [f h]] rest IH]; intros st st' Hnd Hpre Hrun.
  - simpl in Hrun. injection Hrun as <-.
    split; [reflexivity|]. split; [reflexivity|]. split; [reflexivity|].
    split; [now left|]. split; [exists []; now rewrite app_nil_r|].
    intros k f h o [].
  - simpl in Hnd. inversion Hnd as [|? ? Hnotin Hnd']; subst.
    assert (Hh := Hpre k f h (or_introl eq_refl)).
    destruct (nth_error (scene_objects st) h) as [o|] eqn:Hnth;
      [|apply nth_error_None in Hnth; lia].
    simpl in Hrun.
    destruct (remove_faces_returns f h st o Hnth) as (st1 & Hrem).
    rewrite Hrem in Hrun.
    destruct (convert_material K find_property_in_parents is_cockpit k h st1)
      as [st2 [[]|e]] eqn:Hconv; [|discriminate].
    destruct (split_step k f h st st1 st2 o Hnth Hrem Hconv)
      as (Hlen2 & Hnames2 & Hother2 & Hexp2 & (nm & Hmat2) & o2 & Hnth2
          & Hconv2).
    assert (Hpre2 : forall k' f' h', In (k', (f', h')) rest ->
                                     h' < List.length (scene_objects st2)).
    { intros k' f' h' Hin. rewrite Hlen2.
      exact (Hpre k' f' h' (or_intror Hin)). }
    destruct (IH st2 st' Hnd' Hpre2 Hrun)
      as (Hlen & Hnames & Hother & Hexp & (ms & Hmat & Hms) & Hent).
    split; [congruence|]. split; [congruence|]. split.
    { intros j Hj. simpl in Hj.
      rewrite Hother by (intros Hin; apply Hj; now right).
      apply Hother2. intros ->. apply Hj. now left. }
    split.
    { destruct Hexp as [E|E]; [rewrite E; exact Hexp2|now right]. }
    split.
    { exists (nm :: ms). rewrite Hmat, Hmat2, <- app_assoc.
      split; [reflexivity|simpl; now rewrite Hms]. }
    intros k' f' h' o' [Heq|Hin] Hnth'.
    + injection Heq as <- <- <-. exists o2.
      rewrite Hother by assumption.
      split; [assumption|]. congruence.
    + apply (Hent k' f' h' o' Hin).
      rewrite Hother2; [assumption|].
      intros ->. apply Hnotin.
      exact (in_map (fun e => snd (snd e)) rest (k', (f', h)) Hin).
Qed.

End SplitLoop.

Section SplitGroups.

Import MaterialConverter SplitSpec.

(** Each list of the dictionary holds, in increasing order, the polygons
    that decode to its key. *)
Lemma collect_group (ps : list (MPoly * MTexPoly)) (k : _TexFaceModes)
    (f : list nat) :
  In (k, f) (collect ps) ->
  f = filter (decodes_to ps k) (seq 0 (List.length ps)).
Proof.
  intros Hin. rewrite <- lookup_collect. symmetry.
  apply NoDup_keys_lookup; [apply NoDup_keys_collect|assumption].
Qed.

Lemma trim_group (mesh : Mesh) (mps : list MPoly) (mtps : list MTexPoly)
    (k : _TexFaceModes) (f : list nat) :
  mpoly mesh = Some mps ->
  mtpoly mesh = Some mtps ->
  List.length mps = totpoly mesh ->
  List.length mtps = totpoly mesh ->
  In (k, f) (collect (combine mps mtps)) ->
  trim mesh f
  = mkMesh (List.length f) (Some (select f mps)) (Some (select f mtps)).
Proof.
  intros Hmp Hmtp Hl1 Hl2 Hin.
  assert (Hkeep : filter (fun i => mem_nat i f) (seq 0 (totpoly mesh)) = f).
  { apply filter_mem_sorted.
    - rewrite (collect_group _ _ _ Hin).
      apply StronglySorted_filter, StronglySorted_seq.
    - intros i Hi. rewrite (collect_group _ _ _ Hin) in Hi.
      apply filter_In in Hi. destruct Hi as [Hi _].
      apply in_seq in Hi. rewrite length_combine in Hi. lia. }
  unfold trim. rewrite Hkeep, Hmp, Hmtp. reflexivity.
Qed.

Lemma firstn_map_name (l1 l2 : list Object) (n : nat) :
  map name l1 = map name l2 ->
  map name (firstn n l1) = map name (firstn n l2).
Proof. intros E. now rewrite <- !firstn_map, E. Qed.

End SplitGroups.

(** X20. A mesh object whose polygons carry exactly three combinations is
    split when [convert_object] returns; more than two groups with a
    return means exactly three.  [new_objs] is empty and three objects are
    appended to the scene.  The objects that were there, the original
    among them, keep their place and all that [Object] holds of them; the
    export type of the root object, which the state holds apart, stays or
    becomes instanced scenery; three materials join [bpy.data.materials].
    The group that the interpreter comes to at place [i] of the dictionary
    gets the copy at place [i] after the old objects and the suffix at
    place [i], whatever its modes: the copy's name is the one the host
    gives with the objects before it in view, its mesh holds the polygons
    of the group and no other, in their order, and its first slot holds
    what [_convert_material] makes, for the modes of the group, of the
    material that the first slot held after the removal of the slots. *)
Theorem three_groups_split_by_group :
  forall (K : MaterialConverter.constants)
         (find_property_in_parents : MaterialConverter.Object -> string -> bool)
         (unique_name : list string -> string -> string)
         (material_slot_remove :
            MaterialConverter.Object -> Z -> MaterialConverter.Object)
         (dict_items : MaterialConverter.dict_order)
         (is_cockpit : bool) (obj : MaterialConverter.Object)
         (st st' : MaterialConverter.State)
         (mps : list MaterialConverter.MPoly)
         (mtps : list MaterialConverter.MTexPoly)
         (d : MaterialConverter.tf_dict)
         (new_objs : list MaterialConverter.Object),
    SplitSpec.changes_slots_only material_slot_remove ->
    MaterialConverter.type obj = "MESH" ->
    MaterialConverter.mpoly (MaterialConverter.data obj) = Some mps ->
    MaterialConverter.mtpoly (MaterialConverter.data obj) = Some mtps ->
    List.length mps = MaterialConverter.totpoly (MaterialConverter.data obj) ->
    List.length mtps = MaterialConverter.totpoly (MaterialConverter.data obj) ->
    MaterialConverter._get_tf_modes_from_ctypes obj = Py.Ok d ->
    2 < List.length d ->
    MaterialConverter.convert_object K find_property_in_parents unique_name
      material_slot_remove dict_items is_cockpit obj st
    = (st', Py.Ok new_objs) ->
    let n := List.length (MaterialConverter.scene_objects st) in
    new_objs = []
    /\ List.length d = 3
    /\ List.length (MaterialConverter.scene_objects st') = n + 3
    /\ (forall j, j < n ->
          nth_error (MaterialConverter.scene_objects st') j
          = nth_error (MaterialConverter.scene_objects st) j)
    /\ (MaterialConverter.root_export_type st'
        = MaterialConverter.root_export_type st
        \/ MaterialConverter.root_export_type st'
           = MaterialConverter.EXPORT_TYPE_INSTANCED_SCENERY K)
    /\ (exists ms,
          MaterialConverter.materials st'
          = MaterialConverter.materials st ++ ms
          /\ List.length ms = 3)
    /\ (forall i k f,
          nth_error (MaterialConverter.entries dict_items _ d) i
          = Some (k, f) ->
          exists suffix c,
            nth_error SplitSpec.suffixes i = Some suffix
            /\ nth_error (MaterialConverter.scene_objects st') (n + i)
               = Some c
            /\ MaterialConverter.name c
               = MaterialConverter.name
                   (SplitSpec.copy_at unique_name obj
                      (map MaterialConverter.name
                           (firstn (n + i)
                                   (MaterialConverter.scene_objects st')))
                      suffix)
            /\ MaterialConverter.type c = "MESH"
            /\ MaterialConverter.data c
               = MaterialConverter.mkMesh (List.length f)
                   (Some (MaterialConverter.select f mps))
                   (Some (MaterialConverter.select f mtps))
            /\ SplitSpec.converted_from K find_property_in_parents
                 is_cockpit k
                 (SplitSpec.trimmed_copy material_slot_remove
                    (SplitSpec.copy_at unique_name obj
                       (map MaterialConverter.name
                            (firstn (n + i)
                                    (MaterialConverter.scene_objects st')))
                       suffix)
                    f)
                 c).
Proof.
  intros K fp un msr ord is_cockpit obj st st' mps mtps d new_objs
    Hslots Hty Hmp Hmtp Hl1 Hl2 Hd Hlen Hrun n.
  assert (Hcollect : d = collect (combine mps mtps)).
  { pose proof (get_tf_modes_is_collect obj mps mtps Hty Hmp Hmtp Hl1 Hl2)
      as Hc.
    rewrite Hd in Hc. now injection Hc. }
  unfold MaterialConverter.convert_object in Hrun. rewrite Hd in Hrun.
  destruct (Nat.ltb_spec 2 (List.length d)); [|lia].
  pose proof (MaterialConverter.visits_each_once ord) as Hitems.
  set (items := MaterialConverter.entries ord) in *.
  pose proof (Permutation_length (Hitems _ d)) as Hsame.
  destruct (MaterialConverter.make_copies un obj (items _ d) 0 st)
    as [st1 [col|e]] eqn:Hm; [|discriminate].
  destruct (MaterialConverter.split_loop K fp msr is_cockpit (items _ col)
                                         st1)
    as [st2 [[]|e]] eqn:Hs; [|discriminate].
  injection Hrun as <- <-.
  destruct (make_copies_ok un obj (items _ d) 0 st st1 col Hm)
    as (Hle & Hcol & Hroot1 & Hmats1 & Hobjs).
  fold n in Hcol, Hobjs.
  assert (Hthree : List.length d = 3).
  { destruct Hle as [E|Hle]; [rewrite E in Hsame; simpl in Hsame|]; lia. }
  assert (Hthree' : List.length (items _ d) = 3) by lia.
  rewrite Hthree' in Hobjs. cbn [skipn firstn SplitSpec.suffixes] in Hobjs.
  fold SplitSpec.suffixes in Hobjs.
  set (cs := SplitSpec.copies un obj SplitSpec.suffixes
               (MaterialConverter.scene_objects st)) in *.
  assert (Hcs : List.length cs = 3) by (unfold cs; now rewrite length_copies).
  assert (Hhandles : map (fun e => snd (snd e)) col = seq n 3).
  { rewrite Hcol, handles_col_of. now rewrite Hthree'. }
  assert (Hperm : Permutation (items _ col) col) by apply Hitems.
  assert (Hlen1 : List.length (MaterialConverter.scene_objects st1) = n + 3).
  { rewrite Hobjs, length_app. fold n. lia. }
  destruct (split_loop_spec K fp msr is_cockpit Hslots (items _ col) st1 st2)
    as (Hlen2 & Hnames & Hother & Hexp & (ms & Hmats & Hms) & Hent).
  { apply (Permutation_NoDup
             (Permutation_sym
                (Permutation_map (fun e => snd (snd e)) Hperm))).
    rewrite Hhandles. apply seq_NoDup. }
  { intros k f h Hin.
    apply (Permutation_in _ Hperm) in Hin.
    apply (in_map (fun e => snd (snd e))) in Hin.
    rewrite Hhandles in Hin. cbn [snd] in Hin. apply in_seq in Hin. lia. }
  { exact Hs. }
  split; [reflexivity|]. split; [assumption|].
  split; [lia|].
  split.
  { intros j Hj. rewrite Hother.
    - rewrite Hobjs. now apply nth_error_app1.
    - intros Hin.
      apply (Permutation_in _ (Permutation_map (fun e => snd (snd e)) Hperm))
        in Hin.
      rewrite Hhandles in Hin. apply in_seq in Hin. lia. }
  split; [rewrite <- Hroot1; exact Hexp|].
  split.
  { exists ms. rewrite Hmats, Hmats1. split; [reflexivity|].
    rewrite Hms, (Permutation_length Hperm).
    rewrite <- (length_map (fun e => snd (snd e))), Hhandles.
    apply length_seq. }
  intros i k f Hi.
  assert (Hi3 : i < 3).
  { rewrite <- Hthree'. apply nth_error_Some. congruence. }
  destruct (nth_error SplitSpec.suffixes i) as [suffix|] eqn:Es.
  2:{ apply nth_error_None in Es. simpl in Es. lia. }
  assert (Hused : map MaterialConverter.name
                      (firstn (n + i) (MaterialConverter.scene_objects st2))
                  = map MaterialConverter.name
                        (MaterialConverter.scene_objects st ++ firstn i cs)).
  { rewrite (firstn_map_name _ _ (n + i) Hnames), Hobjs.
    rewrite firstn_app. fold n.
    rewrite firstn_all2 by (fold n; lia).
    replace (n + i - n) with i by lia. reflexivity. }
  rewrite Hused.
  assert (Hc0 : nth_error (MaterialConverter.scene_objects st1) (n + i)
                = Some (SplitSpec.copy_at un obj
                          (map MaterialConverter.name
                               (MaterialConverter.scene_objects st
                                ++ firstn i cs))
                          suffix)).
  { rewrite Hobjs, nth_error_app2 by (fold n; lia). fold n.
    replace (n + i - n) with i by lia.
    exact (nth_error_copies un obj SplitSpec.suffixes _ i suffix Es). }
  assert (Hin : In (k, (f, n + i)) (items _ col)).
  { apply (Permutation_in _ (Permutation_sym Hperm)).
    rewrite Hcol. now apply nth_error_col_of. }
  destruct (Hent k f (n + i) _ Hin Hc0) as (c & Hc & Hconv).
  exists suffix, c. split; [reflexivity|]. split; [exact Hc|].
  destruct (trimmed_copy_keeps msr Hslots
              (SplitSpec.copy_at un obj
                 (map MaterialConverter.name
                      (MaterialConverter.scene_objects st ++ firstn i cs))
                 suffix) f) as (Hdata & Hname & Htype).
  destruct Hconv as (m & slots & Hslots0 & ->).
  cbn [MaterialConverter.name MaterialConverter.type MaterialConverter.data].
  split; [exact Hname|]. split; [rewrite Htype; exact Hty|].
  split.
  { rewrite Hdata. cbn [SplitSpec.copy_at MaterialConverter.data].
    apply (trim_group _ mps mtps k); try assumption.
    rewrite <- Hcollect.
    apply (Permutation_in _ (Hitems _ d)).
    eapply nth_error_In; eassumption. }
  exists m, slots. split; [exact Hslots0|reflexivity].
Qed.

Lemma three_groups_split_by_group_witness :
  let obj := object_with_modes [4; 5; 4; 1]%Z in
  let st' := fst (run_in_order MaterialConverter.reverse_order
                               [4; 5; 4; 1]%Z) in
  let d := [(modes_of 4, [0; 2]); (modes_of 5, [1]); (modes_of 1, [3])] in
  MaterialConverter._get_tf_modes_from_ctypes obj = Py.Ok d
  /\ List.length (MaterialConverter.scene_objects st') = 1 + 3
  /\ map (fun o => (MaterialConverter.name o,
                    MaterialConverter.mtpoly (MaterialConverter.data o),
                    map (option_map MaterialConverter.mat_name)
                        (MaterialConverter.material_slots o)))
         (MaterialConverter.scene_objects st')
     = [("Cube",
         Some [MaterialConverter.mkMTexPoly 0 0 4 0;
               MaterialConverter.mkMTexPoly 0 0 5 0;
               MaterialConverter.mkMTexPoly 0 0 4 0;
               MaterialConverter.mkMTexPoly 0 0 1 0],
         [Some "Material"]);
        ("Cube.001SHADOW",
         Some [MaterialConverter.mkMTexPoly 0 0 1 0],
         [Some "Material_split_"]);
        ("Cube.001TILE",
         Some [MaterialConverter.mkMTexPoly 0 0 5 0],
         [Some "Material_split_TE"]);
        ("Cube.001INVISIBLE",
         Some [MaterialConverter.mkMTexPoly 0 0 4 0;
               MaterialConverter.mkMTexPoly 0 0 4 0],
         [Some "Material_split_TEDY"])]
  /\ (forall i k f,
        nth_error (MaterialConverter.entries MaterialConverter.reverse_order
                     _ d) i
        = Some (k, f) ->
        exists suffix c,
          nth_error SplitSpec.suffixes i = Some suffix
          /\ nth_error (MaterialConverter.scene_objects st') (1 + i) = Some c
          /\ MaterialConverter.data c
             = MaterialConverter.mkMesh (List.length f)
                 (Some (MaterialConverter.select f
                          (map (fun _ => MaterialConverter.mkMPoly 0 4 0 0)
                               [4; 5; 4; 1]%Z)))
                 (Some (MaterialConverter.select f
                          (map (fun m => MaterialConverter.mkMTexPoly 0 0 m 0)
                               [4; 5; 4; 1]%Z)))).
Proof.
  intros obj st' d. split; [reflexivity|].
  destruct (three_groups_split_by_group MaterialConverter.sample_constants
              sample_find_property sample_unique_name sample_slot_remove
              MaterialConverter.reverse_order false
              obj (MaterialConverter.mkState [obj] "aircraft" []) st'
              (map (fun _ => MaterialConverter.mkMPoly 0 4 0 0) [4; 5; 4; 1]%Z)
              (map (fun m => MaterialConverter.mkMTexPoly 0 0 m 0)
                   [4; 5; 4; 1]%Z)
              d [])
    as (_ & _ & Hlen & _ & _ & _ & Hcopies).
  - intros o z. repeat split.
  - reflexivity.
  - reflexivity.
  - reflexivity.
  - reflexivity.
  - reflexivity.
  - reflexivity.
  - simpl. lia.
  - reflexivity.
  - split; [exact Hlen|]. split; [reflexivity|].
    intros i k f Hi.
    destruct (Hcopies i k f Hi) as (suffix & c & Es & Hc & _ & _ & Hdata & _).
    exists suffix, c. repeat split; assumption.
Defined.

(** ** The armatures of [do_249_conversion] *)

Section ArmatureFacts.

Import Constants249 Convert.

Variable World : Type.
Variable H : Host World.

(** From [st] to [st']: [_converted_objects] loses nothing, the calls made
    are kept, and no call added passes to [convert_armature_animations] an
    object that [_converted_objects] held in [st]. *)
Definition grows (st st' : State World) : Prop :=
  incl (_converted_objects st) (_converted_objects st')
  /\ exists cs,
       calls st' = calls st ++ cs
       /\ forall scene obj,
            In (Call_convert_armature_animations scene obj) cs ->
            ~ In obj (_converted_objects st).

Definition is_armature_call (c : call) : bool :=
  match c with
  | Call_convert_armature_animations _ _ => true
  | _ => false
  end.

Lemma grows_refl (st : State World) : grows st st.
Proof.
  split; [apply incl_refl|]. exists []. split; [now rewrite app_nil_r|].
  intros scene obj [].
Qed.

Lemma grows_trans (a b c : State World) : grows a b -> grows b c -> grows a c.
Proof.
  intros [Hi1 (cs1 & E1 & N1)] [Hi2 (cs2 & E2 & N2)].
  split; [eapply incl_tran; eassumption|].
  exists (cs1 ++ cs2). split; [now rewrite E2, E1, app_assoc|].
  intros scene obj Hin Hobj. apply in_app_or in Hin. destruct Hin as [Hin|Hin].
  - exact (N1 scene obj Hin Hobj).
  - exact (N2 scene obj Hin (Hi1 obj Hobj)).
Qed.

Lemma grows_bind {A B : Type} (m : M World A) (k : A -> M World B)
    (st : State World) :
  grows st (fst (m st)) ->
  (forall st1 a, m st = (st1, Py.Ok a) -> grows st1 (fst (k a st1))) ->
  grows st (fst (bindM m k st)).
Proof.
  intros Hm Hk. unfold bindM.
  destruct (m st) as [st1 [a|e]] eqn:E; simpl in *; [|exact Hm].
  eapply grows_trans; [exact Hm|]. now apply Hk.
Qed.

Lemma grows_host_set (f : World -> World) (st : State World) :
  grows st (fst (host_set f st)).
Proof.
  split; [apply incl_refl|]. exists []. split; [simpl; now rewrite app_nil_r|].
  intros scene obj [].
Qed.

Lemma grows_host_call {A : Type} (c : call) (f : World -> World * Py.result A)
    (st : State World) :
  (forall scene obj, c = Call_convert_armature_animations scene obj ->
                     ~ In obj (_converted_objects st)) ->
  grows st (fst (host_call c f st)).
Proof.
  intros Hc. unfold host_call.
  destruct (f (world (record_call st c))) as [w r]. simpl.
  split; [apply incl_refl|]. exists [c]. split; [reflexivity|].
  intros scene obj [E|[]]. now apply (Hc scene obj).
Qed.

Lemma mem_In (x : object_ref) (l : list object_ref) :
  mem x l = true <-> In x l.
Proof.
  unfold mem. rewrite existsb_exists. split.
  - intros (y & Hy & E). apply Nat.eqb_eq in E. now subst.
  - intros Hin. exists x. split; [assumption|apply Nat.eqb_refl].
Qed.

Lemma set_update_incl (l s : list object_ref) : incl s (set_update s l).
Proof.
  revert s. induction l as [|x rest IH]; intros s; simpl; [apply incl_refl|].
  destruct (mem x s); [apply IH|].
  eapply incl_tran; [|apply IH]. apply incl_appl, incl_refl.
Qed.

Lemma set_update_holds (l s : list object_ref) (x : object_ref) :
  In x l -> In x (set_update s l).
Proof.
  revert s. induction l as [|y rest IH]; intros s; simpl; [tauto|].
  intros [->|Hin]; [|now apply IH].
  apply (set_update_incl rest). destruct (mem x s) eqn:E.
  - now apply mem_In.
  - apply in_or_app. right. now left.
Qed.

Lemma grows_update_converted (l : list object_ref) (st : State World) :
  grows st (fst (update_converted l st)).
Proof.
  split; [apply set_update_incl|]. exists [].
  split; [simpl; now rewrite app_nil_r|]. intros scene obj [].
Qed.

Lemma grows_armature_loop (scene : scene_ref) (objs : list object_ref) :
  forall st, grows st (fst (armature_loop H scene objs st)).
Proof.
  induction objs as [|obj rest IH]; intros st; [apply grows_refl|].
  cbn [armature_loop]. apply grows_bind; [apply grows_refl|].
  intros st1 selected Hsel. unfold unconverted_armature in Hsel.
  injection Hsel as <- <-.
  apply grows_bind; [|intros; apply IH].
  destruct (negb (mem obj (_converted_objects st))) eqn:Hnew; simpl;
    [|apply grows_refl].
  destruct (String.eqb _ "ARMATURE"); [|apply grows_refl].
  apply grows_bind.
  - apply grows_host_call. intros scene' obj' [= _ <-] Hin.
    apply mem_In in Hin. rewrite Hin in Hnew. discriminate.
  - intros st1 converted _. apply grows_update_converted.
Qed.

Lemma grows_manipulator_loop (scene : scene_ref) (objs : list object_ref) :
  forall st, grows st (fst (manipulator_loop H scene objs st)).
Proof.
  induction objs as [|obj rest IH]; intros st; [apply grows_refl|].
  cbn [manipulator_loop]. apply grows_bind; [|intros; apply IH].
  apply grows_host_call. discriminate.
Qed.

Lemma grows_rename_first_root (wf : WorkflowType) (i : nat)
    (new_roots : list object_ref) (st : State World) :
  grows st (fst (rename_first_root H wf i new_roots st)).
Proof.
  unfold rename_first_root.
  destruct (WorkflowType_eqb wf REGULAR); [|apply grows_refl].
  destruct new_roots; [apply grows_refl|apply grows_host_set].
Qed.

Lemma grows_convert_scene (wf : WorkflowType) (i : nat) (scene : scene_ref)
    (st : State World) :
  grows st (fst (convert_scene H wf i scene st)).
Proof.
  unfold convert_scene, convert_scene_objects.
  repeat first
    [ apply grows_host_set
    | apply grows_refl
    | apply grows_rename_first_root
    | apply grows_armature_loop
    | apply grows_manipulator_loop
    | apply grows_host_call; discriminate
    | apply grows_bind
    | intro ].
  unfold convert_layer_properties.
  destruct wf; first [apply grows_refl | apply grows_host_call; discriminate].
Qed.

Lemma grows_scene_loop (wf : WorkflowType) (scns : list scene_ref) :
  forall i st, grows st (fst (scene_loop H wf i scns st)).
Proof.
  induction scns as [|scene rest IH]; intros i st; [apply grows_refl|].
  cbn [scene_loop]. apply grows_bind; [apply grows_convert_scene|].
  intros; apply IH.
Qed.

End ArmatureFacts.

(** X21. Whatever the converters do, [do_249_conversion] leaves in
    [_converted_objects] all that it held, makes its calls after those
    already made, and never passes to [convert_armature_animations] an
    object that [_converted_objects] held when it was entered. *)
Theorem converted_objects_are_skipped :
  forall (World : Type) (H : Convert.Host World)
         (workflow_type : Constants249.WorkflowType)
         (st : Convert.State World),
    let st' := fst (Convert.do_249_conversion H workflow_type st) in
    incl (Convert._converted_objects st) (Convert._converted_objects st')
    /\ exists cs,
         Convert.calls st' = Convert.calls st ++ cs
         /\ forall scene obj,
              In (Convert.Call_convert_armature_animations scene obj) cs ->
              ~ In obj (Convert._converted_objects st).
Proof.
  intros World H wf st. cbv zeta. unfold Convert.do_249_conversion.
  destruct (0 <? Convert._runs st)%nat; [apply grows_refl|].
  match goal with
  | |- context [Convert.scene_loop H wf 1 ?l ?s] =>
      exact (grows_scene_loop World H wf l 1 s)
  end.
Qed.
